(** * RedGlacier: tile alignment, catalog link fix-up and shadow catalogs

    A shallow embedding of the notebooks of the RedGlacier repository and
    the properties their specification states about them.

    The notebooks are straight-line Python over third-party libraries
    (pystac, geopandas/shapely, rioxarray, urlpath).  Python code of the
    notebooks is translated into Rocq functions; calls that leave the
    notebooks (geometry predicates, raster operations, remote file access)
    are operations of interface classes, so every theorem holds for every
    implementation of the libraries.  Python exceptions are values of
    [exn].  Code that calls out runs in a monad that keeps a log of the
    calls; code that mutates catalog items returns the items as they are
    left.  Log and items survive a raised exception, as the outside
    world and Python objects do. *)

From Stdlib Require Import QArith Qcanon Ascii.
From stdpp Require Import base strings list gmap pretty numbers.

Open Scope Z_scope.

(* ================================================================== *)
(** * Part I: the embedding *)
(* ================================================================== *)

(** ** Python exceptions and results *)

Inductive exn : Type :=
  | AssertionError
  | KeyError
  | IndexError
  | ValueError
  | TypeError
  | AttributeError
  | ZeroDivisionError
  | ExternalError.   (* raised inside a library call: network, I/O, parsing *)

Inductive result (A : Type) : Type :=
  | Ok (a : A)
  | Raise (e : exn).
Arguments Ok {A} a.
Arguments Raise {A} e.

Definition rbind {A B} (r : result A) (k : A -> result B) : result B :=
  match r with
  | Ok a => k a
  | Raise e => Raise e
  end.

Declare Scope result_scope.
Delimit Scope result_scope with res.
Notation "x <- r ;; k" := (rbind r (fun x => k))
  (at level 100, r at next level, right associativity) : result_scope.
Open Scope result_scope.

Definition is_ok {A} (r : result A) : bool :=
  match r with Ok _ => true | Raise _ => false end.

#[export] Instance exn_eq_dec : EqDecision exn.
Proof. solve_decision. Defined.

#[export] Instance result_eq_dec {A} `{EqDecision A} : EqDecision (result A).
Proof. solve_decision. Defined.

(** [[f(x) for x in l]]: elements are evaluated left to right, the first
    exception ends the comprehension. *)
Fixpoint comprehension {A B} (f : A -> result B) (l : list A) : result (list B) :=
  match l with
  | [] => Ok []
  | x :: l' => y <- f x ;; ys <- comprehension f l' ;; Ok (y :: ys)
  end.

(** ** Python values found in a property mapping

    Property mappings are decoded JSON.  Scalars are modelled; floats and
    nested containers do not occur in the keys the notebooks read. *)

Inductive pyval : Type :=
  | PNone
  | PBool (b : bool)
  | PInt (z : Z)
  | PStr (s : string).

(** [str(v)] *)
Definition py_str (v : pyval) : string :=
  match v with
  | PNone => "None"
  | PBool true => "True"
  | PBool false => "False"
  | PInt z => pretty z
  | PStr s => s
  end.

(** [sep.join(l)] *)
Definition join (sep : string) (l : list string) : string := String.concat sep l.

(** [d[k]] on a mapping held as a finite map: [KeyError] when absent. *)
Definition getitem {V} (d : gmap string V) (k : string) : result V :=
  match d !! k with
  | Some v => Ok v
  | None => Raise KeyError
  end.

(** ** Python dictionaries built by the notebooks

    A [dict] keeps insertion order and holds a key once; the notebooks
    iterate over them ([tiles.items()], [band_urls.items()]), so they are
    association lists in insertion order. *)

Definition dict (V : Type) : Type := list (string * V).

Fixpoint dict_get {V} (d : dict V) (k : string) : option V :=
  match d with
  | [] => None
  | (k', v) :: d' => if decide (k' = k) then Some v else dict_get d' k
  end.

(** [k in d] *)
Definition dict_mem {V} (d : dict V) (k : string) : bool :=
  match dict_get d k with Some _ => true | None => false end.

(** [d[k] = v]: overwrite in place, or append a new key. *)
Fixpoint dict_set {V} (d : dict V) (k : string) (v : V) : dict V :=
  match d with
  | [] => [(k, v)]
  | (k', v') :: d' =>
      if decide (k' = k) then (k', v) :: d' else (k', v') :: dict_set d' k v
  end.

(** [d[k]] as an expression *)
Definition dict_getitem {V} (d : dict V) (k : string) : result V :=
  match dict_get d k with
  | Some v => Ok v
  | None => Raise KeyError
  end.

Definition dict_keys {V} (d : dict V) : list string := d.*1.

(** ** Catalog items

    [G] is the type of geometries, [B] of bounding boxes and [T] of
    timestamps of the libraries. *)

Record asset : Type := mk_asset {
  href : string;
  media_type : option string;
  roles : list string
}.

Record item (G B T : Type) : Type := mk_item {
  item_id : string;
  geometry : G;
  bbox : option B;
  datetime : option T;
  properties : gmap string pyval;
  assets : gmap string asset;
  links : list (string * string)      (* relation, target item id *)
}.
Arguments mk_item {G B T}.
Arguments item_id {G B T}.
Arguments geometry {G B T}.
Arguments bbox {G B T}.
Arguments datetime {G B T}.
Arguments properties {G B T}.
Arguments assets {G B T}.
Arguments links {G B T}.

(** ** Tile enumeration (all three retiling notebooks) *)

Section TileEnumeration.
Context {G B T : Type}.

Definition TILE_ID_KEYS : list string :=
  ["sentinel:utm_zone"; "sentinel:latitude_band"; "sentinel:grid_square"].

Definition get_sentinel2_tile_id (it : item G B T) : result string :=
  parts <- comprehension
             (fun k => v <- getitem (properties it) k ;; Ok (py_str v))
             TILE_ID_KEYS ;;
  Ok (join EmptyString parts).

(** The loop [for item in subcatalog.get_all_items(): ...] on the
    global dictionary [tiles]: how the loop ends, and the dictionary it
    leaves behind.  An exception ends the loop at the item that raised
    it; what was inserted before stays in [tiles]. *)
Fixpoint tiles_loop (items : list (item G B T)) (tiles : dict (item G B T))
  : result unit * dict (item G B T) :=
  match items with
  | [] => (Ok tt, tiles)
  | it :: rest =>
      match get_sentinel2_tile_id it with
      | Ok tile_id =>
          tiles_loop rest
            (if dict_mem tiles tile_id then tiles else dict_set tiles tile_id it)
      | Raise e => (Raise e, tiles)
      end
  end.

(** The cell: [tiles = {}], the loop, and [tiles] as the last
    expression.  The cell has a value, the dictionary, when the loop
    completes; when the loop raises, the cell raises. *)
Definition enumerate_tiles (items : list (item G B T)) : result (dict (item G B T)) :=
  match tiles_loop items [] with
  | (Ok _, tiles) => Ok tiles
  | (Raise e, _) => Raise e
  end.

End TileEnumeration.

(** ** Python string operations used by the notebooks *)

(** [s[i]] for [i >= 0] *)
Definition str_index (s : string) (i : nat) : result string :=
  match String.get i s with
  | Some c => Ok (String c EmptyString)
  | None => Raise IndexError
  end.

(** [s[i:]] *)
Fixpoint str_from (i : nat) (s : string) : string :=
  match i, s with
  | O, _ => s
  | S i', String _ s' => str_from i' s'
  | S _, EmptyString => EmptyString
  end.

(** [s[:n]] *)
Definition str_upto (n : nat) (s : string) : string := String.substring 0 n s.

(** [s[-1]] *)
Definition str_last (s : string) : result string :=
  match String.length s with
  | O => Raise IndexError
  | S n => str_index s n
  end.

(** [needle in s] *)
Definition str_contains (needle s : string) : bool :=
  match String.index 0 needle s with
  | Some _ => true
  | None => false
  end.

(** [s.split(sep)] for a one-character separator *)
Fixpoint str_split (sep : Ascii.ascii) (s : string) : list string :=
  match s with
  | EmptyString => [EmptyString]
  | String c s' =>
      if decide (c = sep) then EmptyString :: str_split sep s'
      else match str_split sep s' with
           | field :: fields => String c field :: fields
           | [] => [String c EmptyString]
           end
  end.

(** [l[-1]] *)
Definition list_last {A} (l : list A) : result A :=
  match list.last l with
  | Some x => Ok x
  | None => Raise IndexError
  end.

Definition ascii_upper (c : Ascii.ascii) : Ascii.ascii :=
  let n := Ascii.nat_of_ascii c in
  if bool_decide (97 <= n <= 122)%nat then Ascii.ascii_of_nat (n - 32) else c.

Definition ascii_lower (c : Ascii.ascii) : Ascii.ascii :=
  let n := Ascii.nat_of_ascii c in
  if bool_decide (65 <= n <= 90)%nat then Ascii.ascii_of_nat (n + 32) else c.

Fixpoint str_lower (s : string) : string :=
  match s with
  | EmptyString => EmptyString
  | String c s' => String (ascii_lower c) (str_lower s')
  end.

(** [s.capitalize()] on ASCII text *)
Definition capitalize (s : string) : string :=
  match s with
  | EmptyString => EmptyString
  | String c s' => String (ascii_upper c) (str_lower s')
  end.

(** A property value used as a string ([v[i]], [v[i:j]]): anything else is
    not subscriptable. *)
Definition as_str (v : pyval) : result string :=
  match v with
  | PStr s => Ok s
  | _ => Raise TypeError
  end.

(** [format(z, "02d")]: width two, padded with zeros, the sign counted. *)
Definition zfill2 (z : Z) : string :=
  if bool_decide (0 <= z < 10) then "0" +:+ pretty z else pretty z.

(** The replacement field [{:02d}] *)
Definition format_02d (v : pyval) : result string :=
  match v with
  | PInt z => Ok (zfill2 z)
  | PBool b => Ok (zfill2 (if b then 1 else 0))
  | PStr _ => Raise ValueError
  | PNone => Raise TypeError
  end.

(** ** Effects: a log of library calls, kept when an exception is raised

    A notebook cell runs against the outside world (remote storage, the
    local scratch directory).  What the world answers is given by the
    interface classes below; that a call happened, and when, is recorded
    in a log.  The log is returned with the result also when the result is
    an exception. *)

Inductive event : Type :=
  | EvGetAsset (item : string)
  | EvGetTarFile (url : string)
  | EvOpenRasterio (name : string)
  | EvMergeArrays (n : nat)
  | EvReproject
  | EvClipBox
  | EvToRaster (file : string)
  | EvUpload (file : string)
  | EvGlob (pattern : string)
  | EvRasterize (tile : string).

Definition M (A : Type) : Type := list event -> result A * list event.

Definition mret {A} (a : A) : M A := fun log => (Ok a, log).

Definition mbind {A B} (m : M A) (k : A -> M B) : M B :=
  fun log =>
    match m log with
    | (Ok a, log') => k a log'
    | (Raise e, log') => (Raise e, log')
    end.

(** A library call: the event is logged, then the answer is delivered. *)
Definition call {A} (ev : event) (answer : result A) : M A :=
  fun log => (answer, log ++ [ev]).

(** A step of the notebook itself that may raise. *)
Definition lift {A} (r : result A) : M A := fun log => (r, log).

Declare Scope M_scope.
Delimit Scope M_scope with M.
Notation "x <- m ;; k" := (mbind m (fun x => k))
  (at level 100, m at next level, right associativity) : M_scope.

(** [for x in l: body(x)] *)
Fixpoint for_each {A} (l : list A) (body : A -> M unit) : M unit :=
  match l with
  | [] => mret tt
  | x :: l' => (_ <- body x ;; for_each l' body)%M
  end.

(** [[f(x) for x in l]] with library calls inside *)
Fixpoint mcomprehension {A B} (f : A -> M B) (l : list A) : M (list B) :=
  match l with
  | [] => mret []
  | x :: l' => (y <- f x ;; ys <- mcomprehension f l' ;; mret (y :: ys))%M
  end.

(** [assert cond] *)
Definition assert (cond : bool) : result unit :=
  if cond then Ok tt else Raise AssertionError.

(** [series.iloc[i]] and [list[i]] for [i >= 0] *)
Definition iloc {A} (l : list A) (i : nat) : result A :=
  match l !! i with
  | Some x => Ok x
  | None => Raise IndexError
  end.

(** ** The geometry library (shapely / geopandas)

    [intersects_nonempty] is the library's contract for the predicate:
    two geometries intersect when their intersection is not empty. *)

Class Shapely (G B C : Type) : Type := {
  intersects : G -> G -> bool;
  intersection : G -> G -> G;
  is_empty : G -> bool;
  area : G -> Qc;
  bounds : G -> B;
  from_bounds : B -> G;
  geom_to_crs : C -> G -> G;
  unary_union : list G -> G;
  intersects_nonempty :
    forall a b, intersects a b = negb (is_empty (intersection a b))
}.

(** A row of a spatial index: a geometry and one attribute (the column
    the notebook reads: [fileurl], [RGI_CODE]). *)
Record row (G D : Type) : Type := mk_row {
  row_geometry : G;
  row_attr : D
}.
Arguments mk_row {G D}.
Arguments row_geometry {G D}.
Arguments row_attr {G D}.

(** [index[mask]]: rows at the positions where the mask is true. *)
Fixpoint boolean_index {A} (l : list A) (mask : list bool) : list A :=
  match l, mask with
  | x :: l', b :: mask' =>
      if b then x :: boolean_index l' mask' else boolean_index l' mask'
  | _, _ => []
  end.

(** The grid of a tile, as read from the item's B02 asset. *)
Record tile_grid (B C A : Type) : Type := mk_grid {
  da_bounds : B;                 (* da.rio.bounds() *)
  da_crs : C;                    (* da.spatial_ref.crs_wkt *)
  da_transform : A;              (* da.rio.transform() *)
  da_height : nat;               (* da.y.size *)
  da_width : nat                 (* da.x.size *)
}.
Arguments mk_grid {B C A}.
Arguments da_bounds {B C A}.
Arguments da_crs {B C A}.
Arguments da_transform {B C A}.
Arguments da_height {B C A}.
Arguments da_width {B C A}.

Section SourceLookup.
Context {G B C : Type} `{Shapely G B C}.

(** [index.intersects(geometry)] *)
Definition gdf_intersects {D} (index : list (row G D)) (geometry : G) : list bool :=
  map (fun r => intersects (row_geometry r) geometry) index.

(** The two lines shared by both resolvers:
    [mask = index.intersects(geometry); index = index[mask]]. *)
Definition select_intersecting {D} (index : list (row G D)) (geometry : G)
  : list (row G D) :=
  let mask := gdf_intersects index geometry in
  boolean_index index mask.

Definition get_itersecting_DEM_tile_URLs
    (index : list (row G string)) (geometry : G) : list string :=
  let index := select_intersecting index geometry in
  map row_attr index.

Definition get_itersecting_RGI_regions
    (index : list (row G Z)) (geometry : G) : list Z :=
  let index := select_intersecting index geometry in
  map row_attr index.

(** [index.to_crs(crs)] *)
Definition gdf_to_crs {D} (crs : C) (index : list (row G D)) : list (row G D) :=
  map (fun r => mk_row (geom_to_crs crs (row_geometry r)) (row_attr r)) index.

(** Glacier notebook, tile loop, from the lookup to the region code:
    [[
    rgi_codes = get_itersecting_RGI_regions(rgi_index, tile_geometry)
    assert len(rgi_codes) == 1, "Only one RGI region implemented!"
    rgi_code = rgi_codes.iloc[0]
    ]] *)
Definition resolve_rgi_code (rgi_index : list (row G Z)) (tile_geometry : G)
  : result Z :=
  let rgi_codes := get_itersecting_RGI_regions rgi_index tile_geometry in
  _ <- assert (bool_decide (length rgi_codes = 1%nat)) ;;
  iloc rgi_codes 0.

End SourceLookup.

(** ** The raster library and the storage (rioxarray, stac2dcache, the
    eratosthenes helpers)

    [R] rasters, [F] file contents, [A] affine transforms.  Operations
    that read the remote store or the scratch directory answer with a
    [result]: they may raise. *)

Class Rasterio (G R F B C A : Type) : Type := {
  get_asset : string -> result (tile_grid B C A);      (* asset B02 of an item *)
  transform_bounds : tile_grid B C A -> C -> B;         (* da.rio.transform_bounds *)
  (* members unpacked into the scratch directory, each under its path
     relative to that directory: components separated by [/], none of
     them empty, [.] or [..] *)
  get_tar_file : string -> result (list (string * F));
  directory : F;                  (* what open_rasterio meets at a directory *)
  iterdir : dict F -> dict F;                           (* directory order *)
  open_rasterio : F -> result R;
  merge_arrays : list R -> result R;
  reproject : R -> C -> A -> result R;
  clip_box : R -> B -> result R;
  to_raster : R -> string -> result unit;
  upload : string -> string -> result unit;
  glob : string -> result (list string);                (* dcache.glob *)
  (* glacier notebook, rest of the tile body: download, unzip, ll2utm,
     shape2raster, upload *)
  rasterize_region : string -> string -> tile_grid B C A -> result unit;
  (* coastline notebook, rest of the tile body: to_file, shape2raster,
     upload *)
  rasterize_land : string -> G -> tile_grid B C A -> result unit;
  iterdir_perm : forall d, iterdir d ≡ₚ d
}.

(** [s.endswith(suffix)]: what the pattern [*_dem.tif] asks of a name. *)
Definition ends_with (suffix s : string) : bool :=
  let n := String.length s in
  let k := String.length suffix in
  bool_decide (k <= n)%nat && String.eqb (String.substring (n - k) k s) suffix.

(** The scratch directory is kept as a dictionary from the paths of
    the members unpacked into it to what lies there.  Its own entries
    are the first components of these paths: a member [a_dem.tif] is an
    entry of the directory, a member [aux/a_dem.tif] lies under the
    entry [aux], which is a directory. *)

(** The text of a path before its first [/]. *)
Fixpoint first_component (p : string) : string :=
  match p with
  | EmptyString => EmptyString
  | String c p' =>
      if decide (c = "/"%char) then EmptyString
      else String c (first_component p')
  end.

(** The entry of the scratch directory that a member is, or lies under. *)
Definition top_entry {F} (directory : F) (member : string * F) : string * F :=
  let name := first_component member.1 in
  if String.eqb name member.1 then member else (name, directory).

(** The entries of the scratch directory itself, each name once. *)
Definition listdir {F} (directory : F) (tmpdir : dict F) : dict F :=
  foldl (fun d member =>
           let e := top_entry directory member in dict_set d e.1 e.2)
        [] tmpdir.

(** Unpacking an archive into the scratch directory: a member replaces a
    file of the same name. *)
Definition extractall {F} (tmpdir : dict F) (members : list (string * F)) : dict F :=
  foldl (fun d e => dict_set d e.1 e.2) tmpdir members.

Section Retiling.
Context {G R F B C A : Type} `{Shapely G B C} `{Rasterio G R F B C A}.
Context {T : Type}.

(** [pathlib.Path(tmpdir).glob("*_dem.tif")]: the entries of the scratch
    directory, in directory order, whose name matches.  The pattern has
    one component, so only entries of the directory itself are matched,
    none below it. *)
Definition glob_dem (tmpdir : dict F) : dict F :=
  filter (fun e => ends_with "_dem.tif" e.1 = true)
         (iterdir (listdir directory tmpdir)).

(** [for url in url_list: get_tar_file(url, tmpdir)] *)
Fixpoint download_tiles (url_list : list string) (tmpdir : dict F) : M (dict F) :=
  match url_list with
  | [] => mret tmpdir
  | url :: rest =>
      (members <- call (EvGetTarFile url) (get_tar_file url) ;;
       download_tiles rest (extractall tmpdir members))%M
  end.

Definition download_and_mosaic
    (url_list : list string) (bbox : B) (crs : C) (transform : A) : M R :=
  (tmpdir <- download_tiles url_list [] ;;
   let dem_tiles_filename := glob_dem tmpdir in
   dem_tiles <- mcomprehension
                  (fun f => call (EvOpenRasterio f.1) (open_rasterio f.2))
                  dem_tiles_filename ;;
   (* merge DEM tiles *)
   dem <- call (EvMergeArrays (length dem_tiles)) (merge_arrays dem_tiles) ;;
   (* reproject to image CRS *)
   dem_reproj <- call EvReproject (reproject dem crs transform) ;;
   (* crop area within tile *)
   dem_clip <- call EvClipBox (clip_box dem_reproj bbox) ;;
   mret dem_clip)%M.

(** Elevation notebook: body of the loop over [tiles.items()]. *)
Definition dem_tile_body (dem_tiles_url : string) (dem_index : list (row G string))
    (tile : string * item G B T) : M unit :=
  let '(tile_id, it) := tile in
  (da <- call (EvGetAsset (item_id it)) (get_asset (item_id it)) ;;
   let bbox := da_bounds da in
   let crs := da_crs da in
   let transform := da_transform da in
   let tile_geometry := from_bounds bbox in
   let urls := get_itersecting_DEM_tile_URLs (gdf_to_crs crs dem_index)
                                             tile_geometry in
   dem <- download_and_mosaic urls bbox crs transform ;;
   let output_file := tile_id +:+ ".tif" in
   _ <- call (EvToRaster output_file) (to_raster dem output_file) ;;
   call (EvUpload output_file)
        (upload output_file (dem_tiles_url +:+ "/" +:+ output_file)))%M.

(** Glacier notebook: body of the loop over [tiles.items()]. *)
Definition rgi_tile_body (rgi_root_url : string) (rgi_index_crs : C)
    (rgi_index : list (row G Z)) (tile : string * item G B T) : M unit :=
  let '(tile_id, it) := tile in
  (da <- call (EvGetAsset (item_id it)) (get_asset (item_id it)) ;;
   let tile_geometry := from_bounds (transform_bounds da rgi_index_crs) in
   rgi_code <- lift (resolve_rgi_code rgi_index tile_geometry) ;;
   let pattern := rgi_root_url +:+ "/" +:+ zfill2 rgi_code +:+ "_rgi60_*.zip" in
   rgi_region_path <- call (EvGlob pattern) (glob pattern) ;;
   rgi_region_path <- lift (list_last rgi_region_path) ;;   (* .pop() *)
   call (EvRasterize tile_id) (rasterize_region tile_id rgi_region_path da))%M.

(** Coastline notebook: body of the loop over [tiles.items()]. *)
Definition gshhs_tile_body (gshhs_crs : C) (gshhs : list (row G unit))
    (tile : string * item G B T) : M unit :=
  let '(tile_id, it) := tile in
  (da <- call (EvGetAsset (item_id it)) (get_asset (item_id it)) ;;
   let crs := da_crs da in
   let tile_geometry := from_bounds (transform_bounds da gshhs_crs) in
   let mask := gdf_intersects gshhs tile_geometry in
   let gshhs_sub := boolean_index gshhs mask in
   let res := map (fun r => intersection (row_geometry r) tile_geometry)
                  gshhs_sub in
   let shape_utm := unary_union (map (geom_to_crs crs) res) in
   call (EvRasterize tile_id) (rasterize_land tile_id shape_utm da))%M.

Definition dem_tile_loop url index (tiles : dict (item G B T)) : M unit :=
  for_each tiles (dem_tile_body url index).

Definition rgi_tile_loop root crs index (tiles : dict (item G B T)) : M unit :=
  for_each tiles (rgi_tile_body root crs index).

Definition gshhs_tile_loop crs index (tiles : dict (item G B T)) : M unit :=
  for_each tiles (gshhs_tile_body crs index).

End Retiling.

(** ** Link fix-up: notebook 02-link-assets-to-gcs *)

(** One [dataObject] element of a manifest: its [ID] attribute, and the
    [href] of its [byteStream/fileLocation] child (the child, and the
    attribute, may be missing). *)
Record data_object : Type := mk_data_object {
  ID : option string;
  file_location : option (option string)
}.

Class Urlpath : Type := {
  url_join : string -> string -> string;    (* url / segment *)
  url_stem : string -> string;              (* url.stem *)
  as_uri : string -> string;                (* url.as_uri() *)
  (* get_text() of the manifest, parsed, its dataObject elements in
     document order *)
  fetch_manifest : string -> result (list data_object)
}.

Definition set_href (a : asset) (url : string) : asset :=
  mk_asset url (media_type a) (roles a).

Definition set_assets {G B T} (it : item G B T) (new : gmap string asset) : item G B T :=
  mk_item (item_id it) (geometry it) (bbox it) (datetime it) (properties it)
          new (links it).

Module LinkAssets.
Section LinkAssets.
Context `{Urlpath} {G B T : Type}.

Definition BASE_URL : string :=
  "http://storage.googleapis.com/gcp-public-data-sentinel-2/tiles".

(** The loop of [_get_band_urls] over [root.iter('dataObject')]. *)
Fixpoint band_urls_loop (url : string) (objects : list data_object)
    (band_urls : dict string) : result (dict string) :=
  match objects with
  | [] => Ok band_urls
  | data_object :: rest =>
      match ID data_object with
      | Some id =>
          if str_contains "IMG_DATA" id then
            loc <- match file_location data_object with
                   | Some loc => Ok loc
                   | None => Raise AttributeError
                   end ;;
            h <- match loc with
                 | Some h => Ok h
                 | None => Raise TypeError
                 end ;;
            let band_url := url_join url h in
            band <- list_last (str_split "_"%char (url_stem band_url)) ;;
            band_urls_loop url rest (dict_set band_urls band (as_uri band_url))
          else band_urls_loop url rest band_urls
      | None => band_urls_loop url rest band_urls
      end
  end.

Definition _get_band_urls (url : string) : result (dict string) :=
  let manifest_url := url_join url "manifest.safe" in
  objects <- fetch_manifest manifest_url ;;
  band_urls_loop url objects [].

(** The URL built at the head of the loop body:
    ['{}/{:02d}/{}/{}/{}.SAFE'.format(BASE_URL, ...)]. *)
Definition safe_url (it : item G B T) : result string :=
  zone <- getitem (properties it) "sentinel:utm_zone" ;;
  band <- getitem (properties it) "sentinel:latitude_band" ;;
  square <- getitem (properties it) "sentinel:grid_square" ;;
  product <- getitem (properties it) "sentinel:product_id" ;;
  zone02 <- format_02d zone ;;
  Ok (BASE_URL +:+ "/" +:+ zone02 +:+ "/" +:+ py_str band +:+ "/"
      +:+ py_str square +:+ "/" +:+ py_str product +:+ ".SAFE").

(** [[
    for band, url in band_urls.items():
        if band in item.assets:
            item.assets[band].href = url
    ]] *)
Fixpoint relink_bands (band_urls : dict string) (assets : gmap string asset)
  : gmap string asset :=
  match band_urls with
  | [] => assets
  | (band, url) :: rest =>
      relink_bands rest
        (match assets !! band with
         | Some a => <[band := set_href a url]> assets
         | None => assets
         end)
  end.

(** The loop body on one item.  The item is an object mutated in place:
    the second component is the item as it is left, also when the body
    raises. *)
Definition relink_item (it : item G B T) : result unit * item G B T :=
  match safe_url it with
  | Raise e => (Raise e, it)
  | Ok url =>
      match _get_band_urls url with
      | Raise e => (Raise e, it)
      | Ok band_urls =>
          let it1 := set_assets it (relink_bands band_urls (assets it)) in
          (* the right-hand side is evaluated first *)
          match dict_getitem band_urls "TCI" with
          | Raise e => (Raise e, it1)
          | Ok tci =>
              match assets it1 !! "overview" with
              | None => (Raise KeyError, it1)
              | Some a =>
                  (Ok tt,
                   set_assets it1 (<["overview" := set_href a tci]> (assets it1)))
              end
          end
      end
  end.

(** [for item in collection.get_all_items(): ...]: the collection after
    the loop, with the exception that ended it, if any. *)
Fixpoint relink_loop (items : list (item G B T)) : result unit * list (item G B T) :=
  match items with
  | [] => (Ok tt, [])
  | it :: rest =>
      match relink_item it with
      | (Ok _, it') =>
          let '(r, rest') := relink_loop rest in (r, it' :: rest')
      | (Raise e, it') => (Raise e, it' :: rest)
      end
  end.

End LinkAssets.
End LinkAssets.

(** ** Sensor-array metadata: notebook 03_sentinel-2_add-sensor-arrays *)

Module SensorArrays.
Section SensorArrays.
Context {G B T : Type}.

Definition SENTINEL2_BUCKET : string := "gcp-public-data-sentinel-2".
Definition BASE_URL : string := "http://storage.googleapis.com".

Definition make_url (it : item G B T) (path_rel : string) : result string :=
  v <- getitem (properties it) "s2:mgrs_tile" ;;
  tile_id <- as_str v ;;
  let zone := str_upto 2 tile_id in
  band <- str_index tile_id 2 ;;
  let square := str_from 3 tile_id in
  let path := SENTINEL2_BUCKET +:+ "/tiles/"
              +:+ zone +:+ "/" +:+ band +:+ "/" +:+ square +:+ "/"
              +:+ item_id it +:+ "/"
              +:+ path_rel in
  Ok (BASE_URL +:+ "/" +:+ path).

End SensorArrays.
End SensorArrays.

(** ** Shadow-classification catalog: second notebook of
    03-extract_bbox_from_RGI

    Areas are exact rationals; the rounding of the floating-point
    quotient in the notebook is not part of the model. *)

Class PyRuntime (T : Type) : Type := {
  strftime : T -> string -> string;       (* datetime.strftime(format) *)
  py_int : string -> result Z             (* int(text) *)
}.

(** [a / b] on numbers *)
Definition truediv (a b : Qc) : result Qc :=
  if decide (b = 0%Qc) then Raise ZeroDivisionError else Ok (a / b)%Qc.

Definition add_link {G B T} (it : item G B T) (rel target : string) : item G B T :=
  mk_item (item_id it) (geometry it) (bbox it) (datetime it) (properties it)
          (assets it) (links it ++ [(rel, target)]).

(** [catalog.get_item(id, recursive=True)]: the item, or [None]. *)
Definition get_item {G B T} (catalog : list (item G B T)) (id : string)
  : option (item G B T) :=
  snd <$> list_find (fun it => item_id it = id) catalog.

(** [obj.attr] where [obj] may be [None] *)
Definition not_none {A} (o : option A) : result A :=
  match o with
  | Some a => Ok a
  | None => Raise AttributeError
  end.

Module Shadows.
Section Shadows.
Context {G B C T : Type} `{Shapely G B C} `{PyRuntime T}.

Definition _get_l2a_item (item_l1c : item G B T) (catalog_l2a : list (item G B T))
  : result (option (item G B T)) :=
  v <- getitem (properties item_l1c) "platform" ;;
  name <- as_str v ;;
  letter <- str_last name ;;
  let platform := capitalize letter in
  v <- getitem (properties item_l1c) "s2:mgrs_tile" ;;
  mgrs_tile <- as_str v ;;
  utm_zone <- py_int (String.substring 0 2 mgrs_tile) ;;
  let cell := str_from 2 mgrs_tile in
  dt <- not_none (datetime item_l1c) ;;
  let date := strftime dt "%Y%m%d" in
  let item_l2a_id := "S2" +:+ platform +:+ "_" +:+ pretty utm_zone +:+ cell
                     +:+ "_" +:+ date +:+ "_0_L2A" in
  Ok (get_item catalog_l2a item_l2a_id).

(** Body of the loop over the level-1C items: the item to append, if
    one is created. *)
Definition shadow_item (aoi_geometry : G) (catalog_l2a : list (item G B T))
    (item_l1c : item G B T) : result (option (item G B T)) :=
  let item_geometry := geometry item_l1c in
  let geometry := intersection item_geometry aoi_geometry in
  ratio <- truediv (area geometry) (area aoi_geometry) ;;
  if bool_decide (Q2Qc (7 # 10) < ratio)%Qc then
    dt <- not_none (datetime item_l1c) ;;
    let it := mk_item (strftime dt "S2_%Y-%m-%d") geometry
                      (Some (bounds geometry)) (datetime item_l1c) ∅ ∅ [] in
    item_l2a <- _get_l2a_item item_l1c catalog_l2a ;;
    let it := add_link it "item-L1C" (item_id item_l1c) in
    let it := match item_l2a with
              | Some l2a => add_link it "item-L2A" (item_id l2a)
              | None => it
              end in
    Ok (Some it)
  else Ok None.

Fixpoint shadow_loop (aoi_geometry : G) (catalog_l2a : list (item G B T))
    (l1c_items : list (item G B T)) (items : list (item G B T))
  : result (list (item G B T)) :=
  match l1c_items with
  | [] => Ok items
  | item_l1c :: rest =>
      o <- shadow_item aoi_geometry catalog_l2a item_l1c ;;
      shadow_loop aoi_geometry catalog_l2a rest
        (match o with Some it => items ++ [it] | None => items end)
  end.

Definition shadow_items aoi_geometry catalog_l2a l1c_items :=
  shadow_loop aoi_geometry catalog_l2a l1c_items [].

End Shadows.
End Shadows.

(** ** Reading and saving catalogs (retiling and shadow notebooks) *)

(** First statement of [read_catalog] and [_read_catalog]:
    [url if url.endswith("catalog.json") else f"{url}/catalog.json"]. *)
Definition catalog_file_url (url : string) : string :=
  if ends_with "catalog.json" url then url else url +:+ "/catalog.json".

(** [read_catalog], with [pystac.Catalog.from_file] as a parameter. *)
Definition read_catalog {Cat : Type} (from_file : string -> result Cat)
    (url : string) : result Cat :=
  let url := catalog_file_url url in
  from_file url.

(** [p.rfind("/") + 1] *)
Fixpoint after_last_slash (p : string) : nat :=
  match p with
  | EmptyString => O
  | String c p' =>
      match after_last_slash p' with
      | O => if decide (c = "/"%char) then 1%nat else O
      | S i => S (S i)
      end
  end.

(** ["/" * n] *)
Fixpoint slashes (n : nat) : string :=
  match n with
  | O => EmptyString
  | S n' => String "/"%char (slashes n')
  end.

(** [s.rstrip(c)] for one character *)
Fixpoint rstrip (c : Ascii.ascii) (s : string) : string :=
  match s with
  | EmptyString => EmptyString
  | String a s' =>
      match rstrip c s' with
      | EmptyString => if decide (a = c) then EmptyString else String a EmptyString
      | r => String a r
      end
  end.

(** [os.path.split(p)] (posixpath):
    [[
    i = p.rfind(sep) + 1
    head, tail = p[:i], p[i:]
    if head and head != sep*len(head):
        head = head.rstrip(sep)
    return head, tail
    ]] *)
Definition os_path_split (p : string) : string * string :=
  let i := after_last_slash p in
  let head := str_upto i p in
  let tail := str_from i p in
  let head :=
    if negb (String.eqb head EmptyString)
       && negb (String.eqb head (slashes (String.length head)))
    then rstrip "/"%char head else head in
  (head, tail).

(** [_save_catalog], with the pystac calls (create the catalog, add the
    items, generate the sub-catalogs, normalize and save) as a parameter
    that receives the catalog id, the items, the template and the root. *)
Definition _save_catalog {I : Type}
    (normalize_and_save : string -> list I -> option string -> string -> result unit)
    (items : list I) (url : string) (template : option string) : result unit :=
  let url := if negb (ends_with "catalog.json" url) then url
             else (os_path_split url).1 in
  let catalog_id := (os_path_split url).2 in
  normalize_and_save catalog_id items template url.

(** ** Bounding box of a glacier: first notebook of
    03-extract_bbox_from_RGI *)

Class Pyproj (G C : Type) : Type := {
  (* filesystem.open + geopandas.read_file; the attribute is RGIId *)
  read_glaciers : string -> result (list (row G string));
  transform_from_wgs84 : C -> G -> G;   (* shapely.ops.transform, wgs84 -> crs *)
  transform_to_wgs84 : C -> G -> G;     (* shapely.ops.transform, crs -> wgs84 *)
  buffer : G -> Z -> G;
  envelope : G -> G
}.

(** [series.item()]: the only element, [ValueError] for any other
    length. *)
Definition series_item {A} (l : list A) : result A :=
  match l with
  | [x] => Ok x
  | _ => Raise ValueError
  end.

Section GlacierBBox.
Context {G B C : Type} `{Shapely G B C} `{Pyproj G C}.

Definition _get_bbox_from_glacier (shapefile_url id : string) (crs : C)
    (buffer_m : Z) : result B :=
  glaciers <- read_glaciers shapefile_url ;;
  let mask := map (fun r => bool_decide (row_attr r = id)) glaciers in
  let glacier := boolean_index glaciers mask in
  glacier_geom <- series_item (map row_geometry glacier) ;;
  (* transform to new CRS *)
  let glacier_geom_utm := transform_from_wgs84 crs glacier_geom in
  let glacier_geom_utm := envelope (buffer glacier_geom_utm buffer_m) in
  Ok (bounds glacier_geom_utm).

Definition _get_polygon_wgs84 (bbox : B) (crs : C) : G :=
  let polygon_utm := from_bounds bbox in
  transform_to_wgs84 crs polygon_utm.

End GlacierBBox.

(** ** Sensor-array assets: [add_sensor_array_metadata_as_assets] *)

(** An element under [Pixel_Level_QI]: its [type] attribute and its
    text, either of which may be missing. *)
Record qi_element : Type := mk_qi_element {
  el_type : option string;
  el_text : option string
}.

Class Granule : Type := {
  get_absolute_href : asset -> string;
  (* fs.cat of the granule metadata, decoded and parsed: the children of
     root[-1][1] in document order *)
  pixel_level_qi : string -> result (list qi_element);
  path_str : string -> string;        (* str(pathlib.Path(text)) *)
  path_stem : string -> string;       (* pathlib.Path(text).stem *)
  path_suffix : string -> string      (* pathlib.Path(text).suffix *)
}.

(** [pystac.MediaType.JPEG2000] and [pystac.MediaType.XML] *)
Definition EXT_TO_MEDIATYPE : dict string :=
  [(".jp2", "image/jp2"); (".gml", "application/xml")].

(** [item.add_asset(key, asset)] *)
Definition add_asset {G B T} (it : item G B T) (key : string) (a : asset)
  : item G B T :=
  set_assets it (<[key := a]> (assets it)).

Module SensorAssets.
Section SensorAssets.
Context `{Granule} {G B T : Type}.

(** What one [MSK_DETFOO] element contributes: the asset key and the
    asset. *)
Definition sensor_asset (it : item G B T) (el : qi_element)
  : result (string * asset) :=
  text <- match el_text el with
          | Some text => Ok text
          | None => Raise TypeError
          end ;;
  href <- SensorArrays.make_url it (path_str text) ;;
  band_key <- list_last (str_split "_"%char (path_stem text)) ;;
  media_type <- dict_getitem EXT_TO_MEDIATYPE (path_suffix text) ;;
  Ok ("sensor-metadata-" +:+ band_key,
      mk_asset href (Some media_type) ["metadata"]).

(** The loop [for el in root[-1][1]: ...]; the item is mutated in place
    and returned as it is left. *)
Fixpoint sensor_array_loop (els : list qi_element) (it : item G B T)
  : result unit * item G B T :=
  match els with
  | [] => (Ok tt, it)
  | el :: rest =>
      match el_type el with
      | None => (Raise KeyError, it)
      | Some type =>
          if String.eqb type "MSK_DETFOO" then
            match sensor_asset it el with
            | Ok (key, a) => sensor_array_loop rest (add_asset it key a)
            | Raise e => (Raise e, it)
            end
          else sensor_array_loop rest it
      end
  end.

Definition add_sensor_array_metadata_as_assets (it : item G B T)
  : result unit * item G B T :=
  match getitem (assets it) "granule-metadata" with
  | Raise e => (Raise e, it)
  | Ok granule =>
      match pixel_level_qi (get_absolute_href granule) with
      | Raise e => (Raise e, it)
      | Ok els => sensor_array_loop els it
      end
  end.

End SensorAssets.
End SensorAssets.

(** ** A small implementation of the library interfaces

    Axis-parallel closed rectangles with integer corners stand in for the
    geometries, lists of source names for rasters.  The instances serve
    to run the notebooks on concrete inputs. *)

Module Toy.

Record box : Type := mk_box { xmin : Z; ymin : Z; xmax : Z; ymax : Z }.

Definition box_is_empty (b : box) : bool :=
  bool_decide (xmax b < xmin b \/ ymax b < ymin b).

Definition box_intersection (a b : box) : box :=
  mk_box (Z.max (xmin a) (xmin b)) (Z.max (ymin a) (ymin b))
         (Z.min (xmax a) (xmax b)) (Z.min (ymax a) (ymax b)).

(** Two rectangles meet when both are inhabited and their projections
    overlap on both axes. *)
Definition box_intersects (a b : box) : bool :=
  bool_decide (xmin a <= xmax a /\ ymin a <= ymax a /\
               xmin b <= xmax b /\ ymin b <= ymax b /\
               xmin a <= xmax b /\ xmin b <= xmax a /\
               ymin a <= ymax b /\ ymin b <= ymax a).

Definition box_area (b : box) : Qc :=
  if box_is_empty b then 0%Qc
  else Qc_of_Z ((xmax b - xmin b) * (ymax b - ymin b)).

(** The smallest rectangle around all the given ones. *)
Definition box_hull (l : list box) : box :=
  match filter (fun b => box_is_empty b = false) l with
  | [] => mk_box 0 0 (-1) (-1)
  | b :: bs =>
      foldl (fun h c => mk_box (Z.min (xmin h) (xmin c)) (Z.min (ymin h) (ymin c))
                               (Z.max (xmax h) (xmax c)) (Z.max (ymax h) (ymax c)))
            b bs
  end.

#[export] Instance box_shapely : Shapely box box unit.
Proof.
  refine {| intersects := box_intersects;
            intersection := box_intersection;
            is_empty := box_is_empty;
            area := box_area;
            bounds := fun b => b;
            from_bounds := fun b => b;
            geom_to_crs := fun _ b => b;
            unary_union := box_hull |}.
  intros [ax ay aX aY] [bx by_ bX bY].
  unfold box_intersects, box_is_empty, box_intersection; simpl.
  repeat case_bool_decide; simpl; try reflexivity; exfalso; lia.
Defined.

(** One grid for every item: the square from (0,0) to (10,10). *)
Definition toy_grid : tile_grid box unit unit :=
  mk_grid (mk_box 0 0 10 10) tt tt 10 10.

(** Rasters are the names of the sources they were made of.  An archive
    at [url] unpacks to a DEM file, a file the pattern does not match,
    and a copy of the DEM file in the sub-directory [index]; a directory
    cannot be opened as a raster; merging nothing fails. *)
#[export] Instance toy_rasterio : Rasterio box (list string) string box unit unit.
Proof.
  refine {| get_asset := fun _ => Ok toy_grid;
            transform_bounds := fun da _ => da_bounds da;
            get_tar_file := fun url =>
              Ok [(url +:+ "_dem.tif", url); (url +:+ "_matchtag.tif", url);
                  ("index/" +:+ url +:+ "_dem.tif", url)];
            directory := "<directory>";
            iterdir := fun d => d;
            open_rasterio := fun f =>
              if decide (f = "<directory>") then Raise ExternalError else Ok [f];
            merge_arrays := fun rs =>
              match rs with [] => Raise ValueError | _ => Ok (concat rs) end;
            reproject := fun r _ _ => Ok r;
            clip_box := fun r _ => Ok r;
            to_raster := fun _ _ => Ok tt;
            upload := fun _ _ => Ok tt;
            glob := fun pattern => Ok [pattern];
            rasterize_region := fun _ _ _ => Ok tt;
            rasterize_land := fun _ _ _ => Ok tt |}.
  intros d; reflexivity.
Defined.

(** URLs are joined with a slash; the manifest of a product whose URL
    ends in [FULL.SAFE] lists bands B02 and TCI, any other manifest
    lists band B02 only. *)
#[export] Instance toy_urlpath : Urlpath :=
  {| url_join := fun url seg => url +:+ "/" +:+ seg;
     url_stem := fun url => url;
     as_uri := fun url => url;
     fetch_manifest := fun url =>
       if ends_with "FULL.SAFE/manifest.safe" url then
         Ok [mk_data_object (Some "IMG_DATA_Band_B02") (Some (Some "T_B02"));
             mk_data_object (Some "S2_Level-1C_Product_Metadata") (Some (Some "MTD.xml"));
             mk_data_object (Some "IMG_DATA_Band_TCI") (Some (Some "T_TCI"))]
       else
         Ok [mk_data_object (Some "IMG_DATA_Band_B02") (Some (Some "T_B02"))] |}.

(** Timestamps are day numbers; [int] reads one or two digits. *)
Definition digit_value (c : ascii) : option Z :=
  let n := nat_of_ascii c in
  if bool_decide (48 <= n <= 57)%nat then Some (Z.of_nat (n - 48)) else None.

Definition toy_int (s : string) : result Z :=
  match s with
  | String a EmptyString =>
      match digit_value a with Some x => Ok x | None => Raise ValueError end
  | String a (String b EmptyString) =>
      match digit_value a, digit_value b with
      | Some x, Some y => Ok (10 * x + y)
      | _, _ => Raise ValueError
      end
  | _ => Raise ValueError
  end.

#[export] Instance toy_runtime : PyRuntime Z :=
  {| strftime := fun t fmt => fmt +:+ pretty t;
     py_int := toy_int |}.

Definition toy_item (id : string) (g : box) (props : list (string * pyval))
    (ast : list (string * asset)) : item box box Z :=
  mk_item id g None (Some 0) (list_to_map props) (list_to_map ast) [].

Definition tile_props (zone : Z) (band square : string) : list (string * pyval) :=
  [("sentinel:utm_zone", PInt zone);
   ("sentinel:latitude_band", PStr band);
   ("sentinel:grid_square", PStr square)].

(** Inputs of the examples. *)

Definition tile_5VMG : item box box Z :=
  toy_item "S2B_5VMG_20210329_0_L1C" (mk_box 0 0 10 10) (tile_props 5 "V" "MG") [].

(* one region over the tile, one far from it *)
Definition rgi_one_match : list (row box Z) :=
  [mk_row (mk_box 5 5 20 20) 1; mk_row (mk_box 30 30 40 40) 2].

(* two regions over the tile *)
Definition rgi_two_matches : list (row box Z) :=
  [mk_row (mk_box 5 5 20 20) 1; mk_row (mk_box (-5) (-5) 3 3) 2].

(* no region over the tile *)
Definition rgi_no_match : list (row box Z) :=
  [mk_row (mk_box 30 30 40 40) 2].

(* two elevation tiles over the tile, one far from it *)
Definition dem_two_matches : list (row box string) :=
  [mk_row (mk_box 5 5 20 20) "u1"; mk_row (mk_box 30 30 40 40) "u2";
   mk_row (mk_box (-5) (-5) 3 3) "u3"].

Definition gshhs_two_matches : list (row box unit) :=
  [mk_row (mk_box 5 5 20 20) tt; mk_row (mk_box (-5) (-5) 3 3) tt].

(* a second scene of tile 5VMG and a scene of another tile *)
Definition tile_5VMG_later : item box box Z :=
  toy_item "S2A_5VMG_20210401_0_L1C" (mk_box 0 0 10 10) (tile_props 5 "V" "MG") [].

Definition tile_6VMG : item box box Z :=
  toy_item "S2A_6VMG_20210401_0_L1C" (mk_box 0 0 10 10) (tile_props 6 "V" "MG") [].

(* level-1C scenes to re-link: the manifest of the first lists TCI,
   the manifest of the second does not *)
Definition scene_assets : list (string * asset) :=
  [("B02", mk_asset "s3://sentinel-s2-l1c/B02.jp2" (Some "image/jp2") ["data"]);
   ("B03", mk_asset "s3://sentinel-s2-l1c/B03.jp2" (Some "image/jp2") ["data"]);
   ("overview", mk_asset "s3://sentinel-s2-l1c/preview.jpg" (Some "image/jpeg")
                         ["overview"])].

Definition scene_full : item box box Z :=
  toy_item "S2B_5VMG_20210329_0_L1C" (mk_box 0 0 10 10)
           (tile_props 5 "V" "MG" ++ [("sentinel:product_id", PStr "FULL")])
           scene_assets.

Definition scene_part : item box box Z :=
  toy_item "S2A_5VMG_20210401_0_L1C" (mk_box 0 0 10 10)
           (tile_props 5 "V" "MG" ++ [("sentinel:product_id", PStr "PART")])
           scene_assets.

Definition scene_full_url : string :=
  "http://storage.googleapis.com/gcp-public-data-sentinel-2/tiles/05/V/MG/FULL.SAFE".

Definition scene_part_url : string :=
  "http://storage.googleapis.com/gcp-public-data-sentinel-2/tiles/05/V/MG/PART.SAFE".

(* a scene of the Copernicus catalog *)
Definition scene_mgrs : item box box Z :=
  toy_item "L1C_T05VMG_A021234" (mk_box 0 0 10 10)
           [("s2:mgrs_tile", PStr "05VMG"); ("platform", PStr "sentinel-2a")] [].

(* area of interest, and scenes covering all of it, 70% and 80% of it *)
Definition aoi : box := mk_box 0 0 10 10.

Definition shadow_props (platform : string) : list (string * pyval) :=
  [("platform", PStr platform); ("s2:mgrs_tile", PStr "05VMG")].

Definition scene_100 : item box box Z :=
  toy_item "L1C_a" (mk_box (-5) (-5) 20 20) (shadow_props "sentinel-2a") [].

Definition scene_70 : item box box Z :=
  toy_item "L1C_b" (mk_box 0 0 7 10) (shadow_props "sentinel-2a") [].

Definition scene_80 : item box box Z :=
  toy_item "L1C_c" (mk_box (-5) 0 8 10) (shadow_props "sentinel-2b") [].

Definition l2a_catalog : list (item box box Z) :=
  [toy_item "S2B_5VMG_%Y%m%d0_0_L2A" (mk_box 0 0 10 10) [] []].

(** Further library implementations and inputs. *)

(* a store in which the archive at "missing" cannot be fetched *)
Definition flaky_rasterio : Rasterio box (list string) string box unit unit.
Proof.
  refine {| get_asset := fun _ => Ok toy_grid;
            transform_bounds := fun da _ => da_bounds da;
            get_tar_file := fun url =>
              if String.eqb url "missing" then Raise ExternalError
              else Ok [(url +:+ "_dem.tif", url)];
            directory := "<directory>";
            iterdir := fun d => d;
            open_rasterio := fun f => Ok [f];
            merge_arrays := fun rs =>
              match rs with [] => Raise ValueError | _ => Ok (concat rs) end;
            reproject := fun r _ _ => Ok r;
            clip_box := fun r _ => Ok r;
            to_raster := fun _ _ => Ok tt;
            upload := fun _ _ => Ok tt;
            glob := fun _ => Ok [];
            rasterize_region := fun _ _ _ => Ok tt;
            rasterize_land := fun _ _ _ => Ok tt |}.
  intros d; reflexivity.
Defined.

(** The grid of the scene of tile 6VMG lies east of the grid of the
    other scenes. *)
Definition east_grid : tile_grid box unit unit :=
  mk_grid (mk_box 100 0 110 10) tt tt 10 10.

Definition two_grid_rasterio : Rasterio box (list string) string box unit unit.
Proof.
  refine {| get_asset := fun id =>
              if String.eqb id "S2A_6VMG_20210401_0_L1C" then Ok east_grid
              else Ok toy_grid;
            transform_bounds := fun da _ => da_bounds da;
            get_tar_file := fun url => Ok [(url +:+ "_dem.tif", url)];
            directory := "<directory>";
            iterdir := fun d => d;
            open_rasterio := fun f => Ok [f];
            merge_arrays := fun rs =>
              match rs with [] => Raise ValueError | _ => Ok (concat rs) end;
            reproject := fun r _ _ => Ok r;
            clip_box := fun r _ => Ok r;
            to_raster := fun _ _ => Ok tt;
            upload := fun _ _ => Ok tt;
            glob := fun pattern => Ok [pattern];
            rasterize_region := fun _ _ _ => Ok tt;
            rasterize_land := fun _ _ _ => Ok tt |}.
  intros d; reflexivity.
Defined.

(* an inventory in which one id occurs once, one twice *)
Definition inventory : list (row box string) :=
  [mk_row (mk_box 1 1 3 3) "RGI60-01.19773";
   mk_row (mk_box 5 5 6 6) "RGI60-01.00002";
   mk_row (mk_box 7 7 8 8) "RGI60-01.00002"].

#[export] Instance toy_pyproj : Pyproj box unit :=
  {| read_glaciers := fun _ => Ok inventory;
     transform_from_wgs84 := fun _ g => g;
     transform_to_wgs84 := fun _ g => g;
     buffer := fun g n =>
       mk_box (xmin g - n) (ymin g - n) (xmax g + n) (ymax g + n);
     envelope := fun g => g |}.

(* granule metadata with one detector-footprint mask and one other mask;
   paths have a four-character suffix *)
#[export] Instance toy_granule : Granule :=
  {| get_absolute_href := href;
     pixel_level_qi := fun _ =>
       Ok [mk_qi_element (Some "MSK_DETFOO") (Some "QI_DATA/MSK_DETFOO_B02.gml");
           mk_qi_element (Some "MSK_CLOUDS") (Some "QI_DATA/MSK_CLOUDS_B00.gml")];
     path_str := fun text => text;
     path_stem := fun text => str_upto (String.length text - 4) text;
     path_suffix := fun text => str_from (String.length text - 4) text |}.

Definition scene_granule : item box box Z :=
  toy_item "L1C_T05VMG_A021234" (mk_box 0 0 10 10)
           [("s2:mgrs_tile", PStr "05VMG")]
           [("granule-metadata",
             mk_asset "https://dcache/granule.xml" (Some "application/xml")
                      ["metadata"]);
            ("B02", mk_asset "https://dcache/B02.jp2" (Some "image/jp2") ["data"])].

(* a scene without the grid-square property, a scene without overview *)
Definition scene_no_square : item box box Z :=
  toy_item "S2A_no_square" (mk_box 0 0 10 10)
           [("sentinel:utm_zone", PInt 5); ("sentinel:latitude_band", PStr "V")] [].

Definition scene_no_overview : item box box Z :=
  toy_item "S2B_5VMG_20210329_0_L1C" (mk_box 0 0 10 10)
           (tile_props 5 "V" "MG" ++ [("sentinel:product_id", PStr "FULL")])
           [("B02", mk_asset "s3://sentinel-s2-l1c/B02.jp2" (Some "image/jp2")
                             ["data"])].

Definition dem_no_match : list (row box string) :=
  [mk_row (mk_box 30 30 40 40) "u2"].

Definition manifest_objects : list data_object :=
  [mk_data_object (Some "IMG_DATA_Band_B02") (Some (Some "T_B02"));
   mk_data_object None (Some (Some "x"));
   mk_data_object (Some "S2_Level-1C_Product_Metadata") (Some (Some "MTD.xml"));
   mk_data_object (Some "IMG_DATA_Band_TCI") (Some (Some "T_TCI"))].

(* stand-ins for pystac.Catalog.from_file and for saving a catalog *)
Definition from_file_echo (url : string) : result string := Ok url.

Definition save_echo (catalog_id : string) (items : list nat)
    (template : option string) (url : string) : result unit :=
  if String.eqb catalog_id "shadows" then Ok tt else Raise ExternalError.

End Toy.

(* ================================================================== *)
(** * Part II: properties *)
(* ================================================================== *)

(** ** General facts about the embedding *)

Lemma boolean_index_filter {A} (f : A -> bool) (l : list A) :
  boolean_index l (map f l) = filter (fun x => f x = true) l.
Proof.
  induction l as [|x l IH]; simpl; [reflexivity|].
  destruct (f x) eqn:Hfx.
  - rewrite filter_cons_True by assumption. by rewrite IH.
  - rewrite filter_cons_False by congruence. assumption.
Qed.

Section SourceLookupFacts.
Context {G B C : Type} `{Shapely G B C}.

Lemma select_intersecting_filter {D} (index : list (row G D)) (g : G) :
  select_intersecting index g
  = filter (fun r => intersects (row_geometry r) g = true) index.
Proof.
  unfold select_intersecting, gdf_intersects.
  apply (boolean_index_filter (fun r => intersects (row_geometry r) g)).
Qed.

Lemma intersects_true_iff (a b : G) :
  intersects a b = true <-> is_empty (intersection a b) = false.
Proof.
  rewrite intersects_nonempty. destruct (is_empty (intersection a b)); simpl.
  - split; discriminate.
  - split; reflexivity.
Qed.

Lemma filter_intersects_nonempty {D} (index : list (row G D)) (g : G) :
  filter (fun r => intersects (row_geometry r) g = true) index
  = filter (fun r => is_empty (intersection (row_geometry r) g) = false) index.
Proof.
  apply list_filter_iff. intros r. apply intersects_true_iff.
Qed.

(** What the glacier resolver does, by the number of matching rows. *)
Lemma resolve_rgi_code_cases (rgi_index : list (row G Z)) (g : G) :
  match filter (fun r => intersects (row_geometry r) g = true) rgi_index with
  | [r] => resolve_rgi_code rgi_index g = Ok (row_attr r)
  | _ => resolve_rgi_code rgi_index g = Raise AssertionError
  end.
Proof.
  unfold resolve_rgi_code, get_itersecting_RGI_regions.
  rewrite select_intersecting_filter.
  destruct (filter _ rgi_index) as [|r [|r' rest]]; reflexivity.
Qed.

(** A row meets the footprint when their intersection is not empty. *)
Local Abbreviation meets footprint :=
  (fun r => is_empty (intersection (row_geometry r) footprint) = false).

(** C4. For every spatial index and footprint, the rows the resolvers
    select are exactly the rows of the index whose geometry has a
    non-empty intersection with the footprint: the selection is the
    index filtered by that condition (same rows, same order, same
    multiplicity), a row is selected if and only if it is in the index
    and its intersection with the footprint is not empty, and the
    elevation and glacier resolvers return the [fileurl] and [RGI_CODE]
    columns of exactly these rows. *)
Theorem C4_selected_rows_are_exactly_the_intersecting_rows
    (dem_index : list (row G string)) (rgi_index : list (row G Z))
    (footprint : G) :
  select_intersecting dem_index footprint = filter (meets footprint) dem_index /\
  select_intersecting rgi_index footprint = filter (meets footprint) rgi_index /\
  (forall r, r ∈ select_intersecting dem_index footprint
             <-> r ∈ dem_index /\ meets footprint r) /\
  (forall r, r ∈ select_intersecting rgi_index footprint
             <-> r ∈ rgi_index /\ meets footprint r) /\
  get_itersecting_DEM_tile_URLs dem_index footprint
    = row_attr <$> filter (meets footprint) dem_index /\
  get_itersecting_RGI_regions rgi_index footprint
    = row_attr <$> filter (meets footprint) rgi_index.
Proof.
  assert (Hd : select_intersecting dem_index footprint
               = filter (meets footprint) dem_index)
    by (rewrite select_intersecting_filter; apply filter_intersects_nonempty).
  assert (Hr : select_intersecting rgi_index footprint
               = filter (meets footprint) rgi_index)
    by (rewrite select_intersecting_filter; apply filter_intersects_nonempty).
  split; [exact Hd|]. split; [exact Hr|].
  split; [intros r; rewrite Hd, list_elem_of_filter; tauto|].
  split; [intros r; rewrite Hr, list_elem_of_filter; tauto|].
  split.
  - unfold get_itersecting_DEM_tile_URLs. by rewrite Hd.
  - unfold get_itersecting_RGI_regions. by rewrite Hr.
Qed.

End SourceLookupFacts.

Section RetilingFacts.
Context {G R F B C A : Type} `{Shapely G B C} `{Rasterio G R F B C A}.
Context {T : Type}.

(** A row matches when the library predicate holds of its geometry and
    the footprint. *)
Local Abbreviation matching footprint :=
  (fun r => intersects (row_geometry r) footprint = true).

Lemma resolve_rgi_code_not_one (rgi_index : list (row G Z)) (g : G) :
  length (filter (matching g) rgi_index) <> 1%nat ->
  resolve_rgi_code rgi_index g = Raise AssertionError.
Proof.
  intros Hlen. pose proof (resolve_rgi_code_cases rgi_index g) as Hc.
  destruct (filter _ rgi_index) as [|r [|r' rest]]; try exact Hc.
  simpl in Hlen. congruence.
Qed.

Lemma rgi_tile_body_not_one (root : string) (crs : C)
    (rgi_index : list (row G Z))
    (tile_id : string) (it : item G B T) (da : tile_grid B C A)
    (log : list event) :
  get_asset (item_id it) = Ok da ->
  length (filter (matching (from_bounds (transform_bounds da crs))) rgi_index)
    <> 1%nat ->
  rgi_tile_body root crs rgi_index (tile_id, it) log
  = (Raise AssertionError, log ++ [EvGetAsset (item_id it)]).
Proof.
  intros Hda Hlen. unfold rgi_tile_body. unfold mbind at 1. unfold call at 1.
  rewrite Hda. cbv zeta. unfold mbind at 1. unfold lift at 1.
  by rewrite (resolve_rgi_code_not_one _ _ Hlen).
Qed.

(** C1. Glacier resolver.  If exactly one region of the index
    intersects the footprint, the resolver returns the RGI code of that
    region.  If no region or more than one region intersects it, the
    resolver raises an error; in the tile loop this error ends the loop
    at that tile: after the tile's grid was read nothing more is done,
    neither for this tile (no region is picked, nothing is rasterized)
    nor for the tiles after it. *)
Theorem C1_glacier_resolver_one_match_or_error
    (rgi_index : list (row G Z)) (footprint : G) :
  (forall r, filter (matching footprint) rgi_index = [r] ->
             resolve_rgi_code rgi_index footprint = Ok (row_attr r)) /\
  (length (filter (matching footprint) rgi_index) <> 1%nat ->
   resolve_rgi_code rgi_index footprint = Raise AssertionError) /\
  (forall (root : string) (crs : C) (tile_id : string) (it : item G B T)
          (rest : dict (item G B T)) (da : tile_grid B C A) (log : list event),
      get_asset (item_id it) = Ok da ->
      footprint = from_bounds (transform_bounds da crs) ->
      length (filter (matching footprint) rgi_index) <> 1%nat ->
      rgi_tile_loop root crs rgi_index ((tile_id, it) :: rest) log
      = (Raise AssertionError, log ++ [EvGetAsset (item_id it)])).
Proof.
  split; [|split].
  - intros r Hr. pose proof (resolve_rgi_code_cases rgi_index footprint) as Hc.
    by rewrite Hr in Hc.
  - apply resolve_rgi_code_not_one.
  - intros root crs tile_id it rest da log Hda -> Hlen.
    unfold rgi_tile_loop. cbn [for_each]. unfold mbind at 1.
    by rewrite (rgi_tile_body_not_one root crs rgi_index tile_id it da log
                                      Hda Hlen).
Qed.

(** C2 (amended). In the glacier resolver the two deviations are not
    told apart: with no matching region and with more than one matching
    region alike, the explicit assertion fails and [AssertionError] is
    raised.  The positional lookup after the assertion runs only when
    exactly one region matched, so the resolver never raises a lookup
    error, and [AssertionError] is the only exception it raises. *)
Theorem C2_zero_and_many_matches_both_fail_the_assertion
    (rgi_index : list (row G Z)) (footprint : G) :
  (filter (matching footprint) rgi_index = [] ->
   resolve_rgi_code rgi_index footprint = Raise AssertionError) /\
  ((1 < length (filter (matching footprint) rgi_index))%nat ->
   resolve_rgi_code rgi_index footprint = Raise AssertionError) /\
  (forall e, resolve_rgi_code rgi_index footprint = Raise e ->
             e = AssertionError /\
             length (filter (matching footprint) rgi_index) <> 1%nat).
Proof.
  pose proof (resolve_rgi_code_cases rgi_index footprint) as Hc.
  split; [|split].
  - intros Hnil. by rewrite Hnil in Hc.
  - intros Hlen. destruct (filter _ rgi_index) as [|r [|r' rest]];
      simpl in Hlen; try lia. exact Hc.
  - intros e He. destruct (filter _ rgi_index) as [|r [|r' rest]];
      rewrite Hc in He; try discriminate; simpl; split; congruence.
Qed.

(** C3 (amended). Only the glacier notebook enforces the
    one-tile-one-match invariant by an assertion: its tile body raises
    [AssertionError] when the number of matching regions is not one.
    The elevation notebook has no such check: the URLs of all matching
    rows, however many, are handed to the mosaic step.  The coastline
    notebook has no check either: the matching rows, however many, are
    clipped to the footprint, reprojected and united, and the union is
    rasterized. *)
Theorem C3_assertion_in_glacier_notebook_only
    (rgi_crs gshhs_crs : C) (rgi_root_url dem_tiles_url : string)
    (rgi_index : list (row G Z)) (dem_index : list (row G string))
    (gshhs : list (row G unit))
    (tile_id : string) (it : item G B T) (da : tile_grid B C A)
    (log : list event) :
  get_asset (item_id it) = Ok da ->
  (length (filter (matching (from_bounds (transform_bounds da rgi_crs)))
                  rgi_index) <> 1%nat ->
   rgi_tile_body rgi_root_url rgi_crs rgi_index (tile_id, it) log
   = (Raise AssertionError, log ++ [EvGetAsset (item_id it)])) /\
  dem_tile_body dem_tiles_url dem_index (tile_id, it) log
  = (dem <- download_and_mosaic
              (row_attr <$> filter (matching (from_bounds (da_bounds da)))
                                   (gdf_to_crs (da_crs da) dem_index))
              (da_bounds da) (da_crs da) (da_transform da) ;;
     _ <- call (EvToRaster (tile_id +:+ ".tif"))
               (to_raster dem (tile_id +:+ ".tif")) ;;
     call (EvUpload (tile_id +:+ ".tif"))
          (upload (tile_id +:+ ".tif")
                  (dem_tiles_url +:+ "/" +:+ (tile_id +:+ ".tif"))))%M
      (log ++ [EvGetAsset (item_id it)]) /\
  gshhs_tile_body gshhs_crs gshhs (tile_id, it) log
  = call (EvRasterize tile_id)
         (rasterize_land tile_id
            (unary_union
               (geom_to_crs (da_crs da)
                <$> ((fun r => intersection (row_geometry r)
                                 (from_bounds (transform_bounds da gshhs_crs)))
                     <$> filter (matching (from_bounds
                                             (transform_bounds da gshhs_crs)))
                                gshhs)))
            da)
         (log ++ [EvGetAsset (item_id it)]).
Proof.
  intros Hda. split; [|split].
  - by apply rgi_tile_body_not_one.
  - unfold dem_tile_body. unfold mbind at 1. unfold call at 1.
    rewrite Hda. cbv zeta. unfold get_itersecting_DEM_tile_URLs.
    by rewrite select_intersecting_filter.
  - unfold gshhs_tile_body, mbind. unfold call at 1.
    rewrite Hda. cbv zeta. unfold gdf_intersects.
    by rewrite (boolean_index_filter
                  (fun r => intersects (row_geometry r)
                              (from_bounds (transform_bounds da gshhs_crs)))).
Qed.

End RetilingFacts.

Section MosaicFacts.
Context {G R F B C A : Type} `{Rasterio G R F B C A}.

(** The download loop succeeds exactly when every archive is fetched;
    it then leaves the members of all archives in the scratch directory
    and one download per URL, in order, in the log. *)
Lemma download_tiles_ok (url_list : list string) :
  forall (tmpdir : dict F) (log : list event) (d : dict F) (log' : list event),
    download_tiles url_list tmpdir log = (Ok d, log') <->
    exists archives,
      Forall2 (fun url members => get_tar_file url = Ok members)
              url_list archives /\
      d = foldl extractall tmpdir archives /\
      log' = log ++ (EvGetTarFile <$> url_list).
Proof.
  induction url_list as [|url rest IH]; intros tmpdir log d log'; simpl.
  - unfold mret. split.
    + intros [= <- <-]. exists []. rewrite app_nil_r.
      split; [constructor | done].
    + intros (archives & Hf & -> & ->). inversion Hf; subst.
      simpl. by rewrite app_nil_r.
  - unfold mbind, call.
    destruct (get_tar_file url) as [members|e] eqn:Hget.
    + rewrite IH. split.
      * intros (archives & Hf & -> & ->). exists (members :: archives).
        rewrite <- app_assoc. simpl.
        split; [by constructor | done].
      * intros (archives & Hf & -> & ->).
        inversion Hf as [|? m ? archives' Hm Hrest]; subst.
        rewrite Hget in Hm. injection Hm as <-.
        exists archives'. rewrite <- app_assoc. done.
    + split; [discriminate|].
      intros (archives & Hf & _). inversion Hf; subst. congruence.
Qed.

(** Opening the files succeeds exactly when each file opens; one call
    per file, in order, is logged. *)
Lemma open_all_ok (files : dict F) :
  forall (log : list event) (tiles : list R) (log' : list event),
    mcomprehension (fun f => call (EvOpenRasterio f.1) (open_rasterio f.2))
                   files log = (Ok tiles, log') <->
    Forall2 (fun f tile => open_rasterio f.2 = Ok tile) files tiles /\
    log' = log ++ (EvOpenRasterio <$> files.*1).
Proof.
  induction files as [|f rest IH]; intros log tiles log'; simpl.
  - unfold mret. split.
    + intros [= <- <-]. rewrite app_nil_r. split; [constructor | done].
    + intros [Hf ->]. inversion Hf; subst. by rewrite app_nil_r.
  - unfold mbind at 1. unfold call at 1.
    destruct (open_rasterio f.2) as [tile|e] eqn:Hopen.
    + unfold mbind.
      destruct (mcomprehension _ rest (log ++ [EvOpenRasterio f.1]))
        as [[tiles'|e] log''] eqn:Hrest.
      * apply IH in Hrest as [Hf ->]. unfold mret. split.
        -- intros [= <- <-]. rewrite <- app_assoc.
           split; [by constructor | done].
        -- intros [Hf' ->].
           inversion Hf' as [|? t ? ts Ht Hts]; subst.
           rewrite Hopen in Ht. injection Ht as <-.
           rewrite <- app_assoc. simpl.
           assert (ts = tiles') as ->; [|done].
           clear -Hf Hts. revert ts Hts.
           induction Hf as [|x y l l' Hxy _ IHf]; intros ts Hts;
             inversion Hts; subst; [done|].
           f_equal; [congruence | by apply IHf].
      * split; [discriminate|]. intros [Hf' ->].
        inversion Hf' as [|? t ? ts Ht Hts]; subst.
        assert (Hok : mcomprehension
                        (fun f => call (EvOpenRasterio f.1) (open_rasterio f.2))
                        rest (log ++ [EvOpenRasterio f.1])
                      = (Ok ts, (log ++ [EvOpenRasterio f.1])
                                ++ (EvOpenRasterio <$> rest.*1)))
          by (apply IH; done).
        rewrite Hok in Hrest. discriminate.
    + split; [discriminate|]. intros [Hf _].
      inversion Hf; subst. congruence.
Qed.

Lemma first_component_no_slash (p : string) (i : nat) :
  String.get i (first_component p) <> Some "/"%char.
Proof.
  revert i. induction p as [|c p IH]; intros i; simpl; [by destruct i|].
  destruct (decide (c = "/"%char)) as [->|Hc]; [by destruct i|].
  destruct i as [|i]; simpl; [congruence | apply IH].
Qed.

Lemma dict_set_elem_of {V} (d : dict V) (k : string) (v : V) (x : string * V) :
  x ∈ dict_set d k v -> x ∈ d \/ x = (k, v).
Proof.
  induction d as [|[k' v'] d IH]; simpl.
  - intros Hx. apply list_elem_of_singleton in Hx. by right.
  - destruct (decide (k' = k)) as [->|Hne]; intros Hx;
      apply elem_of_cons in Hx as [->|Hx].
    + by right.
    + left. by right.
    + left. by left.
    + destruct (IH Hx) as [?|?]; [left; by right | by right].
Qed.

(** An entry of the scratch directory is a member unpacked under a
    one-component path, or the directory that holds deeper members. *)
Lemma listdir_entries (tmpdir : dict F) (e : string * F) :
  e ∈ listdir directory tmpdir ->
  (forall i, String.get i e.1 <> Some "/"%char) /\
  (e ∈ tmpdir \/ e.2 = directory).
Proof.
  unfold listdir.
  assert (Hgen : forall acc : dict F,
             e ∈ foldl (fun d member =>
                          let e := top_entry directory member in
                          dict_set d e.1 e.2) acc tmpdir ->
             e ∈ acc \/ exists m, m ∈ tmpdir /\ e = top_entry directory m).
  { induction tmpdir as [|m rest IH]; intros acc; simpl; [by left|].
    intros He. apply IH in He as [He|(m' & Hin & ->)].
    - apply dict_set_elem_of in He as [? | ->]; [by left|].
      right. exists m. split; [by left|]. by destruct (top_entry directory m).
    - right. exists m'. split; [by right | done]. }
  intros He. apply Hgen in He as [He|(m & Hin & ->)];
    [by apply elem_of_nil in He|].
  unfold top_entry. cbv zeta.
  destruct (String.eqb (first_component m.1) m.1) eqn:Heq.
  - apply String.eqb_eq in Heq. split; [|by left].
    intros i. rewrite <- Heq. apply first_component_no_slash.
  - split; [|by right]. intros i. apply first_component_no_slash.
Qed.

(** C5. The area-mosaic path.  [download_and_mosaic] returns a raster
    exactly when each step below succeeds, and then the steps happened
    in this order and nothing else happened: every URL of the list is
    downloaded, in list order; the entries of the scratch directory
    itself that match [*_dem.tif] are opened (what an archive unpacks
    into a sub-directory is not); the opened rasters are merged into one; the
    merged raster is reprojected to the tile's CRS and transform; the
    reprojected raster is cropped to the tile's bounding box; the
    cropped raster is the result.  This holds for every list of URLs,
    the non-empty ones in particular.  What is opened lies in the
    scratch directory itself: its name ends in [_dem.tif] and has a
    single path component, and it is a member unpacked under that very
    name or a directory. *)
Theorem C5_download_merge_reproject_crop
    (url_list : list string) (bbox : B) (crs : C) (transform : A)
    (log : list event) (dem_clip : R) (log' : list event) :
  (download_and_mosaic url_list bbox crs transform log = (Ok dem_clip, log') <->
  exists (archives : list (list (string * F))) (dem_tiles : list R)
         (dem dem_reproj : R),
    let files := glob_dem (foldl extractall [] archives) in
    Forall2 (fun url members => get_tar_file url = Ok members)
            url_list archives /\
    Forall2 (fun f tile => open_rasterio f.2 = Ok tile) files dem_tiles /\
    merge_arrays dem_tiles = Ok dem /\
    reproject dem crs transform = Ok dem_reproj /\
    clip_box dem_reproj bbox = Ok dem_clip /\
    log' = log ++ (EvGetTarFile <$> url_list)
               ++ (EvOpenRasterio <$> files.*1)
               ++ [EvMergeArrays (length dem_tiles); EvReproject; EvClipBox]) /\
  (forall (tmpdir : dict F) (f : string * F),
     f ∈ glob_dem tmpdir ->
     ends_with "_dem.tif" f.1 = true /\
     (forall i, String.get i f.1 <> Some "/"%char) /\
     (f ∈ tmpdir \/ f.2 = directory)).
Proof.
  split; [|intros tmpdir f Hf; unfold glob_dem in Hf;
           apply list_elem_of_filter in Hf as [Hname Hf];
           rewrite iterdir_perm in Hf;
           split; [exact Hname | by apply listdir_entries]].
  unfold download_and_mosaic. unfold mbind at 1.
  destruct (download_tiles url_list [] log) as [[tmpdir|e] log1] eqn:Hdl.
  - apply download_tiles_ok in Hdl as (archives & Harch & -> & ->).
    assert (Huniq : forall archives',
               Forall2 (fun url members => get_tar_file url = Ok members)
                       url_list archives' -> archives' = archives).
    { clear -Harch. induction Harch as [|u m us ms Hum _ IHa];
        intros archives' Hf; inversion Hf; subst; [done|].
      f_equal; [congruence | by apply IHa]. }
    cbv zeta. unfold mbind at 1.
    destruct (mcomprehension _ _ _) as [[dem_tiles|e] log2] eqn:Hopen.
    + apply open_all_ok in Hopen as [Htiles ->].
      assert (Htuniq : forall tiles',
                 Forall2 (fun f tile => open_rasterio f.2 = Ok tile)
                         (glob_dem (foldl extractall [] archives))
                         tiles' -> tiles' = dem_tiles).
      { clear -Htiles. induction Htiles as [|f t fs ts Hft _ IHt];
          intros tiles' Hf; inversion Hf; subst; [done|].
        f_equal; [congruence | by apply IHt]. }
      unfold mbind, call, mret.
      destruct (merge_arrays dem_tiles) as [dem|e] eqn:Hmerge.
      * destruct (reproject dem crs transform) as [dem_reproj|e] eqn:Hre.
        -- destruct (clip_box dem_reproj bbox) as [clip|e] eqn:Hclip.
           ++ split.
              ** intros [= <- <-]. exists archives, dem_tiles, dem, dem_reproj.
                 cbv zeta. rewrite <- !app_assoc. simpl. done.
              ** intros (archives' & tiles' & dem' & re' & Ha & Ht & Hm & Hr & Hc & ->).
                 cbv zeta in *. apply Huniq in Ha as ->. apply Htuniq in Ht as ->.
                 rewrite Hmerge in Hm. injection Hm as <-.
                 rewrite Hre in Hr. injection Hr as <-.
                 rewrite Hclip in Hc. injection Hc as <-.
                 rewrite <- !app_assoc. simpl. done.
           ++ split; [discriminate|].
              intros (archives' & tiles' & dem' & re' & Ha & Ht & Hm & Hr & Hc & _).
              cbv zeta in *. apply Huniq in Ha as ->. apply Htuniq in Ht as ->.
              congruence.
        -- split; [discriminate|].
           intros (archives' & tiles' & dem' & re' & Ha & Ht & Hm & Hr & _).
           cbv zeta in *. apply Huniq in Ha as ->. apply Htuniq in Ht as ->.
           congruence.
      * split; [discriminate|].
        intros (archives' & tiles' & dem' & re' & Ha & Ht & Hm & _).
        cbv zeta in *. apply Huniq in Ha as ->. apply Htuniq in Ht as ->.
        congruence.
    + split; [discriminate|].
      intros (archives' & tiles' & dem' & re' & Ha & Ht & _).
      cbv zeta in *. apply Huniq in Ha as ->.
      assert (Hok : mcomprehension
                      (fun f => call (EvOpenRasterio f.1) (open_rasterio f.2))
                      (glob_dem (foldl extractall [] archives))
                      (log ++ (EvGetTarFile <$> url_list))
                    = (Ok tiles', (log ++ (EvGetTarFile <$> url_list))
                                  ++ (EvOpenRasterio
                                      <$> (glob_dem (foldl extractall [] archives)).*1)))
        by (apply open_all_ok; done).
      rewrite Hok in Hopen. discriminate.
  - split; [discriminate|].
    intros (archives' & tiles' & dem' & re' & Ha & _).
    assert (Hok : download_tiles url_list [] log
                  = (Ok (foldl extractall [] archives'),
                     log ++ (EvGetTarFile <$> url_list)))
      by (apply download_tiles_ok; eauto).
    rewrite Hok in Hdl. discriminate.
Qed.

End MosaicFacts.

(** ** Dictionaries *)

Section DictFacts.
Context {V : Type}.
Implicit Types (d : dict V) (k : string) (v : V).

Lemma dict_get_set d k v k' :
  dict_get (dict_set d k v) k' = if decide (k = k') then Some v else dict_get d k'.
Proof.
  induction d as [|[k1 v1] d IH]; simpl.
  - reflexivity.
  - destruct (decide (k1 = k)) as [->|Hne]; simpl.
    + destruct (decide (k = k')); reflexivity.
    + destruct (decide (k1 = k')) as [->|Hne'].
      * by rewrite decide_False by congruence.
      * exact IH.
Qed.

Lemma dict_get_None_keys d k : dict_get d k = None <-> k ∉ dict_keys d.
Proof.
  unfold dict_keys. induction d as [|[k1 v1] d IH]; simpl.
  - split; [intros _; apply not_elem_of_nil | done].
  - rewrite not_elem_of_cons. destruct (decide (k1 = k)) as [->|Hne].
    + split; [discriminate | intros [? _]; congruence].
    + rewrite IH. split; [intros Hn; split; [intros ->; by apply Hne | done]
                   | by intros [_ ?]].
Qed.

Lemma dict_get_Some_keys d k : is_Some (dict_get d k) <-> k ∈ dict_keys d.
Proof.
  destruct (dict_get d k) eqn:Hget.
  - split; [intros _ | eauto].
    destruct (decide (k ∈ dict_keys d)) as [|Hn]; [done|].
    apply dict_get_None_keys in Hn. congruence.
  - apply dict_get_None_keys in Hget.
    split; [intros [? ?]; discriminate | done].
Qed.

Lemma dict_keys_set_fresh d k v :
  dict_get d k = None -> dict_keys (dict_set d k v) = dict_keys d ++ [k].
Proof.
  induction d as [|[k1 v1] d IH]; simpl; [done|].
  destruct (decide (k1 = k)); [discriminate|].
  intros Hget. unfold dict_keys in *. rewrite !fmap_cons. simpl.
  by rewrite IH.
Qed.

Lemma dict_keys_set_present d k v :
  is_Some (dict_get d k) -> dict_keys (dict_set d k v) = dict_keys d.
Proof.
  induction d as [|[k1 v1] d IH]; simpl.
  - intros [? ?]; discriminate.
  - destruct (decide (k1 = k)); [done|].
    intros Hget. unfold dict_keys in *. rewrite !fmap_cons. simpl.
    by rewrite IH.
Qed.

Lemma dict_set_NoDup d k v : NoDup (dict_keys d) -> NoDup (dict_keys (dict_set d k v)).
Proof.
  intros Hnd. destruct (dict_get d k) eqn:Hget.
  - by rewrite dict_keys_set_present by eauto.
  - rewrite dict_keys_set_fresh by done.
    apply list.NoDup_app. split; [done|]. split.
    + intros x Hx Hk. apply list_elem_of_singleton in Hk as ->.
      by apply dict_get_None_keys in Hget.
    + apply NoDup_singleton.
Qed.

End DictFacts.

(** ** Tile enumeration *)

Section TileFacts.
Context {G B T : Type}.
Implicit Types (it : item G B T).

Lemma get_sentinel2_tile_id_value it (zone band square : pyval) :
  properties it !! "sentinel:utm_zone" = Some zone ->
  properties it !! "sentinel:latitude_band" = Some band ->
  properties it !! "sentinel:grid_square" = Some square ->
  get_sentinel2_tile_id it = Ok (py_str zone +:+ py_str band +:+ py_str square).
Proof.
  intros Hz Hb Hs. unfold get_sentinel2_tile_id, TILE_ID_KEYS, getitem.
  simpl. rewrite Hz, Hb, Hs. simpl. unfold join. simpl.
  reflexivity.
Qed.

(** The value of the cell in terms of the loop. *)
Lemma enumerate_tiles_Ok (items : list (item G B T)) (tiles : dict (item G B T)) :
  enumerate_tiles items = Ok tiles <-> tiles_loop items [] = (Ok tt, tiles).
Proof.
  unfold enumerate_tiles.
  destruct (tiles_loop items []) as [[[]|e] tiles']; split; congruence.
Qed.

Lemma enumerate_tiles_Raise (items : list (item G B T)) (e : exn) :
  enumerate_tiles items = Raise e
  <-> exists tiles, tiles_loop items [] = (Raise e, tiles).
Proof.
  unfold enumerate_tiles.
  destruct (tiles_loop items []) as [[[]|e'] tiles']; split.
  - discriminate.
  - intros [tiles Hrun]. discriminate.
  - intros [= <-]. by exists tiles'.
  - intros [tiles [= <- _]]. done.
Qed.

(** The tiles found so far: keys are distinct, and each key is bound to
    the first item seen with that tile identifier. *)
Lemma tiles_loop_ok (items : list (item G B T)) :
  forall (seen : list (item G B T)) (tiles : dict (item G B T)),
    Forall (fun it => is_ok (get_sentinel2_tile_id it) = true) items ->
    NoDup (dict_keys tiles) ->
    (forall k, dict_get tiles k
               = head (filter (fun it => get_sentinel2_tile_id it = Ok k) seen)) ->
    exists tiles',
      tiles_loop items tiles = (Ok tt, tiles') /\
      NoDup (dict_keys tiles') /\
      (forall k, dict_get tiles' k
                 = head (filter (fun it => get_sentinel2_tile_id it = Ok k)
                                (seen ++ items))).
Proof.
  induction items as [|it rest IH]; intros seen tiles Hok Hnd Hget.
  - exists tiles. rewrite app_nil_r. done.
  - inversion Hok as [|? ? Hit Hrest]; subst. simpl.
    destruct (get_sentinel2_tile_id it) as [tile_id|] eqn:Hid; [|discriminate].
    simpl. replace (seen ++ it :: rest) with ((seen ++ [it]) ++ rest)
      by (by rewrite <- app_assoc).
    apply IH; [done| |].
    + unfold dict_mem. destruct (dict_get tiles tile_id); [done|].
      by apply dict_set_NoDup.
    + intros k. rewrite list.filter_app.
      unfold dict_mem. destruct (dict_get tiles tile_id) as [first|] eqn:Hfirst.
      * rewrite Hget. rewrite Hget in Hfirst.
        destruct (decide (k = tile_id)) as [->|Hne].
        -- destruct (filter _ seen); [discriminate | done].
        -- rewrite filter_cons_False by congruence.
           rewrite filter_nil. by rewrite app_nil_r.
      * rewrite dict_get_set. rewrite Hget in Hfirst.
        destruct (decide (tile_id = k)) as [<-|Hne].
        -- destruct (filter _ seen); [|discriminate].
           by rewrite filter_cons_True by done.
        -- rewrite filter_cons_False by congruence.
           rewrite filter_nil, app_nil_r. apply Hget.
Qed.

(** C6. The tile identifier of an item is the concatenation of the
    string forms of its utm-zone, latitude-band and grid-square property
    values, so items with equal values under these three keys have equal
    identifiers.  For a catalog whose items all carry the three
    properties, the enumeration returns a dictionary in which every key
    occurs once, whose keys are exactly the tile identifiers of the
    catalog's items, and which maps each key to the first item, in
    iteration order, with that identifier. *)
Theorem C6_tile_identifier_and_enumeration (items : list (item G B T)) :
  (forall it, it ∈ items ->
     forall k, k ∈ TILE_ID_KEYS -> is_Some (properties it !! k)) ->
  (forall it zone band square,
     properties it !! "sentinel:utm_zone" = Some zone ->
     properties it !! "sentinel:latitude_band" = Some band ->
     properties it !! "sentinel:grid_square" = Some square ->
     get_sentinel2_tile_id it
     = Ok (py_str zone +:+ py_str band +:+ py_str square)) /\
  (forall it1 it2,
     (forall k, k ∈ TILE_ID_KEYS -> properties it1 !! k = properties it2 !! k) ->
     get_sentinel2_tile_id it1 = get_sentinel2_tile_id it2) /\
  exists tiles,
    enumerate_tiles items = Ok tiles /\
    NoDup (dict_keys tiles) /\
    (forall k, k ∈ dict_keys tiles
               <-> exists it, it ∈ items /\ get_sentinel2_tile_id it = Ok k) /\
    (forall k, dict_get tiles k
               = head (filter (fun it => get_sentinel2_tile_id it = Ok k) items)).
Proof.
  intros Hprops. split; [|split].
  - intros it zone band square. apply get_sentinel2_tile_id_value.
  - intros it1 it2 Heq. unfold get_sentinel2_tile_id, TILE_ID_KEYS, getitem.
    simpl. rewrite !Heq by (unfold TILE_ID_KEYS; set_solver). done.
  - assert (Hok : Forall (fun it => is_ok (get_sentinel2_tile_id it) = true) items).
    { apply list.Forall_forall. intros it Hin.
      destruct (Hprops it Hin "sentinel:utm_zone") as [z Hz];
        [unfold TILE_ID_KEYS; set_solver|].
      destruct (Hprops it Hin "sentinel:latitude_band") as [b Hb];
        [unfold TILE_ID_KEYS; set_solver|].
      destruct (Hprops it Hin "sentinel:grid_square") as [g Hg];
        [unfold TILE_ID_KEYS; set_solver|].
      by rewrite (get_sentinel2_tile_id_value it z b g). }
    destruct (tiles_loop_ok items [] [] Hok) as (tiles & Hrun & Hnd & Hget).
    { apply NoDup_nil_2. }
    { intros k. by rewrite filter_nil. }
    exists tiles. simpl in Hget.
    split; [by apply enumerate_tiles_Ok|]. split; [exact Hnd|].
    split; [|exact Hget].
    intros k. rewrite <- dict_get_Some_keys, Hget. split.
    + intros [it Hhead]. exists it.
      apply head_Some_elem_of, list_elem_of_filter in Hhead. tauto.
    + intros (it & Hin & Hid).
      assert (Hf : it ∈ filter (fun it => get_sentinel2_tile_id it = Ok k) items)
        by (by apply list_elem_of_filter).
      destruct (filter _ items); [by apply elem_of_nil in Hf | eauto].
Qed.

End TileFacts.

(** ** Link fix-up *)

Section LinkFacts.
Context `{Urlpath} {G B T : Type}.
Implicit Types (it : item G B T) (m : gmap string asset).

(** Two asset mappings with the same keys whose assets agree on
    everything but, possibly, the href. *)
Local Abbreviation href_only m m' :=
  (forall k : string,
      option_Forall2 (fun a a' : asset =>
                        media_type a' = media_type a /\ roles a' = roles a)
                     (m !! k) (m' !! k)).

Lemma href_only_refl m : href_only m m.
Proof. intros k. destruct (m !! k); by constructor. Qed.

Lemma href_only_trans m1 m2 m3 :
  href_only m1 m2 -> href_only m2 m3 -> href_only m1 m3.
Proof.
  intros H12 H23 k. specialize (H12 k). specialize (H23 k).
  destruct H12 as [a a' [? ?]|]; inversion H23 as [? a'' [? ?]|]; subst;
    constructor. split; congruence.
Qed.

Lemma href_only_set_href m k a url :
  m !! k = Some a -> href_only m (<[k := set_href a url]> m).
Proof.
  intros Hk k'. destruct (decide (k = k')) as [<-|Hne].
  - rewrite lookup_insert_eq, Hk. by constructor.
  - rewrite lookup_insert_ne by done. apply href_only_refl.
Qed.

Lemma relink_bands_href_only (band_urls : dict string) :
  forall m, href_only m (LinkAssets.relink_bands band_urls m).
Proof.
  induction band_urls as [|[band url] rest IH]; intros m; simpl.
  - apply href_only_refl.
  - destruct (m !! band) as [a|] eqn:Hband; [|apply IH].
    eapply href_only_trans; [by apply href_only_set_href | apply IH].
Qed.

Lemma relink_item_frame it :
  let it' := (LinkAssets.relink_item it).2 in
  item_id it' = item_id it /\ geometry it' = geometry it /\
  bbox it' = bbox it /\ datetime it' = datetime it /\
  properties it' = properties it /\ links it' = links it /\
  href_only (assets it) (assets it').
Proof.
  unfold LinkAssets.relink_item.
  destruct (LinkAssets.safe_url it) as [url|e]; simpl;
    [|by repeat split; try apply href_only_refl].
  destruct (LinkAssets._get_band_urls url) as [band_urls|e]; simpl;
    [|by repeat split; try apply href_only_refl].
  pose proof (relink_bands_href_only band_urls (assets it)) as Hbands.
  destruct (dict_getitem band_urls "TCI") as [tci|e]; simpl;
    [|by repeat split].
  destruct (LinkAssets.relink_bands band_urls (assets it) !! "overview")
    as [a|] eqn:Hov; simpl; [|by repeat split].
  repeat split; try reflexivity.
  eapply href_only_trans; [exact Hbands | by apply href_only_set_href].
Qed.

(** C7. The link fix-up changes nothing but asset hrefs.  Whatever the
    outcome of the loop (it may end early with an exception), the
    collection afterwards has the same items in the same order, none
    added and none removed; each item has its identifier, geometry,
    bounding box, timestamp, property mapping and links unchanged, the
    same set of asset keys, and every asset keeps its media type and
    roles. *)
Theorem C7_link_fixup_changes_only_hrefs (items : list (item G B T)) :
  let items' := (LinkAssets.relink_loop items).2 in
  length items' = length items /\
  Forall2 (fun it it' =>
             item_id it' = item_id it /\ geometry it' = geometry it /\
             bbox it' = bbox it /\ datetime it' = datetime it /\
             properties it' = properties it /\ links it' = links it /\
             dom (assets it') = dom (assets it) /\
             (forall k a a', assets it !! k = Some a ->
                             assets it' !! k = Some a' ->
                             media_type a' = media_type a /\
                             roles a' = roles a))
          items items'.
Proof.
  assert (Hone : forall it it',
             (item_id it' = item_id it /\ geometry it' = geometry it /\
              bbox it' = bbox it /\ datetime it' = datetime it /\
              properties it' = properties it /\ links it' = links it /\
              href_only (assets it) (assets it')) ->
             item_id it' = item_id it /\ geometry it' = geometry it /\
             bbox it' = bbox it /\ datetime it' = datetime it /\
             properties it' = properties it /\ links it' = links it /\
             dom (assets it') = dom (assets it) /\
             (forall k a a', assets it !! k = Some a ->
                             assets it' !! k = Some a' ->
                             media_type a' = media_type a /\
                             roles a' = roles a)).
  { intros it it' (? & ? & ? & ? & ? & ? & Hh). do 6 (split; [done|]). split.
    - apply set_eq. intros k. rewrite !elem_of_dom. specialize (Hh k).
      destruct Hh; split; intros [? ?]; first [discriminate | eauto].
    - intros k a a' Hk Hk'. specialize (Hh k). rewrite Hk, Hk' in Hh.
      by inversion Hh. }
  assert (Hrefl : forall l : list (item G B T),
             Forall2 (fun it it' =>
               item_id it' = item_id it /\ geometry it' = geometry it /\
               bbox it' = bbox it /\ datetime it' = datetime it /\
               properties it' = properties it /\ links it' = links it /\
               dom (assets it') = dom (assets it) /\
               (forall k a a', assets it !! k = Some a ->
                               assets it' !! k = Some a' ->
                               media_type a' = media_type a /\
                               roles a' = roles a)) l l).
  { intros l. induction l as [|it l IHl]; constructor; [|exact IHl].
    apply Hone. repeat split; try reflexivity. apply href_only_refl. }
  cbv zeta. induction items as [|it rest IH]; simpl.
  - split; [reflexivity | constructor].
  - pose proof (relink_item_frame it) as Hframe. cbv zeta in Hframe.
    destruct (LinkAssets.relink_item it) as [[[]|e] it'] eqn:Hit; simpl in *.
    + destruct (LinkAssets.relink_loop rest) as [r rest'] eqn:Hrest.
      simpl in *. destruct IH as [Hlen Hall].
      split; [by rewrite Hlen|]. constructor; [by apply Hone | exact Hall].
    + split; [reflexivity|]. constructor; [by apply Hone | apply Hrefl].
Qed.

End LinkFacts.

Section RelinkFacts.
Context `{Urlpath} {G B T : Type}.
Implicit Types (it : item G B T) (m : gmap string asset).

Lemma band_urls_loop_NoDup (url : string) (objects : list data_object) :
  forall band_urls band_urls',
    NoDup (dict_keys band_urls) ->
    LinkAssets.band_urls_loop url objects band_urls = Ok band_urls' ->
    NoDup (dict_keys band_urls').
Proof.
  induction objects as [|o rest IH]; intros band_urls band_urls' Hnd; simpl.
  - by intros [= <-].
  - destruct (ID o) as [id|]; [|by apply IH].
    destruct (str_contains "IMG_DATA" id); [|by apply IH].
    destruct (file_location o) as [[h|]|]; simpl; try discriminate.
    destruct (list_last _) as [band|]; simpl; [|discriminate].
    apply IH. by apply dict_set_NoDup.
Qed.

Lemma get_band_urls_NoDup (url : string) (band_urls : dict string) :
  LinkAssets._get_band_urls url = Ok band_urls -> NoDup (dict_keys band_urls).
Proof.
  unfold LinkAssets._get_band_urls.
  destruct (fetch_manifest _) as [objects|]; simpl; [|discriminate].
  apply band_urls_loop_NoDup. apply NoDup_nil_2.
Qed.

(** The band loop on a mapping with distinct keys: an asset whose key
    is a band of the mapping gets that band's URL, any other asset is
    kept, and no asset is added. *)
Lemma relink_bands_lookup (band_urls : dict string) :
  forall m k,
    NoDup (dict_keys band_urls) ->
    LinkAssets.relink_bands band_urls m !! k
    = (fun a => match dict_get band_urls k with
                | Some url => set_href a url
                | None => a
                end) <$> (m !! k).
Proof.
  induction band_urls as [|[band url] rest IH]; intros m k Hnd; simpl.
  - by destruct (m !! k).
  - unfold dict_keys in Hnd. rewrite fmap_cons in Hnd. simpl in Hnd.
    apply list.NoDup_cons in Hnd as [Hfresh Hnd].
    rewrite IH by exact Hnd.
    destruct (decide (band = k)) as [->|Hne].
    + assert (Hnone : dict_get rest k = None) by (by apply dict_get_None_keys).
      rewrite Hnone. destruct (m !! k) as [a|] eqn:Hk.
      * by rewrite lookup_insert_eq.
      * by rewrite Hk.
    + destruct (m !! band) as [a|]; [|done].
      by rewrite lookup_insert_ne.
Qed.

(** C10. Link fix-up of one item whose manifest gave the mapping
    [band_urls].  An asset other than ['overview'] gets a new href only
    if its key is a band of the mapping, and then that band's URL; the
    assets of bands absent from the mapping keep their hrefs, and no
    asset is added.  The ['overview'] asset gets the URL of band
    ['TCI'], whatever else the mapping holds.  If the mapping has no
    ['TCI'] entry, the step raises [KeyError]. *)
Theorem C10_band_guard_and_overview_from_TCI
    it (url : string) (band_urls : dict string) :
  LinkAssets.safe_url it = Ok url ->
  LinkAssets._get_band_urls url = Ok band_urls ->
  (forall k a, k <> "overview" -> assets it !! k = Some a ->
     assets (LinkAssets.relink_item it).2 !! k
     = Some (match dict_get band_urls k with
             | Some band_url => set_href a band_url
             | None => a
             end)) /\
  (forall k, assets it !! k = None ->
             assets (LinkAssets.relink_item it).2 !! k = None) /\
  (forall tci a, dict_get band_urls "TCI" = Some tci ->
                 assets it !! "overview" = Some a ->
                 (LinkAssets.relink_item it).1 = Ok tt /\
                 assets (LinkAssets.relink_item it).2 !! "overview"
                 = Some (set_href a tci)) /\
  (dict_get band_urls "TCI" = None ->
   (LinkAssets.relink_item it).1 = Raise KeyError).
Proof.
  intros Hurl Hbands. pose proof (get_band_urls_NoDup _ _ Hbands) as Hnd.
  unfold LinkAssets.relink_item. rewrite Hurl, Hbands. unfold dict_getitem.
  cbv zeta. cbn [assets set_assets].
  split; [|split; [|split]].
  - intros k a Hk Ha.
    destruct (dict_get band_urls "TCI") as [tci|]; cbn [snd assets set_assets].
    + destruct (LinkAssets.relink_bands band_urls (assets it) !! "overview")
        as [ov|]; cbn [snd assets set_assets].
      * rewrite lookup_insert_ne by done.
        by rewrite relink_bands_lookup, Ha.
      * by rewrite relink_bands_lookup, Ha.
    + by rewrite relink_bands_lookup, Ha.
  - intros k Hk.
    assert (Hnone : LinkAssets.relink_bands band_urls (assets it) !! k = None)
      by (by rewrite relink_bands_lookup, Hk).
    destruct (dict_get band_urls "TCI") as [tci|]; cbn [snd assets set_assets];
      [|exact Hnone].
    destruct (LinkAssets.relink_bands band_urls (assets it) !! "overview")
      as [ov|] eqn:Hov; cbn [snd assets set_assets]; [|exact Hnone].
    rewrite lookup_insert_ne; [exact Hnone|]. intros <-. congruence.
  - intros tci a Htci Ha. rewrite Htci.
    rewrite relink_bands_lookup, Ha by done. cbn [fmap option_fmap option_map].
    cbn [fst snd assets set_assets]. split; [reflexivity|].
    rewrite lookup_insert_eq. by destruct (dict_get band_urls "overview").
  - intros Htci. by rewrite Htci.
Qed.

End RelinkFacts.

(** ** URL templates *)

Section UrlFacts.
Context {G B T : Type}.
Implicit Types (it : item G B T).

(** C8. The public URLs are templates filled with identifiers of the
    item.  The URL of a product is the tiles prefix of the bucket
    followed by the zero-padded utm zone, the latitude band, the grid
    square and the product id with suffix [.SAFE]; two items with equal
    values under these four property keys give the same result.  The
    URL of a file of an item is the storage host, the bucket, [tiles],
    the three parts of the item's MGRS tile, the item id and the
    relative path; two items with the same MGRS tile property and the
    same id give the same result for the same path. *)
Theorem C8_urls_are_templates_of_item_identifiers :
  (forall it (zone : Z) (band square product : pyval),
      properties it !! "sentinel:utm_zone" = Some (PInt zone) ->
      properties it !! "sentinel:latitude_band" = Some band ->
      properties it !! "sentinel:grid_square" = Some square ->
      properties it !! "sentinel:product_id" = Some product ->
      LinkAssets.safe_url it
      = Ok ("http://storage.googleapis.com/gcp-public-data-sentinel-2/tiles"
            +:+ "/" +:+ zfill2 zone +:+ "/" +:+ py_str band +:+ "/"
            +:+ py_str square +:+ "/" +:+ py_str product +:+ ".SAFE")) /\
  (forall it1 it2,
      (forall k, k ∈ ["sentinel:utm_zone"; "sentinel:latitude_band";
                      "sentinel:grid_square"; "sentinel:product_id"] ->
                 properties it1 !! k = properties it2 !! k) ->
      LinkAssets.safe_url it1 = LinkAssets.safe_url it2) /\
  (forall it (tile band path_rel : string),
      properties it !! "s2:mgrs_tile" = Some (PStr tile) ->
      str_index tile 2 = Ok band ->
      SensorArrays.make_url it path_rel
      = Ok ("http://storage.googleapis.com" +:+ "/"
            +:+ ("gcp-public-data-sentinel-2" +:+ "/tiles/"
                 +:+ str_upto 2 tile +:+ "/" +:+ band +:+ "/"
                 +:+ str_from 3 tile +:+ "/"
                 +:+ item_id it +:+ "/" +:+ path_rel))) /\
  (forall it1 it2 (path_rel : string),
      properties it1 !! "s2:mgrs_tile" = properties it2 !! "s2:mgrs_tile" ->
      item_id it1 = item_id it2 ->
      SensorArrays.make_url it1 path_rel = SensorArrays.make_url it2 path_rel).
Proof.
  split; [|split; [|split]].
  - intros it zone band square product Hz Hb Hs Hp.
    unfold LinkAssets.safe_url, getitem. by rewrite Hz, Hb, Hs, Hp.
  - intros it1 it2 Heq. unfold LinkAssets.safe_url, getitem.
    rewrite !Heq by set_solver. done.
  - intros it tile band path_rel Ht Hband.
    unfold SensorArrays.make_url, getitem. rewrite Ht. simpl.
    by rewrite Hband.
  - intros it1 it2 path_rel Ht Hid.
    unfold SensorArrays.make_url, getitem. by rewrite Ht, Hid.
Qed.

End UrlFacts.

(** ** Shadow-classification catalog *)

Lemma Qc_pos_nonzero (b : Qc) : (0 < b)%Qc -> b <> 0%Qc.
Proof. intros Hb Hz. symmetry in Hz. by apply Qclt_not_eq in Hb. Qed.

Lemma ratio_above_iff (c a b : Qc) :
  (0 < b)%Qc -> (c < a / b <-> c * b < a)%Qc.
Proof.
  intros Hb. rewrite (Qcmult_lt_mono_pos_r c (a / b) b Hb).
  pose proof (Qc_pos_nonzero b Hb) as Hne.
  replace (a / b * b)%Qc with a; [done|].
  rewrite Qcmult_comm. symmetry. by apply Qcmult_div_r.
Qed.

Section ShadowFacts.
Context {G B C T : Type} `{Shapely G B C} `{PyRuntime T}.
Implicit Types (it : item G B T).

(** The footprint of the item covers more than 70% of the area of
    interest. *)
Local Abbreviation covers aoi :=
  (fun it : item G B T =>
     (Q2Qc (7 # 10) * area aoi < area (intersection (geometry it) aoi))%Qc).

Lemma shadow_item_skipped (aoi : G) catalog_l2a it :
  (0 < area aoi)%Qc -> ~ covers aoi it ->
  Shadows.shadow_item aoi catalog_l2a it = Ok None.
Proof.
  intros Hpos Hn. unfold Shadows.shadow_item, truediv.
  rewrite decide_False by (by apply Qc_pos_nonzero).
  simpl. rewrite bool_decide_eq_false_2; [done|].
  by rewrite ratio_above_iff.
Qed.

Lemma shadow_item_created (aoi : G) catalog_l2a it (t : T) :
  (0 < area aoi)%Qc -> covers aoi it ->
  datetime it = Some t ->
  is_ok (Shadows._get_l2a_item it catalog_l2a) = true ->
  exists out,
    Shadows.shadow_item aoi catalog_l2a it = Ok (Some out) /\
    geometry out = intersection (geometry it) aoi /\
    bbox out = Some (bounds (intersection (geometry it) aoi)) /\
    datetime out = datetime it.
Proof.
  intros Hpos Hc Ht Hl2a. unfold Shadows.shadow_item, truediv.
  rewrite decide_False by (by apply Qc_pos_nonzero).
  simpl. rewrite bool_decide_eq_true_2 by (by rewrite ratio_above_iff).
  rewrite Ht. simpl.
  destruct (Shadows._get_l2a_item it catalog_l2a) as [[l2a|]|];
    [| |discriminate]; simpl; eexists; (split; [reflexivity|]); done.
Qed.

Lemma shadow_loop_ok (aoi : G) catalog_l2a (l1c_items : list (item G B T)) :
  (0 < area aoi)%Qc ->
  (forall it, it ∈ l1c_items -> covers aoi it ->
              is_Some (datetime it) /\
              is_ok (Shadows._get_l2a_item it catalog_l2a) = true) ->
  forall items,
  exists created,
    Shadows.shadow_loop aoi catalog_l2a l1c_items items = Ok (items ++ created) /\
    Forall2 (fun item_l1c out =>
               geometry out = intersection (geometry item_l1c) aoi /\
               bbox out = Some (bounds (intersection (geometry item_l1c) aoi)) /\
               datetime out = datetime item_l1c)
            (filter (covers aoi) l1c_items) created.
Proof.
  intros Hpos. induction l1c_items as [|it rest IH]; intros Hwf items.
  - exists []. rewrite app_nil_r. split; [reflexivity | constructor].
  - assert (Hrest : forall it', it' ∈ rest -> covers aoi it' ->
                      is_Some (datetime it') /\
                      is_ok (Shadows._get_l2a_item it' catalog_l2a) = true)
      by (intros it' Hin; apply Hwf; by right).
    cbn [Shadows.shadow_loop].
    destruct (decide (covers aoi it)) as [Hc|Hn].
    + destruct (Hwf it) as [[t Ht] Hl2a]; [by left | exact Hc |].
      destruct (shadow_item_created aoi catalog_l2a it t Hpos Hc Ht Hl2a)
        as (out & -> & Hg & Hb & Hd).
      simpl. destruct (IH Hrest (items ++ [out])) as (created & -> & Hall).
      exists (out :: created). rewrite <- app_assoc. split; [reflexivity|].
      rewrite filter_cons_True by exact Hc. by constructor.
    + rewrite (shadow_item_skipped aoi catalog_l2a it Hpos Hn). simpl.
      destruct (IH Hrest items) as (created & -> & Hall).
      exists created. split; [reflexivity|].
      by rewrite filter_cons_False by exact Hn.
Qed.

(** C9. Shadow-catalog assembly over an area of interest of positive
    area.  For a level-1C item, an output item is created if and only
    if the area of the intersection of its footprint with the area of
    interest is strictly greater than 70% of the area of the area of
    interest.  The loop returns the created items, one for each such
    level-1C item and in the same order; the geometry of a created item
    is that intersection, its bounding box is the bounds of that
    intersection, and its timestamp is the timestamp of the level-1C
    item.  (Assumed of the items above the threshold: the timestamp is
    set and the lookup of the level-2A item does not raise.) *)
Theorem C9_shadow_items_are_the_items_covering_70_percent
    (aoi : G) (catalog_l2a l1c_items : list (item G B T)) :
  (0 < area aoi)%Qc ->
  (forall it, it ∈ l1c_items -> covers aoi it ->
              is_Some (datetime it) /\
              is_ok (Shadows._get_l2a_item it catalog_l2a) = true) ->
  (forall it, it ∈ l1c_items ->
              (exists out, Shadows.shadow_item aoi catalog_l2a it = Ok (Some out))
              <-> covers aoi it) /\
  exists items,
    Shadows.shadow_items aoi catalog_l2a l1c_items = Ok items /\
    Forall2 (fun item_l1c out =>
               geometry out = intersection (geometry item_l1c) aoi /\
               bbox out = Some (bounds (intersection (geometry item_l1c) aoi)) /\
               datetime out = datetime item_l1c)
            (filter (covers aoi) l1c_items) items.
Proof.
  intros Hpos Hwf. split.
  - intros it Hin. split.
    + intros [out Hout]. destruct (decide (covers aoi it)) as [Hc|Hn]; [exact Hc|].
      rewrite (shadow_item_skipped aoi catalog_l2a it Hpos Hn) in Hout.
      discriminate.
    + intros Hc. destruct (Hwf it Hin Hc) as [[t Ht] Hl2a].
      destruct (shadow_item_created aoi catalog_l2a it t Hpos Hc Ht Hl2a)
        as (out & Hout & _). eauto.
  - destruct (shadow_loop_ok aoi catalog_l2a l1c_items Hpos Hwf [])
      as (created & Hrun & Hall).
    exists created. split; [exact Hrun | exact Hall].
Qed.

End ShadowFacts.

(* ================================================================== *)
(** * Part III: the notebooks on concrete inputs *)
(* ================================================================== *)

Import Toy.

(** ** Glacier resolver *)

(** One region over the tile: its code is returned.  Two regions over
    the tile: the resolver raises.  No region over the tile: the tile loop
    ends at the assertion of the first tile. *)
Lemma C1_witness :
  (filter (fun r : row box Z =>
             intersects (row_geometry r) (mk_box 0 0 10 10) = true)
          rgi_one_match = [mk_row (mk_box 5 5 20 20) 1] /\
   resolve_rgi_code rgi_one_match (mk_box 0 0 10 10) = Ok 1) /\
  (length (filter (fun r : row box Z =>
                     intersects (row_geometry r) (mk_box 0 0 10 10) = true)
                  rgi_two_matches) <> 1%nat /\
   resolve_rgi_code rgi_two_matches (mk_box 0 0 10 10) = Raise AssertionError) /\
  rgi_tile_loop "https://dcache/GIS/Glacier" tt rgi_no_match
                [("5VMG", tile_5VMG); ("6VMG", tile_6VMG)] []
  = (Raise AssertionError, [EvGetAsset "S2B_5VMG_20210329_0_L1C"]).
Proof.
  split; [|split].
  - split; [reflexivity|].
    apply (proj1 (C1_glacier_resolver_one_match_or_error
                    (R := list string) (F := string) (A := unit) (T := Z)
                    rgi_one_match (mk_box 0 0 10 10))
                 (mk_row (mk_box 5 5 20 20) 1)).
    reflexivity.
  - split; [vm_compute; lia|].
    apply (proj1 (proj2 (C1_glacier_resolver_one_match_or_error
                           (R := list string) (F := string) (A := unit) (T := Z)
                           rgi_two_matches (mk_box 0 0 10 10)))).
    vm_compute; lia.
  - apply (proj2 (proj2 (C1_glacier_resolver_one_match_or_error
                           (R := list string) (F := string) (A := unit) (T := Z)
                           rgi_no_match (mk_box 0 0 10 10)))
                 "https://dcache/GIS/Glacier" tt "5VMG" tile_5VMG
                 [("6VMG", tile_6VMG)] toy_grid []).
    + reflexivity.
    + reflexivity.
    + vm_compute; lia.
Defined.

(** The claim as stated fails where no region matches: the index holds
    one region, far from the tile, the lookup selects nothing, and the
    resolver stops at the assertion with [AssertionError]; no lookup error
    is raised. *)
Lemma C2_counterexample_zero_matches_fail_the_assertion :
  filter (fun r : row box Z =>
            intersects (row_geometry r) (mk_box 0 0 10 10) = true)
         rgi_no_match = [] /\
  resolve_rgi_code rgi_no_match (mk_box 0 0 10 10) = Raise AssertionError /\
  resolve_rgi_code rgi_no_match (mk_box 0 0 10 10) <> Raise IndexError /\
  resolve_rgi_code rgi_no_match (mk_box 0 0 10 10) <> Raise KeyError.
Proof.
  split; [reflexivity|]. split; [reflexivity|]. split; discriminate.
Qed.

Lemma C2_witness :
  (filter (fun r : row box Z =>
             intersects (row_geometry r) (mk_box 0 0 10 10) = true)
          rgi_no_match = [] /\
   resolve_rgi_code rgi_no_match (mk_box 0 0 10 10) = Raise AssertionError) /\
  ((1 < length (filter (fun r : row box Z =>
                          intersects (row_geometry r) (mk_box 0 0 10 10) = true)
                       rgi_two_matches))%nat /\
   resolve_rgi_code rgi_two_matches (mk_box 0 0 10 10) = Raise AssertionError).
Proof.
  split.
  - split; [reflexivity|].
    apply (proj1 (C2_zero_and_many_matches_both_fail_the_assertion
                    rgi_no_match (mk_box 0 0 10 10))).
    reflexivity.
  - split; [vm_compute; lia|].
    apply (proj1 (proj2 (C2_zero_and_many_matches_both_fail_the_assertion
                           rgi_two_matches (mk_box 0 0 10 10)))).
    vm_compute; lia.
Defined.

(** ** Assertions in the three retiling notebooks *)

(** The claim as stated fails for the elevation notebook: two rows of
    the index match the tile, and the tile body does not raise; it
    downloads both archives, merges the two rasters and uploads the
    result. *)
Lemma C3_counterexample_elevation_notebook_accepts_two_matches :
  length (filter (fun r : row box string =>
                    intersects (row_geometry r) (from_bounds (da_bounds toy_grid))
                    = true)
                 (gdf_to_crs (da_crs toy_grid) dem_two_matches)) = 2%nat /\
  dem_tile_body "https://dcache/ArcticDEM_tiles" dem_two_matches
                ("5VMG", tile_5VMG) []
  = (Ok tt,
     [EvGetAsset "S2B_5VMG_20210329_0_L1C";
      EvGetTarFile "u1"; EvGetTarFile "u3";
      EvOpenRasterio "u1_dem.tif"; EvOpenRasterio "u3_dem.tif";
      EvMergeArrays 2; EvReproject; EvClipBox;
      EvToRaster "5VMG.tif"; EvUpload "5VMG.tif"]).
Proof. split; reflexivity. Qed.

Lemma C3_witness :
  get_asset (item_id tile_5VMG) = Ok toy_grid /\
  length (filter (fun r : row box Z =>
                    intersects (row_geometry r)
                               (from_bounds (transform_bounds toy_grid tt)) = true)
                 rgi_two_matches) <> 1%nat /\
  rgi_tile_body "https://dcache/GIS/Glacier" tt rgi_two_matches
                ("5VMG", tile_5VMG) []
  = (Raise AssertionError, [] ++ [EvGetAsset (item_id tile_5VMG)]).
Proof.
  split; [reflexivity|]. split; [vm_compute; lia|].
  refine (proj1 (C3_assertion_in_glacier_notebook_only
                   tt tt "https://dcache/GIS/Glacier"
                   "https://dcache/ArcticDEM_tiles"
                   rgi_two_matches dem_two_matches gshhs_two_matches
                   "5VMG" tile_5VMG toy_grid [] _) _).
  - reflexivity.
  - vm_compute; lia.
Defined.

(** ** Selection of the intersecting rows *)

Lemma C4_witness :
  select_intersecting dem_two_matches (mk_box 0 0 10 10)
  = filter (fun r : row box string =>
              is_empty (intersection (row_geometry r) (mk_box 0 0 10 10)) = false)
           dem_two_matches /\
  get_itersecting_DEM_tile_URLs dem_two_matches (mk_box 0 0 10 10) = ["u1"; "u3"] /\
  get_itersecting_RGI_regions rgi_one_match (mk_box 0 0 10 10) = [1].
Proof.
  pose proof (C4_selected_rows_are_exactly_the_intersecting_rows
                dem_two_matches rgi_one_match (mk_box 0 0 10 10))
    as (Hsel & _ & _ & _ & Hurls & Hcodes).
  split; [exact Hsel|]. split.
  - rewrite Hurls. reflexivity.
  - rewrite Hcodes. reflexivity.
Defined.

(** ** The mosaic of two archives *)

Lemma C5_witness :
  download_and_mosaic ["u1"; "u3"] (mk_box 0 0 10 10) tt tt []
  = (Ok ["u1"; "u3"],
     [EvGetTarFile "u1"; EvGetTarFile "u3";
      EvOpenRasterio "u1_dem.tif"; EvOpenRasterio "u3_dem.tif";
      EvMergeArrays 2; EvReproject; EvClipBox]).
Proof.
  apply (proj2 (proj1 (C5_download_merge_reproject_crop
                         ["u1"; "u3"] (mk_box 0 0 10 10) tt tt []
                         ["u1"; "u3"]
                         [EvGetTarFile "u1"; EvGetTarFile "u3";
                          EvOpenRasterio "u1_dem.tif"; EvOpenRasterio "u3_dem.tif";
                          EvMergeArrays 2; EvReproject; EvClipBox]))).
  exists [[("u1_dem.tif", "u1"); ("u1_matchtag.tif", "u1");
           ("index/u1_dem.tif", "u1")];
          [("u3_dem.tif", "u3"); ("u3_matchtag.tif", "u3");
           ("index/u3_dem.tif", "u3")]],
         [["u1"]; ["u3"]], ["u1"; "u3"], ["u1"; "u3"].
  cbv zeta. split; [repeat constructor|]. split; [repeat constructor|].
  repeat split.
Defined.

(** ** The scratch directory after an archive with sub-directories

    [a_dem.tif] is unpacked into the directory itself and is matched;
    [index/b_dem.tif] lies below it and is not; the directory
    [c_dem.tif] is an entry of the scratch directory and is matched. *)

Example glob_matches_entries_of_the_scratch_directory_only :
  glob_dem (extractall [] [("a_dem.tif", "a"); ("index/b_dem.tif", "b");
                           ("c_dem.tif/readme.txt", "c"); ("notes.txt", "n")])
  = [("a_dem.tif", "a"); ("c_dem.tif", "<directory>")].
Proof. reflexivity. Qed.

(** ** Tile enumeration over three scenes of two tiles *)

Lemma C6_witness :
  (forall it, it ∈ [tile_5VMG; tile_5VMG_later; tile_6VMG] ->
     forall k, k ∈ TILE_ID_KEYS -> is_Some (properties it !! k)) /\
  get_sentinel2_tile_id tile_5VMG = Ok "5VMG" /\
  exists tiles,
    enumerate_tiles [tile_5VMG; tile_5VMG_later; tile_6VMG] = Ok tiles /\
    NoDup (dict_keys tiles) /\
    dict_get tiles "5VMG" = Some tile_5VMG /\
    dict_get tiles "6VMG" = Some tile_6VMG.
Proof.
  assert (Hprops : forall it, it ∈ [tile_5VMG; tile_5VMG_later; tile_6VMG] ->
                     forall k, k ∈ TILE_ID_KEYS -> is_Some (properties it !! k)).
  { intros it Hit k Hk. unfold TILE_ID_KEYS in Hk.
    repeat (apply elem_of_cons in Hit as [->|Hit]);
      [| | |by apply elem_of_nil in Hit];
      repeat (apply elem_of_cons in Hk as [->|Hk]);
      try (by apply elem_of_nil in Hk);
      vm_compute; eauto. }
  destruct (C6_tile_identifier_and_enumeration
              [tile_5VMG; tile_5VMG_later; tile_6VMG] Hprops)
    as (Hid & _ & tiles & Hrun & Hnd & _ & Hget).
  split; [exact Hprops|]. split.
  - exact (Hid tile_5VMG (PInt 5) (PStr "V") (PStr "MG") eq_refl eq_refl eq_refl).
  - exists tiles. split; [exact Hrun|]. split; [exact Hnd|].
    split; rewrite Hget; reflexivity.
Defined.

(** ** Link fix-up of two scenes *)

Lemma C7_witness :
  length (LinkAssets.relink_loop [scene_full; scene_part]).2 = 2%nat /\
  item_id <$> (LinkAssets.relink_loop [scene_full; scene_part]).2
  = item_id <$> [scene_full; scene_part].
Proof.
  pose proof (C7_link_fixup_changes_only_hrefs [scene_full; scene_part])
    as [Hlen Hall].
  split; [exact Hlen|]. reflexivity.
Defined.

Lemma C8_witness :
  (properties scene_full !! "sentinel:utm_zone" = Some (PInt 5) /\
   properties scene_full !! "sentinel:latitude_band" = Some (PStr "V") /\
   properties scene_full !! "sentinel:grid_square" = Some (PStr "MG") /\
   properties scene_full !! "sentinel:product_id" = Some (PStr "FULL") /\
   LinkAssets.safe_url scene_full = Ok scene_full_url) /\
  (properties scene_mgrs !! "s2:mgrs_tile" = Some (PStr "05VMG") /\
   str_index "05VMG" 2 = Ok "V" /\
   SensorArrays.make_url scene_mgrs "QI_DATA/MSK_DETFOO_B02.gml"
   = Ok ("http://storage.googleapis.com/gcp-public-data-sentinel-2/tiles/05/V/MG/"
         +:+ "L1C_T05VMG_A021234/QI_DATA/MSK_DETFOO_B02.gml")).
Proof.
  destruct (C8_urls_are_templates_of_item_identifiers
              (G := box) (B := box) (T := Z)) as (Hsafe & _ & Hmake & _).
  split.
  - do 4 (split; [reflexivity|]).
    exact (Hsafe scene_full 5 (PStr "V") (PStr "MG") (PStr "FULL")
                 eq_refl eq_refl eq_refl eq_refl).
  - do 2 (split; [reflexivity|]).
    exact (Hmake scene_mgrs "05VMG" "V" "QI_DATA/MSK_DETFOO_B02.gml"
                 eq_refl eq_refl).
Defined.

Lemma C10_witness :
  (LinkAssets.safe_url scene_full = Ok scene_full_url /\
   LinkAssets._get_band_urls scene_full_url
   = Ok [("B02", scene_full_url +:+ "/T_B02");
         ("TCI", scene_full_url +:+ "/T_TCI")] /\
   (LinkAssets.relink_item scene_full).1 = Ok tt /\
   assets (LinkAssets.relink_item scene_full).2 !! "overview"
   = Some (mk_asset (scene_full_url +:+ "/T_TCI") (Some "image/jpeg") ["overview"]) /\
   assets (LinkAssets.relink_item scene_full).2 !! "B02"
   = Some (mk_asset (scene_full_url +:+ "/T_B02") (Some "image/jp2") ["data"]) /\
   assets (LinkAssets.relink_item scene_full).2 !! "B03"
   = Some (mk_asset "s3://sentinel-s2-l1c/B03.jp2" (Some "image/jp2") ["data"])) /\
  (LinkAssets.safe_url scene_part = Ok scene_part_url /\
   LinkAssets._get_band_urls scene_part_url
   = Ok [("B02", scene_part_url +:+ "/T_B02")] /\
   (LinkAssets.relink_item scene_part).1 = Raise KeyError).
Proof.
  split.
  - assert (Hurl : LinkAssets.safe_url scene_full = Ok scene_full_url)
      by reflexivity.
    assert (Hbands : LinkAssets._get_band_urls scene_full_url
                     = Ok [("B02", scene_full_url +:+ "/T_B02");
                           ("TCI", scene_full_url +:+ "/T_TCI")])
      by reflexivity.
    destruct (C10_band_guard_and_overview_from_TCI
                scene_full scene_full_url
                [("B02", scene_full_url +:+ "/T_B02");
                 ("TCI", scene_full_url +:+ "/T_TCI")]
                Hurl Hbands) as (Hband & _ & Hov & _).
    split; [exact Hurl|]. split; [exact Hbands|].
    destruct (Hov (scene_full_url +:+ "/T_TCI")
                  (mk_asset "s3://sentinel-s2-l1c/preview.jpg"
                            (Some "image/jpeg") ["overview"])
                  eq_refl eq_refl) as [Hok Hover].
    split; [exact Hok|]. split; [exact Hover|]. split.
    + exact (Hband "B02"
                   (mk_asset "s3://sentinel-s2-l1c/B02.jp2" (Some "image/jp2") ["data"])
                   ltac:(discriminate) eq_refl).
    + exact (Hband "B03"
                   (mk_asset "s3://sentinel-s2-l1c/B03.jp2" (Some "image/jp2") ["data"])
                   ltac:(discriminate) eq_refl).
  - assert (Hurl : LinkAssets.safe_url scene_part = Ok scene_part_url)
      by reflexivity.
    assert (Hbands : LinkAssets._get_band_urls scene_part_url
                     = Ok [("B02", scene_part_url +:+ "/T_B02")])
      by reflexivity.
    destruct (C10_band_guard_and_overview_from_TCI
                scene_part scene_part_url
                [("B02", scene_part_url +:+ "/T_B02")]
                Hurl Hbands) as (_ & _ & _ & Hnone).
    split; [exact Hurl|]. split; [exact Hbands|].
    exact (Hnone eq_refl).
Defined.

(** ** Shadow catalog over three scenes: one covers the whole area of
    interest, one exactly 70% of it, one 80% *)

Lemma C9_witness :
  (0 < area aoi)%Qc /\
  (forall it : item box box Z, it ∈ [scene_100; scene_70; scene_80] ->
     (Q2Qc (7 # 10) * area aoi < area (intersection (geometry it) aoi))%Qc ->
     is_Some (datetime it) /\
     is_ok (Shadows._get_l2a_item it l2a_catalog) = true) /\
  exists items,
    Shadows.shadow_items aoi l2a_catalog [scene_100; scene_70; scene_80] = Ok items /\
    Forall2 (fun item_l1c out =>
               geometry out = intersection (geometry item_l1c) aoi /\
               bbox out = Some (bounds (intersection (geometry item_l1c) aoi)) /\
               datetime out = datetime item_l1c)
            (filter (fun it : item box box Z =>
                       (Q2Qc (7 # 10) * area aoi
                        < area (intersection (geometry it) aoi))%Qc)
                    [scene_100; scene_70; scene_80])
            items.
Proof.
  assert (Hpos : (0 < area aoi)%Qc) by (vm_compute; reflexivity).
  assert (Hwf : forall it : item box box Z,
             it ∈ [scene_100; scene_70; scene_80] ->
             (Q2Qc (7 # 10) * area aoi < area (intersection (geometry it) aoi))%Qc ->
             is_Some (datetime it) /\
             is_ok (Shadows._get_l2a_item it l2a_catalog) = true).
  { intros it Hit _.
    repeat (apply elem_of_cons in Hit as [->|Hit]);
      [| | |by apply elem_of_nil in Hit];
      (split; [eexists; reflexivity | vm_compute; reflexivity]). }
  split; [exact Hpos|]. split; [exact Hwf|].
  exact (proj2 (C9_shadow_items_are_the_items_covering_70_percent
                  aoi l2a_catalog [scene_100; scene_70; scene_80] Hpos Hwf)).
Defined.

(** The scene covering exactly 70% is left out; the two others give the
    two output items, with the intersections as geometries. *)
Example shadow_items_of_three_scenes :
  (fun r => match r with
            | Ok items => Some (map (fun it => (geometry it, links it)) items)
            | Raise _ => None
            end)
    (Shadows.shadow_items aoi l2a_catalog [scene_100; scene_70; scene_80])
  = Some [(mk_box 0 0 10 10, [("item-L1C", "L1C_a")]);
          (mk_box 0 0 8 10,
           [("item-L1C", "L1C_c"); ("item-L2A", "S2B_5VMG_%Y%m%d0_0_L2A")])].
Proof. vm_compute. reflexivity. Qed.

(** ** One region over the tile: the archive of region 1 is looked up and
    rasterized *)
Example glacier_tile_body_with_one_match :
  rgi_tile_body "https://dcache/GIS/Glacier" tt rgi_one_match
                ("5VMG", tile_5VMG) []
  = (Ok tt,
     [EvGetAsset "S2B_5VMG_20210329_0_L1C";
      EvGlob "https://dcache/GIS/Glacier/01_rgi60_*.zip";
      EvRasterize "5VMG"]).
Proof. reflexivity. Qed.

(* ================================================================== *)
(** * Part IV: further properties of the notebooks *)
(* ================================================================== *)

(** ** Strings *)

Lemma str_app_cons (c : ascii) (s t : string) :
  String c s +:+ t = String c (s +:+ t).
Proof. reflexivity. Qed.

Lemma str_length_app (s t : string) :
  String.length (s +:+ t) = (String.length s + String.length t)%nat.
Proof.
  induction s as [|c s IH]; [reflexivity|].
  rewrite str_app_cons. simpl. by rewrite IH.
Qed.

Lemma substring_all (t : string) : String.substring 0 (String.length t) t = t.
Proof. induction t as [|c t IH]; simpl; [reflexivity | by rewrite IH]. Qed.

Lemma substring_skip (s t : string) (m : nat) :
  String.substring (String.length s) m (s +:+ t) = String.substring 0 m t.
Proof.
  induction s as [|c s IH]; [reflexivity|].
  rewrite str_app_cons. simpl. exact IH.
Qed.

Lemma str_upto_app (s t : string) : str_upto (String.length s) (s +:+ t) = s.
Proof.
  unfold str_upto. induction s as [|c s IH].
  - simpl. by destruct t.
  - rewrite str_app_cons. simpl. by rewrite IH.
Qed.

Lemma str_from_app (s t : string) : str_from (String.length s) (s +:+ t) = t.
Proof.
  induction s as [|c s IH]; [reflexivity|].
  rewrite str_app_cons. simpl. exact IH.
Qed.

Lemma str_app_assoc (s t u : string) : (s +:+ t) +:+ u = s +:+ (t +:+ u).
Proof.
  induction s as [|c s IH]; [reflexivity|].
  rewrite !str_app_cons. by rewrite IH.
Qed.

Lemma ends_with_app (s suffix : string) : ends_with suffix (s +:+ suffix) = true.
Proof.
  unfold ends_with. rewrite str_length_app.
  rewrite bool_decide_eq_true_2 by lia. simpl.
  replace (String.length s + String.length suffix - String.length suffix)%nat
    with (String.length s) by lia.
  rewrite substring_skip, substring_all. apply String.eqb_refl.
Qed.

(** ** Catalog URLs *)

(** X1. [read_catalog] accepts the root of a catalog or its
    [catalog.json]: the file it reads always ends in [catalog.json],
    normalizing twice is the same as once, and for a root that does not
    itself end in [catalog.json], reading the root and reading
    [root/catalog.json] read the same file. *)
Theorem X1_read_catalog_accepts_root_or_file
    {Cat : Type} (from_file : string -> result Cat) (url : string) :
  ends_with "catalog.json" (catalog_file_url url) = true /\
  catalog_file_url (catalog_file_url url) = catalog_file_url url /\
  (ends_with "catalog.json" url = false ->
   read_catalog from_file (url +:+ "/catalog.json") = read_catalog from_file url).
Proof.
  assert (Hends : ends_with "catalog.json" (url +:+ "/catalog.json") = true).
  { change (url +:+ "/catalog.json") with (url +:+ ("/" +:+ "catalog.json")).
    rewrite <- str_app_assoc. apply ends_with_app. }
  assert (Hnorm : ends_with "catalog.json" (catalog_file_url url) = true).
  { unfold catalog_file_url.
    destruct (ends_with "catalog.json" url) eqn:He; [exact He | exact Hends]. }
  split; [exact Hnorm|]. split.
  - unfold catalog_file_url at 1. by rewrite Hnorm.
  - intros He. unfold read_catalog, catalog_file_url. by rewrite Hends, He.
Qed.

Lemma after_last_slash_cons_0 (c : ascii) (s : string) :
  after_last_slash (String c s) = O -> c <> "/"%char /\ after_last_slash s = O.
Proof.
  simpl. destruct (after_last_slash s); [|discriminate].
  destruct (decide (c = "/"%char)); [discriminate | done].
Qed.

Lemma no_slash_after_last_slash (s : string) :
  (forall i, String.get i s <> Some "/"%char) -> after_last_slash s = O.
Proof.
  induction s as [|c s IH]; intros Hno; [reflexivity|].
  simpl. rewrite IH by (intros i; apply (Hno (S i))).
  rewrite decide_False; [reflexivity|].
  intros ->. by apply (Hno O).
Qed.

Lemma after_last_slash_app (r name : string) :
  after_last_slash name = O ->
  after_last_slash (r +:+ String "/"%char name) = S (String.length r).
Proof.
  intros Hname. induction r as [|c r IH].
  - change (after_last_slash (String "/"%char name) = 1%nat).
    simpl. rewrite Hname. reflexivity.
  - rewrite str_app_cons. simpl. by rewrite IH.
Qed.

Lemma rstrip_slashes (n : nat) : rstrip "/"%char (slashes n) = EmptyString.
Proof.
  induction n as [|n IH]; [reflexivity|].
  simpl. rewrite IH. reflexivity.
Qed.

Lemma rstrip_app_nonempty (c : ascii) (s t : string) :
  rstrip c t <> EmptyString -> rstrip c (s +:+ t) = s +:+ rstrip c t.
Proof.
  intros Ht. induction s as [|a s IH]; [reflexivity|].
  rewrite !str_app_cons. simpl. rewrite IH.
  destruct (s +:+ rstrip c t) eqn:Hs; [|reflexivity].
  destruct s; [|discriminate]. by destruct Ht.
Qed.

Lemma rstrip_no_slash_then_slash (id : string) :
  id <> EmptyString -> after_last_slash id = O ->
  rstrip "/"%char (id +:+ "/") = id.
Proof.
  induction id as [|a id IH]; intros Hne Hno; [done|].
  apply after_last_slash_cons_0 in Hno as [Ha Hno].
  rewrite str_app_cons. simpl.
  destruct id as [|b id].
  - change (rstrip "/"%char (EmptyString +:+ "/")) with
      (if decide ("/"%char = "/"%char) then EmptyString
       else String "/"%char EmptyString).
    rewrite decide_True by done. by rewrite decide_False.
  - rewrite IH by done. reflexivity.
Qed.

(** What [os.path.split] returns for [root/name] when [name] has no
    slash and [root] ends in a name of its own. *)
Lemma os_path_split_tail (r name : string) :
  after_last_slash name = O ->
  (os_path_split (r +:+ String "/"%char name)).2 = name.
Proof.
  intros Hname. unfold os_path_split. cbn [snd].
  rewrite after_last_slash_app by done.
  change (r +:+ String "/"%char name) with (r +:+ ("/" +:+ name)).
  rewrite <- str_app_assoc.
  replace (S (String.length r)) with (String.length (r +:+ "/"))
    by (rewrite str_length_app; simpl; lia).
  apply str_from_app.
Qed.

Lemma os_path_split_head (base id name : string) :
  id <> EmptyString -> after_last_slash id = O -> after_last_slash name = O ->
  (os_path_split ((base +:+ String "/"%char id) +:+ String "/"%char name)).1
  = base +:+ String "/"%char id.
Proof.
  intros Hne Hid Hname. unfold os_path_split. cbn [fst].
  rewrite after_last_slash_app by done.
  set (root := base +:+ String "/"%char id).
  change (root +:+ String "/"%char name) with (root +:+ ("/" +:+ name)).
  rewrite <- str_app_assoc.
  replace (S (String.length root)) with (String.length (root +:+ "/"))
    by (rewrite str_length_app; simpl; lia).
  rewrite str_upto_app.
  assert (Hstrip : rstrip "/"%char (root +:+ "/") = root).
  { unfold root.
    change (base +:+ String "/"%char id) with (base +:+ ("/" +:+ id)).
    rewrite <- (str_app_assoc base "/" id), str_app_assoc.
    rewrite rstrip_app_nonempty; rewrite rstrip_no_slash_then_slash by done;
      done. }
  assert (Hroot : root <> EmptyString) by (unfold root; by destruct base).
  assert (Hne1 : String.eqb (root +:+ "/") EmptyString = false)
    by (apply String.eqb_neq; by destruct root).
  assert (Hne2 : String.eqb (root +:+ "/")
                            (slashes (String.length (root +:+ "/"))) = false).
  { apply String.eqb_neq. intros Heq. rewrite Heq, rstrip_slashes in Hstrip.
    by rewrite <- Hstrip in Hroot. }
  rewrite Hne1, Hne2. exact Hstrip.
Qed.

(** X2. [_save_catalog] accepts the root of the catalog or its
    [catalog.json] and treats both alike: the catalog is saved under the
    root, and its id is the last component of the root.  Stated for a
    root [base/id] whose last component is not empty, has no slash, and
    does not make the root end in [catalog.json]. *)
Theorem X2_save_catalog_root_and_id
    {I : Type}
    (normalize_and_save : string -> list I -> option string -> string -> result unit)
    (items : list I) (template : option string) (base id : string) :
  id <> EmptyString ->
  (forall i, String.get i id <> Some "/"%char) ->
  ends_with "catalog.json" (base +:+ "/" +:+ id) = false ->
  _save_catalog normalize_and_save items (base +:+ "/" +:+ id) template
  = normalize_and_save id items template (base +:+ "/" +:+ id) /\
  _save_catalog normalize_and_save items
                ((base +:+ "/" +:+ id) +:+ "/catalog.json") template
  = normalize_and_save id items template (base +:+ "/" +:+ id).
Proof.
  intros Hne Hno Hends. apply no_slash_after_last_slash in Hno.
  change (base +:+ "/" +:+ id) with (base +:+ String "/"%char id) in *.
  unfold _save_catalog. split.
  - rewrite Hends. cbn [negb]. by rewrite os_path_split_tail.
  - change ((base +:+ String "/"%char id) +:+ "/catalog.json")
      with ((base +:+ String "/"%char id) +:+ String "/"%char "catalog.json").
    assert (Hfile : ends_with "catalog.json"
                      ((base +:+ String "/"%char id)
                       +:+ String "/"%char "catalog.json") = true).
    { change ((base +:+ String "/"%char id) +:+ String "/"%char "catalog.json")
        with ((base +:+ String "/"%char id) +:+ ("/" +:+ "catalog.json")).
      rewrite <- str_app_assoc. apply ends_with_app. }
    rewrite Hfile. cbn [negb].
    rewrite os_path_split_head by done.
    by rewrite os_path_split_tail.
Qed.

(** ** Tile enumeration, continued *)

Lemma dict_set_fresh {V} (d : dict V) (k : string) (v : V) :
  dict_get d k = None -> dict_set d k v = d ++ [(k, v)].
Proof.
  induction d as [|[k1 v1] d IH]; simpl; [done|].
  destruct (decide (k1 = k)); [discriminate|].
  intros Hget. by rewrite IH.
Qed.

Lemma dict_get_elem_of {V} (d : dict V) (k : string) (v : V) :
  NoDup (dict_keys d) -> (k, v) ∈ d -> dict_get d k = Some v.
Proof.
  unfold dict_keys. induction d as [|[k1 v1] d IH]; intros Hnd Hin.
  - by apply elem_of_nil in Hin.
  - rewrite fmap_cons in Hnd. apply list.NoDup_cons in Hnd as [Hfresh Hnd].
    simpl. apply elem_of_cons in Hin as [[= <- <-]|Hin].
    + by rewrite decide_True.
    + rewrite decide_False; [by apply IH|].
      intros ->. apply Hfresh. apply list_elem_of_fmap. by exists (k, v).
Qed.

Section TileEnumerationFacts.
Context {G B T : Type}.
Implicit Types (it : item G B T).

Lemma get_sentinel2_tile_id_raise it (e : exn) :
  get_sentinel2_tile_id it = Raise e ->
  e = KeyError /\ exists k, k ∈ TILE_ID_KEYS /\ properties it !! k = None.
Proof.
  unfold get_sentinel2_tile_id, TILE_ID_KEYS, getitem. simpl.
  destruct (properties it !! "sentinel:utm_zone") eqn:Hz; simpl;
    [|intros [= <-]; split; [done|]; eexists; split; [|exact Hz]; set_solver].
  destruct (properties it !! "sentinel:latitude_band") eqn:Hb; simpl;
    [|intros [= <-]; split; [done|]; eexists; split; [|exact Hb]; set_solver].
  destruct (properties it !! "sentinel:grid_square") eqn:Hs; simpl;
    [|intros [= <-]; split; [done|]; eexists; split; [|exact Hs]; set_solver].
  discriminate.
Qed.

Lemma get_sentinel2_tile_id_missing it (k : string) :
  k ∈ TILE_ID_KEYS -> properties it !! k = None ->
  get_sentinel2_tile_id it = Raise KeyError.
Proof.
  intros Hk Hnone. unfold get_sentinel2_tile_id, getitem.
  unfold TILE_ID_KEYS in *. simpl.
  destruct (properties it !! "sentinel:utm_zone") eqn:Hz; simpl; [|done].
  destruct (properties it !! "sentinel:latitude_band") eqn:Hb; simpl; [|done].
  destruct (properties it !! "sentinel:grid_square") eqn:Hs; simpl; [|done].
  repeat (apply elem_of_cons in Hk as [->|Hk]); try congruence.
  by apply elem_of_nil in Hk.
Qed.

Lemma tiles_loop_app (items more : list (item G B T)) :
  forall tiles,
    tiles_loop (items ++ more) tiles
    = match tiles_loop items tiles with
      | (Ok _, tiles1) => tiles_loop more tiles1
      | (Raise e, tiles1) => (Raise e, tiles1)
      end.
Proof.
  induction items as [|it rest IH]; intros tiles; simpl; [done|].
  destruct (get_sentinel2_tile_id it); simpl; [apply IH | done].
Qed.

(** A loop that raises stopped at the first item whose identifier
    cannot be built; it ran to the end on the items before that one. *)
Lemma tiles_loop_raise (items : list (item G B T)) :
  forall tiles e tiles',
    tiles_loop items tiles = (Raise e, tiles') ->
    exists pre it post,
      items = pre ++ it :: post /\
      get_sentinel2_tile_id it = Raise e /\
      tiles_loop pre tiles = (Ok tt, tiles').
Proof.
  induction items as [|it rest IH]; intros tiles e tiles'; simpl; [discriminate|].
  destruct (get_sentinel2_tile_id it) as [tile_id|e'] eqn:Hid.
  - intros Hrest. apply IH in Hrest as (pre & it' & post & -> & Hraise & Hpre).
    exists (it :: pre), it', post. split; [done|]. split; [done|].
    simpl. by rewrite Hid.
  - intros [= <- <-]. exists [], it, rest. done.
Qed.

Lemma tiles_loop_raises (items : list (item G B T)) :
  forall tiles it e0,
    it ∈ items -> get_sentinel2_tile_id it = Raise e0 ->
    exists e tiles', tiles_loop items tiles = (Raise e, tiles').
Proof.
  induction items as [|it' rest IH]; intros tiles it e0 Hin Hraise.
  - by apply elem_of_nil in Hin.
  - simpl. destruct (get_sentinel2_tile_id it') as [tile_id|e'] eqn:Hid;
      [|eauto].
    apply elem_of_cons in Hin as [->|Hin]; [congruence|].
    by apply (IH _ it e0).
Qed.

(** X3. Tile enumeration fails only with [KeyError], and it does so
    exactly when some item of the catalog lacks one of the three tile
    properties.  The loop then stops at the first such item: the items
    after it are not looked at, and the dictionary [tiles] is left
    holding the entries made for the items before it, which is the
    enumeration of these items. *)
Theorem X3_enumeration_fails_iff_a_tile_property_is_missing
    (items : list (item G B T)) :
  (forall e, enumerate_tiles items = Raise e -> e = KeyError) /\
  (enumerate_tiles items = Raise KeyError
   <-> exists it k, it ∈ items /\ k ∈ TILE_ID_KEYS /\ properties it !! k = None) /\
  (forall e tiles,
     tiles_loop items [] = (Raise e, tiles) ->
     exists pre it post k,
       items = pre ++ it :: post /\
       k ∈ TILE_ID_KEYS /\ properties it !! k = None /\
       enumerate_tiles pre = Ok tiles /\
       forall post', tiles_loop (pre ++ it :: post') [] = (Raise e, tiles)).
Proof.
  split; [|split].
  - intros e Hraise. apply enumerate_tiles_Raise in Hraise as [tiles Hraise].
    apply tiles_loop_raise in Hraise as (_ & it & _ & _ & Hid & _).
    by apply get_sentinel2_tile_id_raise in Hid as [-> _].
  - split.
    + intros Hraise. apply enumerate_tiles_Raise in Hraise as [tiles Hraise].
      apply tiles_loop_raise in Hraise as (pre & it & post & -> & Hid & _).
      apply get_sentinel2_tile_id_raise in Hid as (_ & k & Hk & Hnone).
      exists it, k. split; [|done].
      apply elem_of_app. right. by left.
    + intros (it & k & Hin & Hk & Hnone).
      pose proof (get_sentinel2_tile_id_missing it k Hk Hnone) as Hid.
      destruct (tiles_loop_raises items [] it KeyError Hin Hid) as (e & tiles & He).
      apply enumerate_tiles_Raise. exists tiles. rewrite He. do 2 f_equal.
      apply tiles_loop_raise in He as (_ & it' & _ & _ & Hid' & _).
      by apply get_sentinel2_tile_id_raise in Hid' as [-> _].
  - intros e tiles Hraise.
    apply tiles_loop_raise in Hraise as (pre & it & post & -> & Hid & Hpre).
    pose proof Hid as Hid'.
    apply get_sentinel2_tile_id_raise in Hid' as (_ & k & Hk & Hnone).
    exists pre, it, post, k. split; [done|]. split; [done|]. split; [done|].
    split; [by apply enumerate_tiles_Ok|].
    intros post'. rewrite tiles_loop_app, Hpre. simpl. by rewrite Hid.
Qed.

Lemma tiles_loop_entries (items : list (item G B T)) :
  forall tiles tiles',
    tiles_loop items tiles = (Ok tt, tiles') ->
    tiles `prefix_of` tiles' /\
    (forall k it, (k, it) ∈ tiles' ->
       (k, it) ∈ tiles \/ (it ∈ items /\ get_sentinel2_tile_id it = Ok k)) /\
    (length tiles' <= length tiles + length items)%nat.
Proof.
  induction items as [|it rest IH]; intros tiles tiles'; simpl.
  - intros [= <-]. split; [done|]. split; [by left | lia].
  - destruct (get_sentinel2_tile_id it) as [tile_id|] eqn:Hid;
      [|discriminate].
    intros Hrest. apply IH in Hrest as (Hpre & Hent & Hlen).
    unfold dict_mem in *. destruct (dict_get tiles tile_id) eqn:Hget.
    + split; [done|]. split; [|lia].
      intros k it' Hin. destruct (Hent k it' Hin) as [?|[? ?]]; [by left|].
      right. split; [by right | done].
    + rewrite dict_set_fresh in * by done. split.
      * eapply prefix_app_l. exact Hpre.
      * split.
        -- intros k it' Hin. destruct (Hent k it' Hin) as [Hold|[? ?]].
           ++ apply elem_of_app in Hold as [?|Hnew]; [by left|].
              apply list_elem_of_singleton in Hnew as [= -> ->].
              right. split; [by left | done].
           ++ right. split; [by right | done].
        -- rewrite length_app in Hlen. simpl in *. lia.
Qed.

(** X4. Every entry of the enumerated dictionary binds a tile
    identifier to an item of the catalog that has this identifier, and
    the dictionary has at most as many entries as the catalog has
    items. *)
Theorem X4_enumerated_entries_are_catalog_items
    (items : list (item G B T)) (tiles : dict (item G B T)) :
  enumerate_tiles items = Ok tiles ->
  (forall k it, (k, it) ∈ tiles ->
                it ∈ items /\ get_sentinel2_tile_id it = Ok k) /\
  (length tiles <= length items)%nat.
Proof.
  intros Hrun. apply enumerate_tiles_Ok in Hrun.
  apply tiles_loop_entries in Hrun as (_ & Hent & Hlen).
  split; [|simpl in Hlen; lia].
  intros k it Hin. destruct (Hent k it Hin) as [Hnil|?]; [|done].
  by apply elem_of_nil in Hnil.
Qed.

(** X5. The dictionary only grows at its end: when a catalog is
    extended by further items, the enumeration of the shorter catalog is
    an initial segment of the enumeration of the longer one.  So a tile
    keeps the item it was first bound to, and the tiles are ordered by
    their first occurrence in the catalog. *)
Theorem X5_enumeration_of_an_extended_catalog
    (items more : list (item G B T)) (tiles2 : dict (item G B T)) :
  enumerate_tiles (items ++ more) = Ok tiles2 ->
  exists tiles1,
    enumerate_tiles items = Ok tiles1 /\ tiles1 `prefix_of` tiles2.
Proof.
  intros Hrun. apply enumerate_tiles_Ok in Hrun.
  rewrite tiles_loop_app in Hrun.
  destruct (tiles_loop items []) as [[[]|e] tiles1] eqn:Hrun1; [|discriminate].
  exists tiles1. split; [by apply enumerate_tiles_Ok|].
  by apply tiles_loop_entries in Hrun as (Hpre & _).
Qed.

Lemma tiles_loop_Forall_ok (items : list (item G B T)) :
  forall tiles tiles',
    tiles_loop items tiles = (Ok tt, tiles') ->
    Forall (fun it => is_ok (get_sentinel2_tile_id it) = true) items.
Proof.
  induction items as [|it rest IH]; intros tiles tiles'; simpl; [by constructor|].
  destruct (get_sentinel2_tile_id it) eqn:Hid; [|discriminate].
  intros Hrest. constructor; [by rewrite Hid | by eapply IH].
Qed.

Lemma tiles_loop_rebuild (d : dict (item G B T)) :
  forall tiles,
    NoDup (dict_keys (tiles ++ d)) ->
    Forall (fun p => get_sentinel2_tile_id p.2 = Ok p.1) d ->
    tiles_loop d.*2 tiles = (Ok tt, tiles ++ d).
Proof.
  induction d as [|[k it] d IH]; intros tiles Hnd Hall.
  - by rewrite app_nil_r.
  - inversion Hall as [|? ? Hid Hrest]; subst. simpl in Hid.
    rewrite fmap_cons. cbn [snd tiles_loop]. rewrite Hid.
    assert (Hfresh : dict_get tiles k = None).
    { apply dict_get_None_keys. unfold dict_keys in *.
      rewrite fmap_app, fmap_cons in Hnd. simpl in Hnd.
      apply list.NoDup_app in Hnd as (_ & Hdisj & _).
      intros Hin. apply (Hdisj k Hin). by left. }
    unfold dict_mem. rewrite Hfresh, dict_set_fresh by done.
    rewrite IH; [by rewrite <- app_assoc | by rewrite <- app_assoc | done].
Qed.

(** X6. Enumerating the representatives again changes nothing: the
    enumeration of the items held by the dictionary, in its order, is the
    dictionary itself. *)
Theorem X6_enumeration_is_idempotent
    (items : list (item G B T)) (tiles : dict (item G B T)) :
  enumerate_tiles items = Ok tiles ->
  enumerate_tiles tiles.*2 = Ok tiles.
Proof.
  intros Hrun. apply enumerate_tiles_Ok in Hrun. apply enumerate_tiles_Ok.
  pose proof (tiles_loop_Forall_ok _ _ _ Hrun) as Hok.
  destruct (tiles_loop_ok items [] [] Hok) as (tiles' & Hrun' & Hnd & _).
  { apply NoDup_nil_2. }
  { intros k. by rewrite filter_nil. }
  rewrite Hrun in Hrun'. injection Hrun' as <-.
  apply (tiles_loop_rebuild tiles []); [exact Hnd|].
  apply list.Forall_forall. intros [k it] Hin.
  apply tiles_loop_entries in Hrun as (_ & Hent & _).
  destruct (Hent k it Hin) as [Hnil|[_ ?]]; [|done].
  by apply elem_of_nil in Hnil.
Qed.

End TileEnumerationFacts.

(** ** Source lookup, continued *)

Section LookupMore.
Context {G B C : Type} `{Shapely G B C}.

Local Abbreviation matching_row footprint :=
  (fun r => intersects (row_geometry r) footprint = true).

(** X7. The glacier resolver does not depend on the order of the rows
    of the index: two indices with the same rows give the same result.
    A code it returns is the code of a row of the index that intersects
    the footprint. *)
Theorem X7_glacier_resolver_ignores_row_order
    (rgi_index rgi_index' : list (row G Z)) (footprint : G) :
  rgi_index ≡ₚ rgi_index' ->
  resolve_rgi_code rgi_index footprint = resolve_rgi_code rgi_index' footprint /\
  (forall code, resolve_rgi_code rgi_index footprint = Ok code ->
     exists r, r ∈ rgi_index /\ row_attr r = code /\
               intersects (row_geometry r) footprint = true).
Proof.
  intros Hperm.
  pose proof (resolve_rgi_code_cases rgi_index footprint) as Hc.
  pose proof (resolve_rgi_code_cases rgi_index' footprint) as Hc'.
  assert (Hfperm : filter (matching_row footprint) rgi_index
                   ≡ₚ filter (matching_row footprint) rgi_index')
    by (by apply filter_Permutation).
  split.
  - destruct (filter _ rgi_index) as [|r [|r2 rest]] eqn:Hf.
    + apply Permutation_nil_l in Hfperm. rewrite <- Hfperm in Hc'. congruence.
    + apply Permutation_singleton_l in Hfperm.
      first [rewrite Hfperm in Hc' | rewrite <- Hfperm in Hc']. congruence.
    + apply Permutation_length in Hfperm.
      destruct (filter _ rgi_index') as [|r' [|r2' rest']];
        simpl in Hfperm; try lia. congruence.
  - intros code Hok.
    destruct (filter _ rgi_index) as [|r [|r2 rest]] eqn:Hf;
      rewrite Hc in Hok; try discriminate.
    injection Hok as <-. exists r.
    assert (Hin : r ∈ filter (matching_row footprint) rgi_index)
      by (rewrite Hf; by left).
    apply list_elem_of_filter in Hin as [Hm Hin]. done.
Qed.

(** X8. The URLs found for a tile are rows of the [fileurl] column of
    the index, in index order: a subsequence of the column, also after the
    index was reprojected; reprojection changes geometries only.  An empty
    index gives no URL. *)
Theorem X8_elevation_urls_are_a_subsequence_of_the_index
    (dem_index : list (row G string)) (crs : C) (footprint : G) :
  get_itersecting_DEM_tile_URLs (gdf_to_crs crs dem_index) footprint
    `sublist_of` (row_attr <$> dem_index) /\
  row_attr <$> gdf_to_crs crs dem_index = row_attr <$> dem_index /\
  length (gdf_to_crs crs dem_index) = length dem_index /\
  get_itersecting_DEM_tile_URLs (gdf_to_crs crs []) footprint = [].
Proof.
  assert (Hcol : row_attr <$> gdf_to_crs crs dem_index = row_attr <$> dem_index).
  { unfold gdf_to_crs. induction dem_index as [|r l IH]; [done|].
    cbn. f_equal. exact IH. }
  split; [|split; [exact Hcol|split; [|reflexivity]]].
  - unfold get_itersecting_DEM_tile_URLs. rewrite select_intersecting_filter.
    rewrite <- Hcol. apply fmap_sublist, sublist_filter.
  - unfold gdf_to_crs. by rewrite length_map.
Qed.

End LookupMore.

(** ** The log of library calls *)

(** Every call a computation logs satisfies [P]; earlier entries of the
    log are kept. *)
Local Abbreviation emits P m :=
  (forall log r log', m log = (r, log') ->
     exists evs, log' = log ++ evs /\ Forall P evs).

Lemma emits_mret {A} (P : event -> Prop) (a : A) : emits P (mret a).
Proof.
  intros log r log' [= <- <-]. exists []. by rewrite app_nil_r.
Qed.

Lemma emits_lift {A} (P : event -> Prop) (x : result A) : emits P (lift x).
Proof.
  intros log r log' [= <- <-]. exists []. by rewrite app_nil_r.
Qed.

Lemma emits_call {A} (P : event -> Prop) (ev : event) (answer : result A) :
  P ev -> emits P (call ev answer).
Proof.
  intros Hev log r log' [= <- <-]. exists [ev]. split; [done|].
  by constructor.
Qed.

Lemma emits_mbind {A B} (P : event -> Prop) (m : M A) (k : A -> M B) :
  emits P m -> (forall a, emits P (k a)) -> emits P (mbind m k).
Proof.
  intros Hm Hk log r log'. unfold mbind.
  destruct (m log) as [[a|e] log1] eqn:Hrun.
  - intros Hrun2. destruct (Hm _ _ _ Hrun) as (evs1 & -> & Hall1).
    destruct (Hk a _ _ _ Hrun2) as (evs2 & -> & Hall2).
    exists (evs1 ++ evs2). rewrite app_assoc. split; [done|].
    by apply Forall_app.
  - intros [= <- <-]. by apply (Hm _ _ _ Hrun).
Qed.

Lemma emits_weaken {A} (P Q : event -> Prop) (m : M A) :
  (forall ev, P ev -> Q ev) -> emits P m -> emits Q m.
Proof.
  intros HPQ Hm log r log' Hrun.
  destruct (Hm _ _ _ Hrun) as (evs & -> & Hall).
  exists evs. split; [done|]. eapply Forall_impl; eauto.
Qed.

Lemma emits_mcomprehension {A B} (P : event -> Prop) (f : A -> M B)
    (l : list A) :
  (forall x, x ∈ l -> emits P (f x)) -> emits P (mcomprehension f l).
Proof.
  induction l as [|x l IH]; intros Hf; simpl.
  - apply emits_mret.
  - apply emits_mbind; [apply Hf; by left|]. intros y.
    apply emits_mbind; [apply IH; intros x' Hx'; apply Hf; by right|].
    intros ys. apply emits_mret.
Qed.

Section MosaicMore.
Context {G R F B C A : Type} `{Rasterio G R F B C A}.

Lemma download_tiles_emits (url_list : list string) :
  forall tmpdir : dict F,
    emits (fun ev => exists url, url ∈ url_list /\ ev = EvGetTarFile url)
          (download_tiles url_list tmpdir).
Proof.
  induction url_list as [|url rest IH]; intros tmpdir; simpl.
  - apply emits_mret.
  - apply emits_mbind.
    + apply emits_call. exists url. split; [by left | done].
    + intros members. eapply emits_weaken; [|apply IH].
      intros ev (u & Hu & ->). exists u. split; [by right | done].
Qed.

(** The calls [download_and_mosaic] may make. *)
Local Abbreviation mosaic_call url_list :=
  (fun ev => match ev with
             | EvGetTarFile url => url ∈ url_list
             | EvOpenRasterio name => ends_with "_dem.tif" name = true
             | EvMergeArrays _ | EvReproject | EvClipBox => True
             | _ => False
             end).

Lemma download_and_mosaic_emits
    (url_list : list string) (bbox : B) (crs : C) (transform : A) :
  emits (mosaic_call url_list)
        (download_and_mosaic url_list bbox crs transform).
Proof.
  unfold download_and_mosaic. apply emits_mbind.
  - eapply emits_weaken; [|apply download_tiles_emits].
    by intros ev (u & Hu & ->).
  - intros tmpdir. cbv zeta. apply emits_mbind.
    + apply emits_mcomprehension. intros f Hf. apply emits_call.
      unfold glob_dem in Hf. apply list_elem_of_filter in Hf as [Hname _].
      exact Hname.
    + intros dem_tiles. apply emits_mbind; [by apply emits_call|].
      intros dem. apply emits_mbind; [by apply emits_call|].
      intros dem_reproj. apply emits_mbind; [by apply emits_call|].
      intros dem_clip. apply emits_mret.
Qed.

(** X9. Whatever its outcome, [download_and_mosaic] only does the
    following: it downloads archives named in its URL list, it opens
    files of the scratch directory whose name ends in [_dem.tif] (other
    files unpacked from the archives are never opened), and it merges,
    reprojects and clips.  It writes no raster file and uploads
    nothing, and it leaves the earlier log untouched. *)
Theorem X9_mosaic_only_downloads_opens_dem_files_and_transforms
    (url_list : list string) (bbox : B) (crs : C) (transform : A)
    (log : list event) (r : result R) (log' : list event) :
  download_and_mosaic url_list bbox crs transform log = (r, log') ->
  exists evs,
    log' = log ++ evs /\
    (forall url, EvGetTarFile url ∈ evs -> url ∈ url_list) /\
    (forall name, EvOpenRasterio name ∈ evs -> ends_with "_dem.tif" name = true) /\
    (forall ev, ev ∈ evs ->
       match ev with
       | EvGetAsset _ | EvToRaster _ | EvUpload _ | EvGlob _ | EvRasterize _ => False
       | _ => True
       end).
Proof.
  intros Hrun.
  destruct (download_and_mosaic_emits url_list bbox crs transform _ _ _ Hrun)
    as (evs & -> & Hall).
  exists evs. split; [done|]. rewrite list.Forall_forall in Hall.
  split; [|split].
  - intros url Hin. exact (Hall _ Hin).
  - intros name Hin. exact (Hall _ Hin).
  - intros ev Hin. specialize (Hall _ Hin). by destruct ev.
Qed.

Lemma download_tiles_fail (pre post : list string) (url : string) (e : exn)
    (archives : list (list (string * F))) :
  Forall2 (fun u members => get_tar_file u = Ok members) pre archives ->
  get_tar_file url = Raise e ->
  forall (tmpdir : dict F) (log : list event),
    download_tiles (pre ++ url :: post) tmpdir log
    = (Raise e, log ++ (EvGetTarFile <$> pre ++ [url])).
Proof.
  intros Hpre Hurl. induction Hpre as [|u m us ms Hum _ IH]; intros tmpdir log.
  - simpl. unfold mbind, call. by rewrite Hurl.
  - simpl. unfold mbind at 1. unfold call at 1. rewrite Hum.
    rewrite IH. by rewrite <- app_assoc.
Qed.

(** X10. A failed download ends [download_and_mosaic] at once: if the
    archives before some URL of the list are fetched and the archive at
    that URL cannot be, the function raises the error of that download;
    the URLs after it are not requested, and nothing is opened, merged,
    reprojected or clipped. *)
Theorem X10_failed_download_ends_the_mosaic
    (pre post : list string) (url : string) (e : exn)
    (archives : list (list (string * F)))
    (bbox : B) (crs : C) (transform : A) (log : list event) :
  Forall2 (fun u members => get_tar_file u = Ok members) pre archives ->
  get_tar_file url = Raise e ->
  download_and_mosaic (pre ++ url :: post) bbox crs transform log
  = (Raise e, log ++ (EvGetTarFile <$> pre) ++ [EvGetTarFile url]).
Proof.
  intros Hpre Hurl. unfold download_and_mosaic. unfold mbind at 1.
  rewrite (download_tiles_fail pre post url e archives Hpre Hurl).
  by rewrite fmap_app.
Qed.

End MosaicMore.

(** ** Tile loops, continued *)

Section TileLoopsMore.
Context {G R F B C A : Type} `{Shapely G B C} `{Rasterio G R F B C A}.
Context {T : Type}.

Local Abbreviation row_matches footprint :=
  (fun r => intersects (row_geometry r) footprint = true).

(** X11. Elevation notebook, tile with no intersecting index row:
    nothing is downloaded and nothing is opened, and [merge_arrays] is
    called on the empty list.  If that call raises, the tile body raises
    the same error, and no raster is written or uploaded for the tile. *)
Theorem X11_elevation_tile_without_matches
    (dem_tiles_url : string) (dem_index : list (row G string))
    (tile_id : string) (it : item G B T) (da : tile_grid B C A)
    (e : exn) (log : list event) :
  get_asset (item_id it) = Ok da ->
  filter (row_matches (from_bounds (da_bounds da)))
         (gdf_to_crs (da_crs da) dem_index) = [] ->
  merge_arrays [] = Raise e ->
  dem_tile_body dem_tiles_url dem_index (tile_id, it) log
  = (Raise e, log ++ [EvGetAsset (item_id it); EvMergeArrays 0]).
Proof.
  intros Hda Hnone Hmerge. unfold dem_tile_body.
  unfold mbind at 1. unfold call at 1. rewrite Hda. cbv zeta.
  unfold get_itersecting_DEM_tile_URLs. rewrite select_intersecting_filter, Hnone.
  unfold mbind at 1. unfold download_and_mosaic.
  unfold mbind at 1. cbn [map download_tiles]. unfold mret at 1.
  cbv zeta.
  assert (Hdir : iterdir ([] : dict F) = []).
  { symmetry. apply Permutation_nil_l. symmetry. apply iterdir_perm. }
  unfold glob_dem. cbn [listdir foldl]. rewrite Hdir.
  cbn [filter list_filter mcomprehension].
  unfold mbind, mret, call. cbn [length]. rewrite Hmerge.
  by rewrite <- app_assoc.
Qed.

Local Abbreviation is_upload :=
  (fun ev => match ev with EvUpload _ => true | _ => false end).

Lemma no_uploads_in (P : event -> Prop) (evs : list event) :
  (forall ev, P ev -> is_upload ev = false) ->
  Forall P evs -> filter (fun ev => is_upload ev = true) evs = [].
Proof.
  intros HP Hall. induction Hall as [|ev evs Hev _ IH]; [done|].
  rewrite filter_cons_False; [exact IH|].
  rewrite (HP ev Hev). discriminate.
Qed.

Lemma dem_tile_body_uploads
    (dem_tiles_url : string) (dem_index : list (row G string))
    (tile_id : string) (it : item G B T)
    (log : list event) (r : result unit) (log' : list event) :
  dem_tile_body dem_tiles_url dem_index (tile_id, it) log = (r, log') ->
  exists evs,
    log' = log ++ evs /\
    ((filter (fun ev => is_upload ev = true) evs = [] /\ is_ok r = false) \/
     filter (fun ev => is_upload ev = true) evs = [EvUpload (tile_id +:+ ".tif")]).
Proof.
  unfold dem_tile_body. unfold mbind at 1. unfold call at 1.
  destruct (get_asset (item_id it)) as [da|e].
  - cbv zeta. unfold mbind at 1.
    destruct (download_and_mosaic _ _ _ _ _) as [[dem|e] log1] eqn:Hmosaic.
    + destruct (download_and_mosaic_emits _ _ _ _ _ _ _ Hmosaic)
        as (evs1 & Hlog1 & Hall1).
      assert (Hnone : filter (fun ev => is_upload ev = true) evs1 = []).
      { eapply no_uploads_in; [|exact Hall1]. intros ev Hev. by destruct ev. }
      unfold mbind, call.
      destruct (to_raster dem (tile_id +:+ ".tif")) as [[]|e].
      * intros [= <- <-]. rewrite <- app_assoc in Hlog1. rewrite Hlog1.
        exists ([EvGetAsset (item_id it)] ++ evs1
                ++ [EvToRaster (tile_id +:+ ".tif")]
                ++ [EvUpload (tile_id +:+ ".tif")]).
        split; [by rewrite <- !app_assoc|]. right.
        rewrite !list.filter_app, Hnone. reflexivity.
      * intros [= <- <-]. rewrite <- app_assoc in Hlog1. rewrite Hlog1.
        exists ([EvGetAsset (item_id it)] ++ evs1
                ++ [EvToRaster (tile_id +:+ ".tif")]).
        split; [by rewrite <- !app_assoc|]. left.
        rewrite !list.filter_app, Hnone. done.
    + destruct (download_and_mosaic_emits _ _ _ _ _ _ _ Hmosaic)
        as (evs1 & Hlog1 & Hall1).
      assert (Hnone : filter (fun ev => is_upload ev = true) evs1 = []).
      { eapply no_uploads_in; [|exact Hall1]. intros ev Hev. by destruct ev. }
      intros [= <- <-]. rewrite <- app_assoc in Hlog1. rewrite Hlog1.
      exists ([EvGetAsset (item_id it)] ++ evs1).
      split; [done|]. left. rewrite list.filter_app, Hnone. done.
  - intros [= <- <-]. exists [EvGetAsset (item_id it)]. split; [done|].
    left. done.
Qed.

(** X12. Elevation notebook, loop over the tiles.  Whatever the
    outcome, the uploads requested during the loop are the files
    [<tile_id>.tif] of an initial segment of the tiles, one per tile and
    in tile order; nothing else is uploaded.  When the loop completes,
    this segment is the whole list of tiles. *)
Theorem X12_elevation_loop_uploads_one_file_per_tile
    (dem_tiles_url : string) (dem_index : list (row G string))
    (tiles : dict (item G B T))
    (log : list event) (r : result unit) (log' : list event) :
  dem_tile_loop dem_tiles_url dem_index tiles log = (r, log') ->
  exists evs n,
    log' = log ++ evs /\
    (n <= length tiles)%nat /\
    filter (fun ev => is_upload ev = true) evs
    = (fun tile => EvUpload (tile.1 +:+ ".tif")) <$> take n tiles /\
    (r = Ok tt -> n = length tiles).
Proof.
  unfold dem_tile_loop. revert log r log'.
  induction tiles as [|[tile_id it] rest IH]; intros log r log';
    cbn [for_each].
  - intros [= <- <-]. exists [], O. by rewrite app_nil_r.
  - unfold mbind at 1.
    destruct (dem_tile_body dem_tiles_url dem_index (tile_id, it) log)
      as [[[]|e] log1] eqn:Hbody.
    + intros Hrest.
      destruct (dem_tile_body_uploads _ _ _ _ _ _ _ Hbody)
        as (evs1 & -> & [[_ Hbad]|Hup]); [discriminate|].
      destruct (IH _ _ _ Hrest) as (evs2 & n & -> & Hn & Hups & Hdone).
      exists (evs1 ++ evs2), (S n). rewrite app_assoc.
      split; [done|]. split; [simpl; lia|]. split.
      * rewrite list.filter_app, Hup, Hups. reflexivity.
      * intros Hr. simpl. by rewrite (Hdone Hr).
    + intros [= <- <-].
      destruct (dem_tile_body_uploads _ _ _ _ _ _ _ Hbody)
        as (evs1 & -> & [[Hup _]|Hup]).
      * exists evs1, O. split; [done|]. split; [simpl; lia|]. by rewrite Hup.
      * exists evs1, 1%nat. split; [done|]. split; [simpl; lia|].
        split; [by rewrite Hup | discriminate].
Qed.

(** X13. Glacier notebook, tile with exactly one matching region.  The
    archive is searched with the pattern
    [<root>/<code, two digits>_rgi60_*.zip].  If the search finds
    nothing, the tile body raises [IndexError] and nothing is
    rasterized; otherwise the last path found is the one that is
    downloaded and rasterized. *)
Theorem X13_glacier_archive_lookup
    (rgi_root_url : string) (crs : C) (rgi_index : list (row G Z))
    (tile_id : string) (it : item G B T) (da : tile_grid B C A)
    (r : row G Z) (paths : list string) (log : list event) :
  get_asset (item_id it) = Ok da ->
  filter (row_matches (from_bounds (transform_bounds da crs))) rgi_index = [r] ->
  glob (rgi_root_url +:+ "/" +:+ zfill2 (row_attr r) +:+ "_rgi60_*.zip")
  = Ok paths ->
  rgi_tile_body rgi_root_url crs rgi_index (tile_id, it) log
  = match list.last paths with
    | None =>
        (Raise IndexError,
         log ++ [EvGetAsset (item_id it);
                 EvGlob (rgi_root_url +:+ "/" +:+ zfill2 (row_attr r)
                         +:+ "_rgi60_*.zip")])
    | Some path =>
        (rasterize_region tile_id path da,
         log ++ [EvGetAsset (item_id it);
                 EvGlob (rgi_root_url +:+ "/" +:+ zfill2 (row_attr r)
                         +:+ "_rgi60_*.zip");
                 EvRasterize tile_id])
    end.
Proof.
  intros Hda Hone Hglob.
  pose proof (resolve_rgi_code_cases rgi_index
                (from_bounds (transform_bounds da crs))) as Hres.
  rewrite Hone in Hres.
  unfold rgi_tile_body. unfold mbind at 1. unfold call at 1. rewrite Hda.
  cbv zeta. unfold mbind at 1. unfold lift at 1. rewrite Hres.
  unfold mbind at 1. unfold call at 1. rewrite Hglob.
  unfold mbind, lift, call, list_last.
  destruct (list.last paths); by rewrite <- !app_assoc.
Qed.

End TileLoopsMore.

(** ** Link fix-up, continued *)

Lemma set_href_set_href (a : asset) (url url' : string) :
  set_href (set_href a url) url' = set_href a url'.
Proof. reflexivity. Qed.

Lemma set_assets_assets {G B T} (it : item G B T) :
  set_assets it (assets it) = it.
Proof. by destruct it. Qed.

Section RelinkMore.
Context `{Urlpath} {G B T : Type}.
Implicit Types (it : item G B T) (m : gmap string asset).

(** What a successful fix-up of one item consists of. *)
Lemma relink_item_ok_inv it it' :
  LinkAssets.relink_item it = (Ok tt, it') ->
  exists url band_urls tci a,
    LinkAssets.safe_url it = Ok url /\
    LinkAssets._get_band_urls url = Ok band_urls /\
    dict_get band_urls "TCI" = Some tci /\
    LinkAssets.relink_bands band_urls (assets it) !! "overview" = Some a /\
    it' = set_assets it
            (<["overview" := set_href a tci]>
               (LinkAssets.relink_bands band_urls (assets it))).
Proof.
  unfold LinkAssets.relink_item, dict_getitem.
  destruct (LinkAssets.safe_url it) as [url|] eqn:Hurl; [|discriminate].
  destruct (LinkAssets._get_band_urls url) as [band_urls|] eqn:Hbands;
    [|discriminate].
  destruct (dict_get band_urls "TCI") as [tci|] eqn:Htci; [|discriminate].
  cbv zeta. cbn [assets set_assets].
  destruct (LinkAssets.relink_bands band_urls (assets it) !! "overview")
    as [a|] eqn:Hov; [|discriminate].
  intros [= <-]. by exists url, band_urls, tci, a.
Qed.

(** X14. Running the link fix-up again is harmless: an item that was
    fixed up successfully is left exactly as it is by a second fix-up,
    which succeeds as well. *)
Theorem X14_link_fixup_is_idempotent it it' :
  LinkAssets.relink_item it = (Ok tt, it') ->
  LinkAssets.relink_item it' = (Ok tt, it').
Proof.
  intros Hrun.
  destruct (relink_item_ok_inv it it' Hrun)
    as (url & band_urls & tci & a & Hurl & Hbands & Htci & Hov & ->).
  pose proof (get_band_urls_NoDup _ _ Hbands) as Hnd.
  set (m1 := LinkAssets.relink_bands band_urls (assets it)) in *.
  set (m' := <["overview" := set_href a tci]> m1).
  assert (Hurl' : LinkAssets.safe_url (set_assets it m') = Ok url)
    by exact Hurl.
  unfold LinkAssets.relink_item. rewrite Hurl', Hbands.
  unfold dict_getitem. rewrite Htci. cbv zeta. cbn [assets set_assets].
  assert (Hov' : LinkAssets.relink_bands band_urls m' !! "overview"
                 = Some (match dict_get band_urls "overview" with
                         | Some u => set_href (set_href a tci) u
                         | None => set_href a tci
                         end)).
  { rewrite relink_bands_lookup by done. unfold m'.
    by rewrite lookup_insert_eq. }
  rewrite Hov'. f_equal.
  assert (Hsame : <["overview" := set_href
                       (match dict_get band_urls "overview" with
                        | Some u => set_href (set_href a tci) u
                        | None => set_href a tci
                        end) tci]>
                    (LinkAssets.relink_bands band_urls m') = m').
  { apply map_eq. intros k. destruct (decide (k = "overview")) as [->|Hne].
    - unfold m'. rewrite !lookup_insert_eq.
      by destruct (dict_get band_urls "overview").
    - rewrite lookup_insert_ne by done.
      rewrite relink_bands_lookup by done.
      unfold m'. rewrite lookup_insert_ne by done.
      unfold m1. rewrite relink_bands_lookup by done.
      destruct (assets it !! k) as [ak|]; [|done]. simpl.
      by destruct (dict_get band_urls k). }
  rewrite Hsame. by destruct it.
Qed.

(** X15. The loop over the collection stops at the first item whose
    fix-up raises.  It completes exactly when the fix-up of every item
    succeeds, and then holds the fixed-up items.  When it ends with an
    exception, the items before the failing one are fixed up, the
    failing item is left as its own fix-up left it, and the items after
    it are untouched. *)
Theorem X15_link_fixup_loop_stops_at_first_failure
    (items items' : list (item G B T)) :
  (LinkAssets.relink_loop items = (Ok tt, items')
   <-> Forall2 (fun it it' => LinkAssets.relink_item it = (Ok tt, it'))
               items items') /\
  (forall e, LinkAssets.relink_loop items = (Raise e, items') ->
     exists pre pre' it it' post,
       items = pre ++ it :: post /\
       Forall2 (fun it it' => LinkAssets.relink_item it = (Ok tt, it'))
               pre pre' /\
       LinkAssets.relink_item it = (Raise e, it') /\
       items' = pre' ++ it' :: post).
Proof.
  revert items'. induction items as [|it rest IH]; intros items'.
  - simpl. split.
    + split; [intros [= <-]; constructor | intros Hf; by inversion Hf].
    + intros e [=].
  - cbn [LinkAssets.relink_loop].
    destruct (LinkAssets.relink_item it) as [[[]|e1] it1] eqn:Hit.
    + destruct (LinkAssets.relink_loop rest) as [r rest'] eqn:Hrest.
      split.
      * split.
        -- intros [= -> <-]. constructor; [done|].
           by apply (proj1 (proj1 (IH rest'))).
        -- intros Hf. inversion Hf as [|? it1' ? rest1 Hit1 Hrest1]; subst.
           rewrite Hit in Hit1. injection Hit1 as <-.
           apply (proj2 (proj1 (IH rest1))) in Hrest1.
           by injection Hrest1 as -> ->.
      * intros e [= -> <-].
        destruct (proj2 (IH rest') e eq_refl)
          as (pre & pre' & it0 & it0' & post & -> & Hpre & Hfail & ->).
        exists (it :: pre), (it1 :: pre'), it0, it0', post.
        split; [done|]. split; [by constructor|]. done.
    + split.
      * split; [discriminate|].
        intros Hf. inversion Hf as [|? it1' ? rest1 Hit1 Hrest1]; subst.
        rewrite Hit in Hit1. discriminate.
      * intros e [= -> <-]. exists [], [], it, it1, rest.
        split; [done|]. split; [constructor | done].
Qed.

(** X16. An item without an ['overview'] asset makes the fix-up raise
    [KeyError], but only after the band loop has run: the item is left
    with the hrefs of its band assets already replaced. *)
Theorem X16_missing_overview_raises_after_the_band_loop
    it (url : string) (band_urls : dict string) (tci : string) :
  LinkAssets.safe_url it = Ok url ->
  LinkAssets._get_band_urls url = Ok band_urls ->
  dict_get band_urls "TCI" = Some tci ->
  assets it !! "overview" = None ->
  (LinkAssets.relink_item it).1 = Raise KeyError /\
  (forall k, assets (LinkAssets.relink_item it).2 !! k
             = (fun a => match dict_get band_urls k with
                         | Some band_url => set_href a band_url
                         | None => a
                         end) <$> (assets it !! k)).
Proof.
  intros Hurl Hbands Htci Hov.
  pose proof (get_band_urls_NoDup _ _ Hbands) as Hnd.
  unfold LinkAssets.relink_item. rewrite Hurl, Hbands.
  unfold dict_getitem. rewrite Htci. cbv zeta. cbn [assets set_assets].
  rewrite (relink_bands_lookup band_urls (assets it) "overview" Hnd), Hov.
  cbn [fmap option_fmap option_map fst snd assets set_assets].
  split; [done|]. intros k. by apply relink_bands_lookup.
Qed.

(** A data object of the manifest that describes an image. *)
Local Abbreviation is_image :=
  (fun o : data_object =>
     match ID o with
     | Some id => str_contains "IMG_DATA" id
     | None => false
     end).

Lemma band_urls_loop_entries (url : string) (objects : list data_object) :
  forall band_urls band_urls',
    LinkAssets.band_urls_loop url objects band_urls = Ok band_urls' ->
    forall band band_url,
      dict_get band_urls' band = Some band_url ->
      dict_get band_urls band = Some band_url \/
      exists o h,
        o ∈ objects /\ is_image o = true /\
        file_location o = Some (Some h) /\
        list_last (str_split "_"%char (url_stem (url_join url h))) = Ok band /\
        band_url = as_uri (url_join url h).
Proof.
  induction objects as [|o rest IH]; intros band_urls band_urls'; simpl.
  - intros [= <-] band band_url Hget. by left.
  - assert (Hskip : LinkAssets.band_urls_loop url rest band_urls = Ok band_urls' ->
                    forall band band_url,
                      dict_get band_urls' band = Some band_url ->
                      dict_get band_urls band = Some band_url \/
                      exists o' h,
                        o' ∈ o :: rest /\ is_image o' = true /\
                        file_location o' = Some (Some h) /\
                        list_last (str_split "_"%char (url_stem (url_join url h)))
                        = Ok band /\
                        band_url = as_uri (url_join url h)).
    { intros Hrun band band_url Hget.
      destruct (IH _ _ Hrun band band_url Hget)
        as [?|(o' & h & Hin & ?)]; [by left|].
      right. exists o', h. split; [by right | done]. }
    destruct (ID o) as [id|] eqn:Hid; [|exact Hskip].
    destruct (str_contains "IMG_DATA" id) eqn:Himg; [|exact Hskip].
    destruct (file_location o) as [[h|]|] eqn:Hloc; simpl; try discriminate.
    destruct (list_last _) as [key|] eqn:Hkey; simpl; [|discriminate].
    intros Hrun band band_url Hget.
    destruct (IH _ _ Hrun band band_url Hget)
      as [Hold|(o' & h' & Hin & ?)].
    + rewrite dict_get_set in Hold.
      destruct (decide (key = band)) as [<-|Hne]; [|by left].
      injection Hold as <-. right. exists o, h.
      split; [by left|]. by rewrite Hid.
    + right. exists o', h'. split; [by right | done].
Qed.

(** X17. [_get_band_urls] looks at image objects only: data objects
    without an [ID], or whose [ID] does not contain [IMG_DATA], change
    nothing, present or not.  Every entry of the mapping it returns
    comes from an image object of the manifest: the band is the last
    underscore-separated field of the stem of the object's URL, and the
    value is that URL. *)
Theorem X17_band_urls_come_from_image_objects
    (url : string) (objects : list data_object) :
  LinkAssets.band_urls_loop url objects []
  = LinkAssets.band_urls_loop url
      (filter (fun o => is_image o = true) objects) [] /\
  (forall band_urls band band_url,
     LinkAssets.band_urls_loop url objects [] = Ok band_urls ->
     dict_get band_urls band = Some band_url ->
     exists o h,
       o ∈ objects /\ is_image o = true /\
       file_location o = Some (Some h) /\
       list_last (str_split "_"%char (url_stem (url_join url h))) = Ok band /\
       band_url = as_uri (url_join url h)).
Proof.
  split.
  - generalize ([] : dict string).
    induction objects as [|o rest IH]; intros band_urls; [done|].
    destruct (is_image o) eqn:Himg.
    + rewrite filter_cons_True by done. simpl.
      destruct (ID o) as [id|]; [|discriminate].
      rewrite Himg.
      destruct (file_location o) as [[h|]|]; simpl; try done.
      destruct (list_last _); simpl; [apply IH | done].
    + rewrite filter_cons_False by (rewrite Himg; discriminate). simpl.
      destruct (ID o) as [id|]; [|apply IH].
      rewrite Himg. apply IH.
  - intros band_urls band band_url Hrun Hget.
    destruct (band_urls_loop_entries url objects [] band_urls Hrun band band_url Hget)
      as [Hnil|?]; [discriminate | done].
Qed.

End RelinkMore.

(** ** Band names *)

Lemma str_split_nonempty (sep : ascii) (s : string) : str_split sep s <> [].
Proof.
  destruct s as [|c s]; simpl; [done|].
  destruct (decide (c = sep)); [done|]. by destruct (str_split sep s).
Qed.

Lemma str_split_no_sep (sep : ascii) (s : string) :
  (forall i, String.get i s <> Some sep) -> str_split sep s = [s].
Proof.
  induction s as [|c s IH]; intros Hno; [reflexivity|].
  simpl. rewrite decide_False by (intros ->; by apply (Hno O)).
  by rewrite IH by (intros i; apply (Hno (S i))).
Qed.

Lemma str_split_app_sep (sep : ascii) (p t : string) :
  str_split sep (p +:+ String sep t) = str_split sep p ++ str_split sep t.
Proof.
  induction p as [|c p IH].
  - change (EmptyString +:+ String sep t) with (String sep t).
    simpl. by rewrite decide_True.
  - rewrite str_app_cons. simpl. rewrite IH.
    destruct (decide (c = sep)); [done|].
    pose proof (str_split_nonempty sep p) as Hne.
    by destruct (str_split sep p).
Qed.

Lemma concat_cons_char (sep : string) (c : ascii) (f : string) (fs : list string) :
  String.concat sep (String c f :: fs) = String c (String.concat sep (f :: fs)).
Proof. destruct fs; reflexivity. Qed.

(** X18. The band of an image is the text after the last underscore of
    the file stem, as in ['XX_XXXX_B01' -> 'B01']: for a stem
    [prefix_band] whose last part has no underscore the band is that
    part.  The extraction never fails, a band never contains an
    underscore, and splitting a stem at underscores loses nothing:
    joining the fields with underscores gives the stem back. *)
Theorem X18_band_is_the_text_after_the_last_underscore :
  (forall prefix band : string,
     (forall i, String.get i band <> Some "_"%char) ->
     list_last (str_split "_"%char (prefix +:+ "_" +:+ band)) = Ok band) /\
  (forall stem : string,
     exists band, list_last (str_split "_"%char stem) = Ok band /\
                  forall i, String.get i band <> Some "_"%char) /\
  (forall stem : string, join "_" (str_split "_"%char stem) = stem).
Proof.
  split; [|split].
  - intros prefix band Hno.
    change (prefix +:+ "_" +:+ band) with (prefix +:+ String "_"%char band).
    rewrite str_split_app_sep, (str_split_no_sep _ band Hno).
    unfold list_last. by rewrite last_snoc.
  - intros stem. unfold list_last.
    induction stem as [|c stem (band & Hlast & Hno)].
    + exists EmptyString. split; [reflexivity|]. by intros [|i].
    + simpl. pose proof (str_split_nonempty "_"%char stem) as Hne.
      destruct (list.last (str_split "_"%char stem)) as [b|] eqn:Hb;
        [|discriminate]. injection Hlast as ->.
      destruct (decide (c = "_"%char)) as [->|Hc].
      * exists band. split; [|done].
        destruct (str_split "_"%char stem); [done|]. simpl in *. by rewrite Hb.
      * destruct (str_split "_"%char stem) as [|f [|f2 fs]]; [done| |].
        -- simpl in Hb. injection Hb as ->. exists (String c band).
           split; [reflexivity|]. intros [|i]; simpl; [congruence | apply Hno].
        -- exists band. split; [|done]. simpl in *. by rewrite Hb.
  - intros stem. unfold join. induction stem as [|c stem IH]; [reflexivity|].
    simpl. pose proof (str_split_nonempty "_"%char stem) as Hne.
    destruct (decide (c = "_"%char)) as [->|Hc].
    + destruct (str_split "_"%char stem) as [|f fs]; [done|].
      change (String.concat "_" (EmptyString :: f :: fs))
        with (EmptyString +:+ "_" +:+ String.concat "_" (f :: fs)).
      by rewrite IH.
    + destruct (str_split "_"%char stem) as [|f fs]; [done|].
      by rewrite concat_cons_char, IH.
Qed.

(** ** URL templates, continued *)

Section UrlMore.
Context {G B T : Type}.
Implicit Types (it : item G B T).

(** X19. How the product URL fails.  It raises [KeyError] exactly when
    one of the four properties is missing.  With all four present, it
    succeeds exactly when the utm zone is an integer (or a boolean), it
    raises [ValueError] when the zone is a string and [TypeError] when it
    is [None]; the other three values are never a cause of failure. *)
Theorem X19_product_url_failures it :
  (LinkAssets.safe_url it = Raise KeyError
   <-> exists k, k ∈ ["sentinel:utm_zone"; "sentinel:latitude_band";
                      "sentinel:grid_square"; "sentinel:product_id"] /\
                 properties it !! k = None) /\
  (forall zone band square product,
     properties it !! "sentinel:utm_zone" = Some zone ->
     properties it !! "sentinel:latitude_band" = Some band ->
     properties it !! "sentinel:grid_square" = Some square ->
     properties it !! "sentinel:product_id" = Some product ->
     match zone with
     | PInt _ | PBool _ => is_ok (LinkAssets.safe_url it) = true
     | PStr _ => LinkAssets.safe_url it = Raise ValueError
     | PNone => LinkAssets.safe_url it = Raise TypeError
     end).
Proof.
  unfold LinkAssets.safe_url, getitem. split.
  - destruct (properties it !! "sentinel:utm_zone") as [zone|] eqn:Hz; simpl.
    2:{ split; [|done]. intros _. eexists. split; [|exact Hz]. set_solver. }
    destruct (properties it !! "sentinel:latitude_band") as [band|] eqn:Hb; simpl.
    2:{ split; [|done]. intros _. eexists. split; [|exact Hb]. set_solver. }
    destruct (properties it !! "sentinel:grid_square") as [square|] eqn:Hs; simpl.
    2:{ split; [|done]. intros _. eexists. split; [|exact Hs]. set_solver. }
    destruct (properties it !! "sentinel:product_id") as [product|] eqn:Hp; simpl.
    2:{ split; [|done]. intros _. eexists. split; [|exact Hp]. set_solver. }
    split.
    + by destruct zone.
    + intros (k & Hk & Hnone).
      repeat (apply elem_of_cons in Hk as [->|Hk]); try congruence.
      by apply elem_of_nil in Hk.
  - intros zone band square product Hz Hb Hs Hp.
    rewrite Hz, Hb, Hs, Hp. simpl. by destruct zone.
Qed.

Lemma mgrs_tile_parts (tile band : string) :
  str_index tile 2 = Ok band ->
  str_upto 2 tile +:+ band +:+ str_from 3 tile = tile /\
  (3 <= String.length tile)%nat.
Proof.
  unfold str_index, str_upto.
  destruct tile as [|a [|b [|c rest]]]; simpl; try discriminate.
  intros [= <-]. split; [|lia].
  change (String a (String b EmptyString) +:+ String c EmptyString +:+ rest)
    with (String a (String b (String c rest))).
  reflexivity.
Qed.

(** X20. The URL of a file of a scene exists exactly when the item has
    an [s2:mgrs_tile] property that is a string of at least three
    characters.  The three path segments taken from the tile (zone, band,
    square) then make up the tile again, nothing of it is dropped.  A
    missing property raises [KeyError], a value that is not a string
    [TypeError], a string shorter than three characters [IndexError]. *)
Theorem X20_scene_file_url_needs_a_full_mgrs_tile it (path_rel : string) :
  (forall url, SensorArrays.make_url it path_rel = Ok url ->
     exists tile band,
       properties it !! "s2:mgrs_tile" = Some (PStr tile) /\
       (3 <= String.length tile)%nat /\
       str_index tile 2 = Ok band /\
       str_upto 2 tile +:+ band +:+ str_from 3 tile = tile) /\
  (properties it !! "s2:mgrs_tile" = None ->
   SensorArrays.make_url it path_rel = Raise KeyError) /\
  (forall v, properties it !! "s2:mgrs_tile" = Some v ->
             (forall s, v <> PStr s) ->
             SensorArrays.make_url it path_rel = Raise TypeError) /\
  (forall tile, properties it !! "s2:mgrs_tile" = Some (PStr tile) ->
                (String.length tile < 3)%nat ->
                SensorArrays.make_url it path_rel = Raise IndexError) /\
  (forall tile, properties it !! "s2:mgrs_tile" = Some (PStr tile) ->
                (3 <= String.length tile)%nat ->
                is_ok (SensorArrays.make_url it path_rel) = true).
Proof.
  unfold SensorArrays.make_url, getitem.
  split; [|split; [|split; [|split]]].
  - intros url.
    destruct (properties it !! "s2:mgrs_tile") as [[| | |tile]|]; simpl;
      try discriminate.
    destruct (str_index tile 2) as [band|] eqn:Hband; simpl; [|discriminate].
    intros _. exists tile, band.
    destruct (mgrs_tile_parts tile band Hband) as [Hparts Hlen]. done.
  - by intros ->.
  - intros v -> Hv. destruct v as [| | |s]; simpl; try done.
    by destruct (Hv s).
  - intros tile -> Hlen. simpl. unfold str_index.
    destruct tile as [|a [|b [|c rest]]]; simpl in *; first [done | lia].
  - intros tile -> Hlen. simpl. unfold str_index.
    destruct tile as [|a [|b [|c rest]]]; simpl in *; first [lia | done].
Qed.

End UrlMore.

(** ** Sensor-array assets *)

Lemma string_prefix_app (p s : string) : String.prefix p (p +:+ s) = true.
Proof.
  induction p as [|c p IH]; [by destruct s|].
  rewrite str_app_cons. simpl. destruct (Ascii.ascii_dec c c); [exact IH | done].
Qed.

Section SensorAssetsFacts.
Context `{Granule} {G B T : Type}.
Implicit Types (it : item G B T).

(** An asset made from a [MSK_DETFOO] element. *)
Local Abbreviation sensor_made it :=
  (fun (k : string) (a : asset) =>
     String.prefix "sensor-metadata-" k = true /\
     roles a = ["metadata"] /\
     (media_type a = Some "image/jp2" \/ media_type a = Some "application/xml") /\
     exists path_rel, SensorArrays.make_url it path_rel = Ok (href a)).

Lemma sensor_asset_made it (el : qi_element) (key : string) (a : asset) :
  SensorAssets.sensor_asset it el = Ok (key, a) -> sensor_made it key a.
Proof.
  unfold SensorAssets.sensor_asset.
  destruct (el_text el) as [text|]; simpl; [|discriminate].
  destruct (SensorArrays.make_url it (path_str text)) as [url|] eqn:Hurl;
    simpl; [|discriminate].
  destruct (list_last _) as [band_key|]; simpl; [|discriminate].
  destruct (dict_getitem EXT_TO_MEDIATYPE (path_suffix text)) as [mt|] eqn:Hmt;
    simpl; [|discriminate].
  intros [= <- <-]. split; [apply string_prefix_app|]. split; [done|]. split.
  - unfold dict_getitem, EXT_TO_MEDIATYPE in Hmt. simpl in Hmt.
    repeat case_decide; simplify_eq; auto.
  - by exists (path_str text).
Qed.

Lemma sensor_array_loop_frame (els : list qi_element) :
  forall it (r : result unit) it',
    SensorAssets.sensor_array_loop els it = (r, it') ->
    (item_id it' = item_id it /\ geometry it' = geometry it /\
     bbox it' = bbox it /\ datetime it' = datetime it /\
     properties it' = properties it /\ links it' = links it) /\
    (forall k, String.prefix "sensor-metadata-" k = false ->
               assets it' !! k = assets it !! k) /\
    (forall k, is_Some (assets it !! k) -> is_Some (assets it' !! k)) /\
    (forall k a', assets it' !! k = Some a' ->
                  assets it !! k = Some a' \/ sensor_made it k a').
Proof.
  induction els as [|el rest IH]; intros it r it'; simpl.
  - intros [= <- <-]. repeat split; auto.
  - destruct (el_type el) as [type|]; [|intros [= <- <-]; repeat split; auto].
    destruct (String.eqb type "MSK_DETFOO"); [|apply IH].
    destruct (SensorAssets.sensor_asset it el) as [[key a]|e] eqn:Hel;
      [|intros [= <- <-]; repeat split; auto].
    pose proof (sensor_asset_made it el key a Hel) as Hmade.
    intros Hrun. apply IH in Hrun as (Hfields & Hother & Hkept & Hnew).
    cbn [add_asset set_assets item_id geometry bbox datetime properties
         links assets] in *.
    split; [exact Hfields|]. split; [|split].
    + intros k Hk. rewrite (Hother k Hk). apply lookup_insert_ne.
      intros <-. destruct Hmade as [Hpre _]. congruence.
    + intros k Hsome. apply Hkept.
      destruct (decide (key = k)) as [<-|Hne];
        [by rewrite lookup_insert_eq | by rewrite lookup_insert_ne].
    + intros k a' Hk. destruct (Hnew k a' Hk) as [Hold|Hm].
      * destruct (decide (key = k)) as [<-|Hne].
        -- rewrite lookup_insert_eq in Hold. injection Hold as <-. by right.
        -- rewrite lookup_insert_ne in Hold by done. by left.
      * right. exact Hm.
Qed.

(** X21. Adding the sensor-array assets leaves the rest of the item
    alone, whatever the outcome: identifier, geometry, bounding box,
    timestamp, properties and links are unchanged, no asset is removed,
    and every asset whose key does not start with [sensor-metadata-] is
    exactly as before.  An item without a ['granule-metadata'] asset
    makes the function raise [KeyError] and is not changed at all. *)
Theorem X21_sensor_assets_leave_the_item_alone it :
  let it' := (SensorAssets.add_sensor_array_metadata_as_assets it).2 in
  (item_id it' = item_id it /\ geometry it' = geometry it /\
   bbox it' = bbox it /\ datetime it' = datetime it /\
   properties it' = properties it /\ links it' = links it) /\
  (forall k, String.prefix "sensor-metadata-" k = false ->
             assets it' !! k = assets it !! k) /\
  (forall k, is_Some (assets it !! k) -> is_Some (assets it' !! k)) /\
  (assets it !! "granule-metadata" = None ->
   SensorAssets.add_sensor_array_metadata_as_assets it = (Raise KeyError, it)).
Proof.
  cbv zeta. unfold SensorAssets.add_sensor_array_metadata_as_assets, getitem.
  destruct (assets it !! "granule-metadata") as [granule|] eqn:Hg; simpl.
  - destruct (pixel_level_qi (get_absolute_href granule)) as [els|e]; simpl.
    + destruct (SensorAssets.sensor_array_loop els it) as [r it'] eqn:Hrun.
      apply sensor_array_loop_frame in Hrun as (Hf & Ho & Hk & _).
      simpl. split; [exact Hf|]. split; [exact Ho|]. split; [exact Hk | done].
    + repeat split; auto. done.
  - repeat split; auto.
Qed.

(** X22. Every asset of the item after the sensor-array assets were
    added is either an asset the item had before, unchanged, or an asset
    made from a [MSK_DETFOO] element: its key starts with
    [sensor-metadata-], its only role is [metadata], its media type is
    JPEG2000 or XML, and its href is a URL of the public bucket built by
    [make_url] for this item. *)
Theorem X22_added_assets_are_sensor_metadata
    it (k : string) (a' : asset) :
  assets (SensorAssets.add_sensor_array_metadata_as_assets it).2 !! k = Some a' ->
  assets it !! k = Some a' \/
  (String.prefix "sensor-metadata-" k = true /\
   roles a' = ["metadata"] /\
   (media_type a' = Some "image/jp2" \/ media_type a' = Some "application/xml") /\
   exists path_rel, SensorArrays.make_url it path_rel = Ok (href a')).
Proof.
  unfold SensorAssets.add_sensor_array_metadata_as_assets, getitem.
  destruct (assets it !! "granule-metadata") as [granule|]; simpl; [|by left].
  destruct (pixel_level_qi (get_absolute_href granule)) as [els|e]; simpl;
    [|by left].
  destruct (SensorAssets.sensor_array_loop els it) as [r it'] eqn:Hrun.
  apply sensor_array_loop_frame in Hrun as (_ & _ & _ & Hnew).
  simpl. apply Hnew.
Qed.

End SensorAssetsFacts.

(** ** Shadow-classification catalog, continued *)

Section ShadowMore.
Context {G B C T : Type} `{Shapely G B C} `{PyRuntime T}.
Implicit Types (it : item G B T).

Local Abbreviation covering aoi :=
  (fun it : item G B T =>
     (Q2Qc (7 # 10) * area aoi < area (intersection (geometry it) aoi))%Qc).

Lemma shadow_loop_covering_only (aoi : G) catalog_l2a
    (l1c_items : list (item G B T)) :
  (0 < area aoi)%Qc ->
  forall items,
    Shadows.shadow_loop aoi catalog_l2a l1c_items items
    = Shadows.shadow_loop aoi catalog_l2a (filter (covering aoi) l1c_items) items.
Proof.
  intros Hpos. induction l1c_items as [|it rest IH]; intros items; [done|].
  destruct (decide (covering aoi it)) as [Hc|Hn].
  - rewrite filter_cons_True by exact Hc. cbn [Shadows.shadow_loop].
    destruct (Shadows.shadow_item aoi catalog_l2a it) as [o|e]; simpl;
      [apply IH | done].
  - rewrite filter_cons_False by exact Hn. cbn [Shadows.shadow_loop].
    rewrite (shadow_item_skipped aoi catalog_l2a it Hpos Hn). simpl. apply IH.
Qed.

Lemma shadow_loop_raise (aoi : G) catalog_l2a (l1c_items : list (item G B T)) :
  forall items e,
    Shadows.shadow_loop aoi catalog_l2a l1c_items items = Raise e ->
    exists it, it ∈ l1c_items /\
               Shadows.shadow_item aoi catalog_l2a it = Raise e.
Proof.
  induction l1c_items as [|it rest IH]; intros items e; simpl; [discriminate|].
  destruct (Shadows.shadow_item aoi catalog_l2a it) as [o|e'] eqn:Hit; simpl.
  - intros Hrest. apply IH in Hrest as (it' & Hin & Hraise).
    exists it'. split; [by right | done].
  - intros [= <-]. exists it. split; [by left | done].
Qed.

(** X23. With an area of interest of positive area, the shadow catalog
    depends only on the level-1C items above the 70% threshold: the
    items at or below it can be removed from the input without changing
    the result, so they never cause an error, whatever their properties.
    If the loop raises, the exception was raised for an item above the
    threshold. *)
Theorem X23_items_below_the_threshold_do_not_matter
    (aoi : G) (catalog_l2a l1c_items : list (item G B T)) :
  (0 < area aoi)%Qc ->
  Shadows.shadow_items aoi catalog_l2a l1c_items
  = Shadows.shadow_items aoi catalog_l2a (filter (covering aoi) l1c_items) /\
  (forall e, Shadows.shadow_items aoi catalog_l2a l1c_items = Raise e ->
     exists it, it ∈ l1c_items /\ covering aoi it /\
                Shadows.shadow_item aoi catalog_l2a it = Raise e).
Proof.
  intros Hpos. unfold Shadows.shadow_items. split.
  - by apply shadow_loop_covering_only.
  - intros e Hraise. apply shadow_loop_raise in Hraise as (it & Hin & Hit).
    exists it. split; [done|]. split; [|done].
    destruct (decide (covering aoi it)) as [Hc|Hn]; [exact Hc|].
    rewrite (shadow_item_skipped aoi catalog_l2a it Hpos Hn) in Hit.
    discriminate.
Qed.


End ShadowMore.

(** ** Bounding box of a glacier *)

Section GlacierBBoxFacts.
Context {G B C : Type} `{Shapely G B C} `{Pyproj G C}.

(** X25. The bounding box of a glacier is computed only when exactly
    one row of the inventory has the requested id: it is then the bounds
    of the envelope of the buffered, reprojected geometry of that row.
    With no such row, or with several, the function raises
    [ValueError]. *)
Theorem X25_glacier_id_must_be_unique
    (shapefile_url id : string) (crs : C) (buffer_m : Z)
    (glaciers : list (row G string)) :
  read_glaciers shapefile_url = Ok glaciers ->
  match filter (fun r => row_attr r = id) glaciers with
  | [r] =>
      _get_bbox_from_glacier shapefile_url id crs buffer_m
      = Ok (bounds (envelope (buffer (transform_from_wgs84 crs (row_geometry r))
                                     buffer_m)))
  | _ => _get_bbox_from_glacier shapefile_url id crs buffer_m = Raise ValueError
  end.
Proof.
  intros Hread. unfold _get_bbox_from_glacier. rewrite Hread. simpl.
  assert (Hsel : boolean_index glaciers
                   (map (fun r => bool_decide (row_attr r = id)) glaciers)
                 = filter (fun r => row_attr r = id) glaciers).
  { rewrite (boolean_index_filter (fun r => bool_decide (row_attr r = id))).
    apply list_filter_iff. intros r. apply bool_decide_eq_true. }
  rewrite Hsel.
  destruct (filter _ glaciers) as [|r [|r2 rest]]; reflexivity.
Qed.

End GlacierBBoxFacts.

(** ** Loops over tiles *)

Lemma for_each_app {X} (pre post : list X) (body : X -> M unit) (log : list event) :
  for_each (pre ++ post) body log
  = match for_each pre body log with
    | (Ok _, log1) => for_each post body log1
    | (Raise e, log1) => (Raise e, log1)
    end.
Proof.
  revert log. induction pre as [|x pre IH]; intros log; [reflexivity|].
  cbn [app for_each]. unfold mbind.
  destruct (body x log) as [[[]|e] log1]; [apply IH | reflexivity].
Qed.

Section GlacierLoopFacts.
Context {G R F B C A : Type} `{Shapely G B C} `{Rasterio G R F B C A}.
Context {T : Type}.

(** X26. The glacier tile loop stops at the first tile, wherever it
    stands in the list, for which the number of matching regions is not
    one: the tiles before it are processed, the loop then raises
    [AssertionError] right after reading that tile's grid, and the tiles
    after it are not touched. *)
Theorem X26_glacier_loop_stops_at_the_first_ambiguous_tile
    (rgi_root_url : string) (crs : C) (rgi_index : list (row G Z))
    (pre post : dict (item G B T)) (tile_id : string) (it : item G B T)
    (da : tile_grid B C A) (log log1 : list event) :
  rgi_tile_loop rgi_root_url crs rgi_index pre log = (Ok tt, log1) ->
  get_asset (item_id it) = Ok da ->
  length (filter (fun r => intersects (row_geometry r)
                             (from_bounds (transform_bounds da crs)) = true)
                 rgi_index) <> 1%nat ->
  rgi_tile_loop rgi_root_url crs rgi_index (pre ++ (tile_id, it) :: post) log
  = (Raise AssertionError, log1 ++ [EvGetAsset (item_id it)]).
Proof.
  intros Hpre Hda Hlen. unfold rgi_tile_loop in *.
  rewrite for_each_app, Hpre. cbn [for_each]. unfold mbind at 1.
  by rewrite (rgi_tile_body_not_one rgi_root_url crs rgi_index tile_id it da
                                    log1 Hda Hlen).
Qed.

End GlacierLoopFacts.

(* ================================================================== *)
(** * Part V: further runs on concrete inputs *)
(* ================================================================== *)

Lemma X1_witness :
  ends_with "catalog.json" "https://dcache/disk/red-glacier" = false /\
  read_catalog from_file_echo ("https://dcache/disk/red-glacier" +:+ "/catalog.json")
  = read_catalog from_file_echo "https://dcache/disk/red-glacier".
Proof.
  split; [reflexivity|].
  apply (proj2 (proj2 (X1_read_catalog_accepts_root_or_file
                         from_file_echo "https://dcache/disk/red-glacier"))).
  reflexivity.
Defined.

Lemma X2_witness :
  "shadows" <> EmptyString /\
  (forall i, String.get i "shadows" <> Some "/"%char) /\
  ends_with "catalog.json" ("https://dcache/disk" +:+ "/" +:+ "shadows") = false /\
  _save_catalog save_echo [1%nat; 2%nat]
                (("https://dcache/disk" +:+ "/" +:+ "shadows") +:+ "/catalog.json")
                (Some "${year}/${month}/${day}")
  = save_echo "shadows" [1%nat; 2%nat] (Some "${year}/${month}/${day}")
              ("https://dcache/disk" +:+ "/" +:+ "shadows").
Proof.
  assert (Hne : "shadows" <> EmptyString) by discriminate.
  assert (Hno : forall i, String.get i "shadows" <> Some "/"%char).
  { intros i. do 7 (destruct i as [|i]; [discriminate|]). discriminate. }
  assert (Hends : ends_with "catalog.json"
                    ("https://dcache/disk" +:+ "/" +:+ "shadows") = false)
    by reflexivity.
  split; [exact Hne|]. split; [exact Hno|]. split; [exact Hends|].
  exact (proj2 (X2_save_catalog_root_and_id
                  save_echo [1%nat; 2%nat] (Some "${year}/${month}/${day}")
                  "https://dcache/disk" "shadows" Hne Hno Hends)).
Defined.

Lemma X3_witness :
  enumerate_tiles [tile_5VMG; scene_no_square; tile_6VMG] = Raise KeyError /\
  tiles_loop [tile_5VMG; scene_no_square; tile_6VMG] []
  = (Raise KeyError, [("5VMG", tile_5VMG)]) /\
  exists pre it post k,
    [tile_5VMG; scene_no_square; tile_6VMG] = pre ++ it :: post /\
    k ∈ TILE_ID_KEYS /\ properties it !! k = None /\
    enumerate_tiles pre = Ok [("5VMG", tile_5VMG)] /\
    forall post', tiles_loop (pre ++ it :: post') []
                  = (Raise KeyError, [("5VMG", tile_5VMG)]).
Proof.
  assert (Hrun : tiles_loop [tile_5VMG; scene_no_square; tile_6VMG] []
                 = (Raise KeyError, [("5VMG", tile_5VMG)])) by reflexivity.
  split; [|split; [exact Hrun|]].
  - apply (proj2 (proj1 (proj2
             (X3_enumeration_fails_iff_a_tile_property_is_missing
                [tile_5VMG; scene_no_square; tile_6VMG])))).
    exists scene_no_square, "sentinel:grid_square".
    split; [set_solver|]. split; [unfold TILE_ID_KEYS; set_solver | reflexivity].
  - exact (proj2 (proj2
             (X3_enumeration_fails_iff_a_tile_property_is_missing
                [tile_5VMG; scene_no_square; tile_6VMG]))
             KeyError [("5VMG", tile_5VMG)] Hrun).
Defined.

Lemma X4_witness :
  enumerate_tiles [tile_5VMG; tile_5VMG_later; tile_6VMG]
  = Ok [("5VMG", tile_5VMG); ("6VMG", tile_6VMG)] /\
  (length [("5VMG", tile_5VMG); ("6VMG", tile_6VMG)]
   <= length [tile_5VMG; tile_5VMG_later; tile_6VMG])%nat.
Proof.
  assert (Hrun : enumerate_tiles [tile_5VMG; tile_5VMG_later; tile_6VMG]
                 = Ok [("5VMG", tile_5VMG); ("6VMG", tile_6VMG)])
    by reflexivity.
  split; [exact Hrun|].
  exact (proj2 (X4_enumerated_entries_are_catalog_items _ _ Hrun)).
Defined.

Lemma X5_witness :
  enumerate_tiles ([tile_5VMG; tile_5VMG_later] ++ [tile_6VMG])
  = Ok [("5VMG", tile_5VMG); ("6VMG", tile_6VMG)] /\
  exists tiles1,
    enumerate_tiles [tile_5VMG; tile_5VMG_later] = Ok tiles1 /\
    tiles1 `prefix_of` [("5VMG", tile_5VMG); ("6VMG", tile_6VMG)].
Proof.
  assert (Hrun : enumerate_tiles ([tile_5VMG; tile_5VMG_later] ++ [tile_6VMG])
                 = Ok [("5VMG", tile_5VMG); ("6VMG", tile_6VMG)])
    by reflexivity.
  split; [exact Hrun|].
  exact (X5_enumeration_of_an_extended_catalog _ _ _ Hrun).
Defined.

Lemma X6_witness :
  enumerate_tiles [tile_5VMG; tile_5VMG_later; tile_6VMG]
  = Ok [("5VMG", tile_5VMG); ("6VMG", tile_6VMG)] /\
  enumerate_tiles [("5VMG", tile_5VMG); ("6VMG", tile_6VMG)].*2
  = Ok [("5VMG", tile_5VMG); ("6VMG", tile_6VMG)].
Proof.
  assert (Hrun : enumerate_tiles [tile_5VMG; tile_5VMG_later; tile_6VMG]
                 = Ok [("5VMG", tile_5VMG); ("6VMG", tile_6VMG)])
    by reflexivity.
  split; [exact Hrun|].
  exact (X6_enumeration_is_idempotent _ _ Hrun).
Defined.

Lemma X7_witness :
  rgi_one_match ≡ₚ [mk_row (mk_box 30 30 40 40) 2; mk_row (mk_box 5 5 20 20) 1] /\
  resolve_rgi_code rgi_one_match (mk_box 0 0 10 10)
  = resolve_rgi_code [mk_row (mk_box 30 30 40 40) 2; mk_row (mk_box 5 5 20 20) 1]
                     (mk_box 0 0 10 10).
Proof.
  assert (Hperm : rgi_one_match
                  ≡ₚ [mk_row (mk_box 30 30 40 40) 2; mk_row (mk_box 5 5 20 20) 1])
    by apply perm_swap.
  split; [exact Hperm|].
  exact (proj1 (X7_glacier_resolver_ignores_row_order
                  rgi_one_match _ (mk_box 0 0 10 10) Hperm)).
Defined.

Lemma X8_witness :
  get_itersecting_DEM_tile_URLs (gdf_to_crs tt dem_two_matches) (mk_box 0 0 10 10)
    `sublist_of` ["u1"; "u2"; "u3"].
Proof.
  exact (proj1 (X8_elevation_urls_are_a_subsequence_of_the_index
                  dem_two_matches tt (mk_box 0 0 10 10))).
Defined.

Lemma X9_witness :
  download_and_mosaic ["u1"] (mk_box 0 0 10 10) tt tt []
  = (Ok ["u1"],
     [EvGetTarFile "u1"; EvOpenRasterio "u1_dem.tif";
      EvMergeArrays 1; EvReproject; EvClipBox]) /\
  exists evs,
    [EvGetTarFile "u1"; EvOpenRasterio "u1_dem.tif";
     EvMergeArrays 1; EvReproject; EvClipBox] = [] ++ evs /\
    (forall url, EvGetTarFile url ∈ evs -> url ∈ ["u1"]).
Proof.
  assert (Hrun : download_and_mosaic ["u1"] (mk_box 0 0 10 10) tt tt []
                 = (Ok ["u1"],
                    [EvGetTarFile "u1"; EvOpenRasterio "u1_dem.tif";
                     EvMergeArrays 1; EvReproject; EvClipBox]))
    by reflexivity.
  split; [exact Hrun|].
  destruct (X9_mosaic_only_downloads_opens_dem_files_and_transforms
              _ _ _ _ _ _ _ Hrun) as (evs & Hlog & Hget & _).
  exists evs. split; [exact Hlog | exact Hget].
Defined.

Lemma X10_witness :
  Forall2 (fun u members => get_tar_file (Rasterio := flaky_rasterio) u = Ok members)
          ["u1"] [[("u1_dem.tif", "u1")]] /\
  get_tar_file (Rasterio := flaky_rasterio) "missing" = Raise ExternalError /\
  download_and_mosaic (H0 := flaky_rasterio) (["u1"] ++ "missing" :: ["u3"])
                      (mk_box 0 0 10 10) tt tt []
  = (Raise ExternalError, [EvGetTarFile "u1"; EvGetTarFile "missing"]).
Proof.
  assert (Hpre : Forall2 (fun u members =>
                            get_tar_file (Rasterio := flaky_rasterio) u = Ok members)
                         ["u1"] [[("u1_dem.tif", "u1")]])
    by (repeat constructor).
  assert (Hbad : get_tar_file (Rasterio := flaky_rasterio) "missing"
                 = Raise ExternalError) by reflexivity.
  split; [exact Hpre|]. split; [exact Hbad|].
  exact (X10_failed_download_ends_the_mosaic
           (H := flaky_rasterio) ["u1"] ["u3"] "missing" ExternalError
           [[("u1_dem.tif", "u1")]] (mk_box 0 0 10 10) tt tt [] Hpre Hbad).
Defined.

Lemma X11_witness :
  get_asset (item_id tile_5VMG) = Ok toy_grid /\
  filter (fun r : row box string =>
            intersects (row_geometry r) (from_bounds (da_bounds toy_grid)) = true)
         (gdf_to_crs (da_crs toy_grid) dem_no_match) = [] /\
  merge_arrays ([] : list (list string)) = Raise ValueError /\
  dem_tile_body "https://dcache/ArcticDEM_tiles" dem_no_match
                ("5VMG", tile_5VMG) []
  = (Raise ValueError, [] ++ [EvGetAsset (item_id tile_5VMG); EvMergeArrays 0]).
Proof.
  assert (Hda : get_asset (item_id tile_5VMG) = Ok toy_grid) by reflexivity.
  assert (Hnone : filter (fun r : row box string =>
                            intersects (row_geometry r)
                                       (from_bounds (da_bounds toy_grid)) = true)
                         (gdf_to_crs (da_crs toy_grid) dem_no_match) = [])
    by reflexivity.
  assert (Hmerge : merge_arrays ([] : list (list string)) = Raise ValueError)
    by reflexivity.
  split; [exact Hda|]. split; [exact Hnone|]. split; [exact Hmerge|].
  exact (X11_elevation_tile_without_matches
           "https://dcache/ArcticDEM_tiles" dem_no_match "5VMG" tile_5VMG
           toy_grid ValueError [] Hda Hnone Hmerge).
Defined.

Lemma X12_witness :
  dem_tile_loop "https://dcache/ArcticDEM_tiles" dem_two_matches
                [("5VMG", tile_5VMG); ("6VMG", tile_6VMG)] []
  = (Ok tt,
     [EvGetAsset "S2B_5VMG_20210329_0_L1C";
      EvGetTarFile "u1"; EvGetTarFile "u3";
      EvOpenRasterio "u1_dem.tif"; EvOpenRasterio "u3_dem.tif";
      EvMergeArrays 2; EvReproject; EvClipBox;
      EvToRaster "5VMG.tif"; EvUpload "5VMG.tif";
      EvGetAsset "S2A_6VMG_20210401_0_L1C";
      EvGetTarFile "u1"; EvGetTarFile "u3";
      EvOpenRasterio "u1_dem.tif"; EvOpenRasterio "u3_dem.tif";
      EvMergeArrays 2; EvReproject; EvClipBox;
      EvToRaster "6VMG.tif"; EvUpload "6VMG.tif"]) /\
  exists evs n,
    n = 2%nat /\
    filter (fun ev => match ev with EvUpload _ => true | _ => false end = true) evs
    = (fun tile : string * item box box Z => EvUpload (tile.1 +:+ ".tif"))
      <$> take n [("5VMG", tile_5VMG); ("6VMG", tile_6VMG)].
Proof.
  assert (Hrun :
    dem_tile_loop "https://dcache/ArcticDEM_tiles" dem_two_matches
                  [("5VMG", tile_5VMG); ("6VMG", tile_6VMG)] []
    = (Ok tt,
       [EvGetAsset "S2B_5VMG_20210329_0_L1C";
        EvGetTarFile "u1"; EvGetTarFile "u3";
        EvOpenRasterio "u1_dem.tif"; EvOpenRasterio "u3_dem.tif";
        EvMergeArrays 2; EvReproject; EvClipBox;
        EvToRaster "5VMG.tif"; EvUpload "5VMG.tif";
        EvGetAsset "S2A_6VMG_20210401_0_L1C";
        EvGetTarFile "u1"; EvGetTarFile "u3";
        EvOpenRasterio "u1_dem.tif"; EvOpenRasterio "u3_dem.tif";
        EvMergeArrays 2; EvReproject; EvClipBox;
        EvToRaster "6VMG.tif"; EvUpload "6VMG.tif"])) by reflexivity.
  split; [exact Hrun|].
  destruct (X12_elevation_loop_uploads_one_file_per_tile _ _ _ _ _ _ Hrun)
    as (evs & n & _ & _ & Hups & Hdone).
  exists evs, n. split; [exact (Hdone eq_refl) | exact Hups].
Defined.

Lemma X13_witness :
  get_asset (item_id tile_5VMG) = Ok toy_grid /\
  filter (fun r : row box Z =>
            intersects (row_geometry r)
                       (from_bounds (transform_bounds toy_grid tt)) = true)
         rgi_one_match = [mk_row (mk_box 5 5 20 20) 1] /\
  glob ("https://dcache/GIS/Glacier" +:+ "/" +:+ zfill2 1 +:+ "_rgi60_*.zip")
  = Ok ["https://dcache/GIS/Glacier/01_rgi60_*.zip"] /\
  rgi_tile_body "https://dcache/GIS/Glacier" tt rgi_one_match
                ("5VMG", tile_5VMG) []
  = (Ok tt,
     [EvGetAsset "S2B_5VMG_20210329_0_L1C";
      EvGlob "https://dcache/GIS/Glacier/01_rgi60_*.zip";
      EvRasterize "5VMG"]).
Proof.
  assert (Hda : get_asset (item_id tile_5VMG) = Ok toy_grid) by reflexivity.
  assert (Hone : filter (fun r : row box Z =>
                           intersects (row_geometry r)
                                      (from_bounds (transform_bounds toy_grid tt))
                           = true)
                        rgi_one_match = [mk_row (mk_box 5 5 20 20) 1])
    by reflexivity.
  assert (Hglob : glob ("https://dcache/GIS/Glacier" +:+ "/" +:+ zfill2 1
                        +:+ "_rgi60_*.zip")
                  = Ok ["https://dcache/GIS/Glacier/01_rgi60_*.zip"])
    by reflexivity.
  split; [exact Hda|]. split; [exact Hone|]. split; [exact Hglob|].
  exact (X13_glacier_archive_lookup
           "https://dcache/GIS/Glacier" tt rgi_one_match "5VMG" tile_5VMG
           toy_grid (mk_row (mk_box 5 5 20 20) 1)
           ["https://dcache/GIS/Glacier/01_rgi60_*.zip"] [] Hda Hone Hglob).
Defined.

Lemma X14_witness :
  LinkAssets.relink_item scene_full
  = (Ok tt, (LinkAssets.relink_item scene_full).2) /\
  LinkAssets.relink_item (LinkAssets.relink_item scene_full).2
  = (Ok tt, (LinkAssets.relink_item scene_full).2).
Proof.
  assert (Hrun : LinkAssets.relink_item scene_full
                 = (Ok tt, (LinkAssets.relink_item scene_full).2))
    by reflexivity.
  split; [exact Hrun|].
  exact (X14_link_fixup_is_idempotent _ _ Hrun).
Defined.

Lemma X15_witness :
  LinkAssets.relink_loop [scene_full; scene_part; scene_full]
  = (Raise KeyError,
     [(LinkAssets.relink_item scene_full).2;
      (LinkAssets.relink_item scene_part).2; scene_full]) /\
  exists pre pre' it it' post,
    [scene_full; scene_part; scene_full] = pre ++ it :: post /\
    Forall2 (fun it it' => LinkAssets.relink_item it = (Ok tt, it')) pre pre' /\
    LinkAssets.relink_item it = (Raise KeyError, it') /\
    [(LinkAssets.relink_item scene_full).2;
     (LinkAssets.relink_item scene_part).2; scene_full] = pre' ++ it' :: post.
Proof.
  assert (Hrun : LinkAssets.relink_loop [scene_full; scene_part; scene_full]
                 = (Raise KeyError,
                    [(LinkAssets.relink_item scene_full).2;
                     (LinkAssets.relink_item scene_part).2; scene_full]))
    by reflexivity.
  split; [exact Hrun|].
  exact (proj2 (X15_link_fixup_loop_stops_at_first_failure _ _) KeyError Hrun).
Defined.

Lemma X16_witness :
  LinkAssets.safe_url scene_no_overview = Ok scene_full_url /\
  LinkAssets._get_band_urls scene_full_url
  = Ok [("B02", scene_full_url +:+ "/T_B02");
        ("TCI", scene_full_url +:+ "/T_TCI")] /\
  assets scene_no_overview !! "overview" = None /\
  (LinkAssets.relink_item scene_no_overview).1 = Raise KeyError /\
  assets (LinkAssets.relink_item scene_no_overview).2 !! "B02"
  = Some (mk_asset (scene_full_url +:+ "/T_B02") (Some "image/jp2") ["data"]).
Proof.
  assert (Hurl : LinkAssets.safe_url scene_no_overview = Ok scene_full_url)
    by reflexivity.
  assert (Hbands : LinkAssets._get_band_urls scene_full_url
                   = Ok [("B02", scene_full_url +:+ "/T_B02");
                         ("TCI", scene_full_url +:+ "/T_TCI")])
    by reflexivity.
  assert (Hov : assets scene_no_overview !! "overview" = None) by reflexivity.
  destruct (X16_missing_overview_raises_after_the_band_loop
              scene_no_overview scene_full_url _ (scene_full_url +:+ "/T_TCI")
              Hurl Hbands eq_refl Hov) as [Hraise Hassets].
  split; [exact Hurl|]. split; [exact Hbands|]. split; [exact Hov|].
  split; [exact Hraise|]. rewrite Hassets. reflexivity.
Defined.

Lemma X17_witness :
  LinkAssets.band_urls_loop "https://gcs/S.SAFE" manifest_objects []
  = LinkAssets.band_urls_loop "https://gcs/S.SAFE"
      [mk_data_object (Some "IMG_DATA_Band_B02") (Some (Some "T_B02"));
       mk_data_object (Some "IMG_DATA_Band_TCI") (Some (Some "T_TCI"))] [].
Proof.
  exact (proj1 (X17_band_urls_come_from_image_objects
                  "https://gcs/S.SAFE" manifest_objects)).
Defined.

Lemma X18_witness :
  (forall i, String.get i "B01" <> Some "_"%char) /\
  list_last (str_split "_"%char ("T05VMG_20210329T213529" +:+ "_" +:+ "B01"))
  = Ok "B01".
Proof.
  assert (Hno : forall i, String.get i "B01" <> Some "_"%char).
  { intros i. do 3 (destruct i as [|i]; [discriminate|]). discriminate. }
  split; [exact Hno|].
  exact (proj1 X18_band_is_the_text_after_the_last_underscore
               "T05VMG_20210329T213529" "B01" Hno).
Defined.

Lemma X19_witness :
  properties scene_full !! "sentinel:utm_zone" = Some (PInt 5) /\
  is_ok (LinkAssets.safe_url scene_full) = true /\
  LinkAssets.safe_url scene_mgrs = Raise KeyError.
Proof.
  split; [reflexivity|]. split.
  - exact (proj2 (X19_product_url_failures scene_full)
                 (PInt 5) (PStr "V") (PStr "MG") (PStr "FULL")
                 eq_refl eq_refl eq_refl eq_refl).
  - apply (proj1 (X19_product_url_failures scene_mgrs)).
    exists "sentinel:utm_zone". split; [set_solver | reflexivity].
Defined.

Lemma X20_witness :
  properties scene_mgrs !! "s2:mgrs_tile" = Some (PStr "05VMG") /\
  (3 <= String.length "05VMG")%nat /\
  is_ok (SensorArrays.make_url scene_mgrs "QI_DATA/MSK_DETFOO_B02.gml") = true /\
  SensorArrays.make_url tile_5VMG "QI_DATA/MSK_DETFOO_B02.gml" = Raise KeyError.
Proof.
  assert (Htile : properties scene_mgrs !! "s2:mgrs_tile" = Some (PStr "05VMG"))
    by reflexivity.
  assert (Hlen : (3 <= String.length "05VMG")%nat) by (simpl; lia).
  split; [exact Htile|]. split; [exact Hlen|]. split.
  - exact (proj2 (proj2 (proj2 (proj2
             (X20_scene_file_url_needs_a_full_mgrs_tile
                scene_mgrs "QI_DATA/MSK_DETFOO_B02.gml"))))
             "05VMG" Htile Hlen).
  - exact (proj1 (proj2 (X20_scene_file_url_needs_a_full_mgrs_tile
                           tile_5VMG "QI_DATA/MSK_DETFOO_B02.gml")) eq_refl).
Defined.

Lemma X21_witness :
  assets tile_5VMG !! "granule-metadata" = None /\
  SensorAssets.add_sensor_array_metadata_as_assets tile_5VMG
  = (Raise KeyError, tile_5VMG) /\
  assets (SensorAssets.add_sensor_array_metadata_as_assets scene_granule).2 !! "B02"
  = assets scene_granule !! "B02".
Proof.
  split; [reflexivity|]. split.
  - exact (proj2 (proj2 (proj2 (X21_sensor_assets_leave_the_item_alone tile_5VMG)))
                 eq_refl).
  - exact (proj1 (proj2 (X21_sensor_assets_leave_the_item_alone scene_granule))
                 "B02" eq_refl).
Defined.

Lemma X22_witness :
  assets (SensorAssets.add_sensor_array_metadata_as_assets scene_granule).2
    !! "sensor-metadata-B02"
  = Some (mk_asset
            ("http://storage.googleapis.com/gcp-public-data-sentinel-2/tiles/05/V/MG/"
             +:+ "L1C_T05VMG_A021234/QI_DATA/MSK_DETFOO_B02.gml")
            (Some "application/xml") ["metadata"]) /\
  (assets scene_granule !! "sensor-metadata-B02"
   = Some (mk_asset
             ("http://storage.googleapis.com/gcp-public-data-sentinel-2/tiles/05/V/MG/"
              +:+ "L1C_T05VMG_A021234/QI_DATA/MSK_DETFOO_B02.gml")
             (Some "application/xml") ["metadata"]) \/
   (String.prefix "sensor-metadata-" "sensor-metadata-B02" = true /\
    roles (mk_asset
             ("http://storage.googleapis.com/gcp-public-data-sentinel-2/tiles/05/V/MG/"
              +:+ "L1C_T05VMG_A021234/QI_DATA/MSK_DETFOO_B02.gml")
             (Some "application/xml") ["metadata"]) = ["metadata"])).
Proof.
  assert (Hnew :
    assets (SensorAssets.add_sensor_array_metadata_as_assets scene_granule).2
      !! "sensor-metadata-B02"
    = Some (mk_asset
              ("http://storage.googleapis.com/gcp-public-data-sentinel-2/tiles/05/V/MG/"
               +:+ "L1C_T05VMG_A021234/QI_DATA/MSK_DETFOO_B02.gml")
              (Some "application/xml") ["metadata"])) by reflexivity.
  split; [exact Hnew|].
  destruct (X22_added_assets_are_sensor_metadata scene_granule _ _ Hnew)
    as [Hold|(Hpre & Hroles & _)]; [by left | right; by split].
Defined.

Lemma X23_witness :
  (0 < area aoi)%Qc /\
  Shadows.shadow_items aoi l2a_catalog [scene_100; scene_70; scene_80]
  = Shadows.shadow_items aoi l2a_catalog
      (filter (fun it : item box box Z =>
                 (Q2Qc (7 # 10) * area aoi
                  < area (intersection (geometry it) aoi))%Qc)
              [scene_100; scene_70; scene_80]).
Proof.
  assert (Hpos : (0 < area aoi)%Qc) by (vm_compute; reflexivity).
  split; [exact Hpos|].
  exact (proj1 (X23_items_below_the_threshold_do_not_matter
                  aoi l2a_catalog [scene_100; scene_70; scene_80] Hpos)).
Defined.


Lemma X25_witness :
  read_glaciers "https://dcache/GIS/Glacier/01_rgi60_Alaska.zip" = Ok inventory /\
  _get_bbox_from_glacier "https://dcache/GIS/Glacier/01_rgi60_Alaska.zip"
                         "RGI60-01.19773" tt 5000
  = Ok (mk_box (-4999) (-4999) 5003 5003) /\
  _get_bbox_from_glacier "https://dcache/GIS/Glacier/01_rgi60_Alaska.zip"
                         "RGI60-01.00002" tt 5000
  = Raise ValueError.
Proof.
  assert (Hread : read_glaciers "https://dcache/GIS/Glacier/01_rgi60_Alaska.zip"
                  = Ok inventory) by reflexivity.
  split; [exact Hread|]. split.
  - exact (X25_glacier_id_must_be_unique
             "https://dcache/GIS/Glacier/01_rgi60_Alaska.zip" "RGI60-01.19773"
             tt 5000 inventory Hread).
  - exact (X25_glacier_id_must_be_unique
             "https://dcache/GIS/Glacier/01_rgi60_Alaska.zip" "RGI60-01.00002"
             tt 5000 inventory Hread).
Defined.

Lemma X26_witness :
  rgi_tile_loop (H0 := two_grid_rasterio) "https://dcache/GIS/Glacier" tt
                rgi_one_match [("5VMG", tile_5VMG)] []
  = (Ok tt, [EvGetAsset "S2B_5VMG_20210329_0_L1C";
             EvGlob "https://dcache/GIS/Glacier/01_rgi60_*.zip";
             EvRasterize "5VMG"]) /\
  get_asset (Rasterio := two_grid_rasterio) (item_id tile_6VMG) = Ok east_grid /\
  length (filter (fun r : row box Z =>
                    intersects (row_geometry r)
                               (from_bounds
                                  (transform_bounds (Rasterio := two_grid_rasterio)
                                                    east_grid tt)) = true)
                 rgi_one_match) <> 1%nat /\
  rgi_tile_loop (H0 := two_grid_rasterio) "https://dcache/GIS/Glacier" tt
                rgi_one_match
                ([("5VMG", tile_5VMG)] ++ ("6VMG", tile_6VMG)
                                       :: [("5VMG-later", tile_5VMG_later)]) []
  = (Raise AssertionError,
     [EvGetAsset "S2B_5VMG_20210329_0_L1C";
      EvGlob "https://dcache/GIS/Glacier/01_rgi60_*.zip";
      EvRasterize "5VMG"] ++ [EvGetAsset (item_id tile_6VMG)]).
Proof.
  assert (Hpre : rgi_tile_loop (H0 := two_grid_rasterio)
                               "https://dcache/GIS/Glacier" tt
                               rgi_one_match [("5VMG", tile_5VMG)] []
                 = (Ok tt, [EvGetAsset "S2B_5VMG_20210329_0_L1C";
                            EvGlob "https://dcache/GIS/Glacier/01_rgi60_*.zip";
                            EvRasterize "5VMG"])) by reflexivity.
  assert (Hda : get_asset (Rasterio := two_grid_rasterio) (item_id tile_6VMG)
                = Ok east_grid) by reflexivity.
  assert (Hlen : length (filter (fun r : row box Z =>
                                   intersects (row_geometry r)
                                              (from_bounds
                                                 (transform_bounds
                                                    (Rasterio := two_grid_rasterio)
                                                    east_grid tt))
                                   = true)
                                rgi_one_match) <> 1%nat)
    by (vm_compute; lia).
  split; [exact Hpre|]. split; [exact Hda|]. split; [exact Hlen|].
  exact (X26_glacier_loop_stops_at_the_first_ambiguous_tile
           (H0 := two_grid_rasterio)
           "https://dcache/GIS/Glacier" tt rgi_one_match
           [("5VMG", tile_5VMG)] [("5VMG-later", tile_5VMG_later)]
           "6VMG" tile_6VMG east_grid [] _ Hpre Hda Hlen).
Defined.
